(** * ConcoLLMic: corpus, coverage engine and tool handlers

    A shallow embedding of the Python sources
      - [app/agents/trace.py]      (trace collector, per instrumented file)
      - [app/agents/coverage.py]   (coverage registry)
      - [app/agents/testcase.py]   (test case entity and corpus manager)
      - [app/agents/tools/smt_solver.py], [app/agents/tools/provide_solution.py]
    together with the properties of the specification that concern them.

    Conventions.  Python [int] is [Z]; Python [str] is [string] (texts are
    ASCII); a Python [dict] is a [gmap] where only lookups matter and an
    association list where the insertion order is observable; a Python [set]
    is a [gset]; a raised exception is the [Raise] branch of [result]; a
    method that mutates [self] returns the new object next to its outcome, so
    that mutations made before an exception remain visible. *)

From Stdlib Require Import ZArith QArith String Ascii List Lia.
From Stdlib Require Import DecimalString DecimalPos DecimalZ.
From stdpp Require Import gmap strings list fin_maps sorting.

#[local] Open Scope string_scope.
#[local] Open Scope Z_scope.

(** ** Exceptions *)

Inductive exn : Type :=
| KeyError
| IndexError
| AssertionError
| ValueError
| RuntimeError
| ZeroDivisionError
| OtherError (msg : string).

Inductive result (A : Type) : Type :=
| Ok (a : A)
| Raise (e : exn).
Arguments Ok {A} a.
Arguments Raise {A} e.

#[global] Instance result_ret : MRet result := λ A a, Ok a.
#[global] Instance result_bind : MBind result := λ A B f m,
  match m with
  | Ok a => f a
  | Raise e => Raise e
  end.

(** [d[k]] on a dictionary: [KeyError] when the key is absent. *)
Definition getitem `{Lookup K V M} (m : M) (k : K) : result V :=
  match m !! k with
  | Some v => Ok v
  | None => Raise KeyError
  end.

(** [l[-1]] on a list: [IndexError] when the list is empty. *)
Definition last_item {A} (l : list A) : result A :=
  match last l with
  | Some a => Ok a
  | None => Raise IndexError
  end.

Fixpoint mapR {A B} (f : A → result B) (l : list A) : result (list B) :=
  match l with
  | [] => Ok []
  | a :: l' => b ← f a; bs ← mapR f l'; Ok (b :: bs)
  end.

Fixpoint foldR {A S} (f : S → A → result S) (s : S) (l : list A) : result S :=
  match l with
  | [] => Ok s
  | a :: l' => s' ← f s a; foldR f s' l'
  end.

(** [range(a, b + 1)] *)
Definition range_incl (a b : Z) : list Z := seqZ a (b + 1 - a).

(** ** Python string operations *)

Module Py.

Definition isspace (c : ascii) : bool :=
  let n := N_of_ascii c in
  ((9 <=? n) && (n <=? 13) || (28 <=? n) && (n <=? 32))%N.

Definition isdigit (c : ascii) : bool :=
  let n := N_of_ascii c in ((48 <=? n) && (n <=? 57))%N.

Definition is_empty (s : string) : bool :=
  match s with
  | EmptyString => true
  | String _ _ => false
  end.

Fixpoint lstrip (s : string) : string :=
  match s with
  | EmptyString => EmptyString
  | String c r => if isspace c then lstrip r else s
  end.

Fixpoint rstrip (s : string) : string :=
  match s with
  | EmptyString => EmptyString
  | String c r =>
      let r' := rstrip r in
      if is_empty r' && isspace c then EmptyString else String c r'
  end.

Definition strip (s : string) : string := rstrip (lstrip s).

Definition startswith (s p : string) : bool := String.prefix p s.

Definition endswith (s p : string) : bool :=
  (String.length p <=? String.length s)%nat
  && String.eqb (String.substring (String.length s - String.length p) (String.length p) s) p.

(** [sub in s] *)
Fixpoint contains (sub s : string) : bool :=
  String.prefix sub s ||
  match s with
  | EmptyString => false
  | String _ r => contains sub r
  end.

(** [s.split(sep)] for a one-character separator *)
Fixpoint split (sep : ascii) (s : string) : list string :=
  match s with
  | EmptyString => [EmptyString]
  | String c r =>
      if Ascii.eqb c sep then EmptyString :: split sep r
      else match split sep r with
           | h :: t => String c h :: t
           | [] => [String c EmptyString]
           end
  end.

(** [s.split(sep, 1)]: cut at the first separator, if there is one *)
Fixpoint split1 (sep : ascii) (s : string) : string * option string :=
  match s with
  | EmptyString => (EmptyString, None)
  | String c r =>
      if Ascii.eqb c sep then (EmptyString, Some r)
      else let '(h, t) := split1 sep r in (String c h, t)
  end.

Definition join (sep : string) (l : list string) : string := String.concat sep l.

Fixpoint drop (n : nat) (s : string) : string :=
  match n, s with
  | O, _ => s
  | S n', String _ r => drop n' r
  | S _, EmptyString => EmptyString
  end.

Fixpoint take (n : nat) (s : string) : string :=
  match n, s with
  | O, _ => EmptyString
  | S n', String c r => String c (take n' r)
  | S _, EmptyString => EmptyString
  end.

(** [s.find(sub)], as an offset from [i] *)
Fixpoint find_from (sub s : string) (i : Z) : Z :=
  if String.prefix sub s then i
  else match s with
       | EmptyString => -1
       | String _ r => find_from sub r (i + 1)
       end.
Definition find (s sub : string) : Z := find_from sub s 0.

(** [s.rfind(sub)] *)
Fixpoint rfind_from (sub s : string) (i : Z) : Z :=
  match s with
  | EmptyString => if String.prefix sub s then i else -1
  | String _ r =>
      let later := rfind_from sub r (i + 1) in
      if 0 <=? later then later
      else if String.prefix sub s then i else -1
  end.
Definition rfind (s sub : string) : Z := rfind_from sub s 0.

(** the longest prefix of characters satisfying [p], and the rest *)
Fixpoint span (p : ascii → bool) (s : string) : string * string :=
  match s with
  | EmptyString => (EmptyString, EmptyString)
  | String c r =>
      if p c then let '(a, b) := span p r in (String c a, b)
      else (EmptyString, s)
  end.

Definition leading_ws (s : string) : nat :=
  (String.length s - String.length (lstrip s))%nat.

(** [str(n)] and [f"{n}"] for an integer *)
Definition str_of_Z (z : Z) : string := NilZero.string_of_int (Z.to_int z).

Definition digit_val (c : ascii) : Z := Z.of_N (N_of_ascii c) - 48.

Fixpoint digits_val (acc : Z) (s : string) : Z :=
  match s with
  | EmptyString => acc
  | String c r => digits_val (10 * acc + digit_val c) r
  end.

(** The digits of an integer literal accepted by [int()]: decimal digits,
    with single underscores allowed between two digits. *)
Fixpoint int_digits (prev_digit : bool) (acc : Z) (s : string) : option Z :=
  match s with
  | EmptyString => if prev_digit then Some acc else None
  | String c r =>
      if isdigit c then int_digits true (10 * acc + digit_val c) r
      else if Ascii.eqb c "_" && prev_digit
           then match r with
                | String d _ => if isdigit d then int_digits false acc r else None
                | EmptyString => None
                end
           else None
  end.

(** [int(s)]: [ValueError] unless [s] is an optionally signed decimal
    literal surrounded by optional white space. *)
Definition int (s : string) : result Z :=
  let t := strip s in
  let '(neg, body) :=
    match t with
    | String c r =>
        if Ascii.eqb c "-" then (true, r)
        else if Ascii.eqb c "+" then (false, r)
        else (false, t)
    | EmptyString => (false, t)
    end in
  match int_digits false 0 body with
  | Some z => Ok (if neg then - z else z)
  | None => Raise ValueError
  end.

(** The value of a sequence of decimal digits read from the left, starting
    from [acc], as [int_digits] accumulates it *)
Fixpoint uint_val (acc : Z) (d : Decimal.uint) : Z :=
  match d with
  | Decimal.Nil => acc
  | Decimal.D0 d => uint_val (10 * acc + 0) d
  | Decimal.D1 d => uint_val (10 * acc + 1) d
  | Decimal.D2 d => uint_val (10 * acc + 2) d
  | Decimal.D3 d => uint_val (10 * acc + 3) d
  | Decimal.D4 d => uint_val (10 * acc + 4) d
  | Decimal.D5 d => uint_val (10 * acc + 5) d
  | Decimal.D6 d => uint_val (10 * acc + 6) d
  | Decimal.D7 d => uint_val (10 * acc + 7) d
  | Decimal.D8 d => uint_val (10 * acc + 8) d
  | Decimal.D9 d => uint_val (10 * acc + 9) d
  end.

(** [c in s] for a one-character string [c] *)
Fixpoint has_char (c : ascii) (s : string) : bool :=
  match s with
  | EmptyString => false
  | String d r => Ascii.eqb d c || has_char c r
  end.

(** [s.lower()] *)
Definition lower_char (c : ascii) : ascii :=
  let n := N_of_ascii c in
  if ((65 <=? n) && (n <=? 90))%N then ascii_of_N (n + 32) else c.

Fixpoint lower (s : string) : string :=
  match s with
  | EmptyString => EmptyString
  | String c r => String (lower_char c) (lower r)
  end.

(** [s.isdigit()] for a text of ASCII characters: a decimal digit at every
    place, and at least one *)
Fixpoint all_digits (s : string) : bool :=
  match s with
  | EmptyString => true
  | String c r => isdigit c && all_digits r
  end.

Definition str_isdigit (s : string) : bool := negb (is_empty s) && all_digits s.

End Py.

(** The newline character as a string *)
Definition nl : string := String "010" EmptyString.


(** ** The trace collector ([app/agents/trace.py]) *)

Module Trace.

(** A block is a (function name, block id) pair. *)
Definition block : Type := string * Z.

Definition GLOBAL_BLOCK : block := ("Global", 0).
Definition INSTRUMENT_BLOCK : block := ("Instrumentation", 0).

(** *** [TRACE_PATTERN = r".*?(enter|exit)\s+([^\s]+)\s+(\d+).*?"]

    [marker_at s] matches [(enter|exit)\s+([^\s]+)\s+(\d+)] at the start of
    [s].  Every quantifier of that fragment is followed by a character
    class disjoint from its own, so the greedy choice is the only one. *)
Definition marker_at (s : string) : option (string * string * Z) :=
  let after_action :=
    if Py.startswith s "enter" then Some ("enter", Py.drop 5 s)
    else if Py.startswith s "exit" then Some ("exit", Py.drop 4 s)
    else None in
  match after_action with
  | None => None
  | Some (action, r0) =>
      let '(ws1, r1) := Py.span Py.isspace r0 in
      let '(name, r2) := Py.span (λ c, negb (Py.isspace c)) r1 in
      let '(ws2, r3) := Py.span Py.isspace r2 in
      let '(digits, _) := Py.span Py.isdigit r3 in
      if Py.is_empty ws1 || Py.is_empty name || Py.is_empty ws2 || Py.is_empty digits
      then None
      else Some (action, name, Py.digits_val 0 digits)
  end.

(** [re.match(TRACE_PATTERN, s)]: the lazy [.*?] skips as few characters as
    possible, none of them a newline. *)
Fixpoint match_trace_pattern (s : string) : option (string * string * Z) :=
  match marker_at s with
  | Some m => Some m
  | None =>
      match s with
      | EmptyString => None
      | String c r => if Ascii.eqb c "010" then None else match_trace_pattern r
      end
  end.

Definition get_executed_blocks (trace_str : string) : gset block :=
  fold_left
    (λ executed line,
       match match_trace_pattern (Py.strip line) with
       | Some (_, func_name, bb_id) => executed ∪ {[ (func_name, bb_id) ]}
       | None => executed
       end)
    (Py.split "010" trace_str)
    {[ GLOBAL_BLOCK ]}.

Record TraceCollector : Type := mkTraceCollector {
  file_path : string;
  language : string;
  comment_token : string;
  line2code : gmap Z string;
  begin_copyright_lines : Z;
  line2blocks : gmap Z (list block);
  block2cov : gmap block Z;
  block2lines : gmap block (Z * Z);
  block2real_lines : gmap block (Z * Z);
  real_line2line : gmap Z Z;
  size : Z;
  instrumentation_cnt : Z;
  summary : gmap Z string
}.

Definition set_block2cov (tc : TraceCollector) (cov : gmap block Z) : TraceCollector :=
  mkTraceCollector (file_path tc) (language tc) (comment_token tc) (line2code tc)
    (begin_copyright_lines tc) (line2blocks tc) cov (block2lines tc)
    (block2real_lines tc) (real_line2line tc) (size tc) (instrumentation_cnt tc)
    (summary tc).

Definition set_summary (tc : TraceCollector) (s : gmap Z string) : TraceCollector :=
  mkTraceCollector (file_path tc) (language tc) (comment_token tc) (line2code tc)
    (begin_copyright_lines tc) (line2blocks tc) (block2cov tc) (block2lines tc)
    (block2real_lines tc) (real_line2line tc) (size tc) (instrumentation_cnt tc)
    s.

(** *** Construction of a collector *)

Fixpoint count_while {A} (p : A → bool) (l : list A) : nat :=
  match l with
  | a :: l' => if p a then S (count_while p l') else O
  | [] => O
  end.

Fixpoint drop_while {A} (p : A → bool) (l : list A) : list A :=
  match l with
  | a :: l' => if p a then drop_while p l' else l
  | [] => []
  end.

Fixpoint index_where {A} (p : A → bool) (l : list A) : option nat :=
  match l with
  | a :: l' => if p a then Some O else S <$> index_where p l'
  | [] => None
  end.

Definition is_blank (line : string) : bool := Py.is_empty (Py.strip line).

(** [[source_code[i] for i in range(1, len(source_code) + 1)]] *)
Definition lines_of (source_code : gmap Z string) : result (list string) :=
  mapR (getitem source_code) (range_incl 1 (Z.of_nat (base.size source_code))).

(** [{i + 1: lines[i] for i in range(len(lines))}] *)
Definition numbered (lines : list string) : gmap Z string :=
  list_to_map (imap (λ i line, (Z.of_nat i + 1, line)) lines).

Definition is_cost_comment (comment_token line : string) : bool :=
  Py.startswith (Py.strip line) comment_token
  && (Py.contains "Total cost" line
      || Py.contains "Total split cost" line
      || Py.contains "Total instrumented cost" line).

(** [app.agents.common.delete_instrumentation_comments]: the blank lines at
    the end of the file are popped, then the cost comments before them. *)
Definition delete_instrumentation_comments (source_code : gmap Z string)
    (comment_token : string) : result (gmap Z string) :=
  lines ← lines_of source_code;
  let lines := rev (drop_while is_blank (rev lines)) in
  let lines := rev (drop_while (is_cost_comment comment_token) (rev lines)) in
  Ok (numbered lines).

Definition copyright_keywords : list string :=
  ["copyright"; "license"; "redistribution"; "permission"; "author";
   "rights reserved"; "copying"; "licensed"].

(** [lines[first : last + 1]] joined, lowered and searched for a keyword *)
Definition mentions_copyright (lines : list string) (first last : nat) : bool :=
  let comment_block :=
    Py.lower (Py.join nl (take (S last - first) (drop first lines))) in
  existsb (λ keyword, Py.contains keyword comment_block) copyright_keywords.

(** The index of the line that ends the multiline comment opened by the
    line at [current_line], when there is one *)
Definition multiline_comment_end (lines : list string) (current_line : nat)
    (first_non_empty_line start_token end_token : string) : option nat :=
  if Py.contains end_token (Py.drop (String.length start_token) first_non_empty_line)
  then Some current_line
  else
    i ← index_where (Py.contains end_token) (drop (S current_line) lines);
    Some (S current_line + i)%nat.

Definition _count_copyright_comments (comment_token : string)
    (multiline_comment_tokens : option (string * string)) (line2code : gmap Z string)
  : result Z :=
  lines ← lines_of line2code;
  let current_line := count_while is_blank lines in
  match lines !! current_line with
  | None => Ok 0
  | Some line =>
      let first_non_empty_line := Py.strip line in
      let multiline_block :=
        '(start_token, end_token) ← multiline_comment_tokens;
        guard (Py.startswith first_non_empty_line start_token = true);;
        comment_block_end ←
          multiline_comment_end lines current_line first_non_empty_line
            start_token end_token;
        guard (mentions_copyright lines current_line comment_block_end = true);;
        Some (Z.of_nat comment_block_end + 1) in
      match multiline_block with
      | Some lines_to_remove => Ok lines_to_remove
      | None =>
          if Py.startswith first_non_empty_line comment_token then
            let comments :=
              count_while
                (λ l, negb (is_blank l) && Py.startswith (Py.strip l) comment_token)
                (drop current_line lines) in
            let consecutive_comments_end := (current_line + comments - 1)%nat in
            if mentions_copyright lines current_line consecutive_comments_end
            then Ok (Z.of_nat consecutive_comments_end + 1)
            else Ok 0
          else Ok 0
      end
  end.

Definition set_line2blocks (tc : TraceCollector) (m : gmap Z (list block)) : TraceCollector :=
  mkTraceCollector (file_path tc) (language tc) (comment_token tc) (line2code tc)
    (begin_copyright_lines tc) m (block2cov tc) (block2lines tc)
    (block2real_lines tc) (real_line2line tc) (size tc) (instrumentation_cnt tc)
    (summary tc).

Definition set_block2lines (tc : TraceCollector) (m : gmap block (Z * Z)) : TraceCollector :=
  mkTraceCollector (file_path tc) (language tc) (comment_token tc) (line2code tc)
    (begin_copyright_lines tc) (line2blocks tc) (block2cov tc) m
    (block2real_lines tc) (real_line2line tc) (size tc) (instrumentation_cnt tc)
    (summary tc).

Definition set_block2real_lines (tc : TraceCollector) (m : gmap block (Z * Z))
  : TraceCollector :=
  mkTraceCollector (file_path tc) (language tc) (comment_token tc) (line2code tc)
    (begin_copyright_lines tc) (line2blocks tc) (block2cov tc) (block2lines tc)
    m (real_line2line tc) (size tc) (instrumentation_cnt tc)
    (summary tc).

Definition set_real_line2line (tc : TraceCollector) (m : gmap Z Z) : TraceCollector :=
  mkTraceCollector (file_path tc) (language tc) (comment_token tc) (line2code tc)
    (begin_copyright_lines tc) (line2blocks tc) (block2cov tc) (block2lines tc)
    (block2real_lines tc) m (size tc) (instrumentation_cnt tc)
    (summary tc).

Definition set_instrumentation_cnt (tc : TraceCollector) (n : Z) : TraceCollector :=
  mkTraceCollector (file_path tc) (language tc) (comment_token tc) (line2code tc)
    (begin_copyright_lines tc) (line2blocks tc) (block2cov tc) (block2lines tc)
    (block2real_lines tc) (real_line2line tc) (size tc) n
    (summary tc).

(** [self.line2blocks[line][-1] == INSTRUMENT_BLOCK] *)
Definition is_instrumentation_line (tc : TraceCollector) (line : Z) : result bool :=
  blocks ← getitem (line2blocks tc) line;
  leaf ← last_item blocks;
  Ok (bool_decide (leaf = INSTRUMENT_BLOCK)).

(** The two loops that move the ends of a block off the instrumentation
    lines nested in it.  Every round brings [new_start] and [new_end]
    closer, so their distance bounds the rounds. *)
Fixpoint skip_start (rounds : nat) (tc : TraceCollector) (new_start new_end : Z)
  : result Z :=
  match rounds with
  | O => Ok new_start
  | S rounds' =>
      if (new_start <? size tc) && (new_start <? new_end) then
        instrumentation ← is_instrumentation_line tc new_start;
        if instrumentation : bool then skip_start rounds' tc (new_start + 1) new_end
        else Ok new_start
      else Ok new_start
  end.

Fixpoint skip_end (rounds : nat) (tc : TraceCollector) (new_start new_end : Z)
  : result Z :=
  match rounds with
  | O => Ok new_end
  | S rounds' =>
      if (1 <? new_end) && (new_start <? new_end) then
        instrumentation ← is_instrumentation_line tc new_end;
        if instrumentation : bool then skip_end rounds' tc new_start (new_end - 1)
        else Ok new_end
      else Ok new_end
  end.

(** One round of the loop of [_parse_source_code_to_blocks], on the
    collector, [block_id_stack] (the innermost block last) and the blocks
    in the order in which [block2real_lines] received them. *)
Definition parse_line (st : TraceCollector * list block * list block) (i : Z)
  : result (TraceCollector * list block * list block) :=
  let '(tc, block_id_stack, block_order) := st in
  line ← getitem (line2code tc) i;
  match match_trace_pattern (Py.strip line) with
  | Some (action, func_name, bb_id) =>
      let cnt := instrumentation_cnt tc + 1 in
      let tc := set_instrumentation_cnt tc cnt in
      let block_id : block := (func_name, bb_id) in
      let tc := set_line2blocks tc (<[i := [INSTRUMENT_BLOCK]]> (line2blocks tc)) in
      if String.eqb action "enter" then
        let block_order :=
          if decide (is_Some (block2real_lines tc !! block_id)) then block_order
          else (block_order ++ [block_id])%list in
        let tc := set_block2lines tc (<[block_id := (i + 1, i + 1)]> (block2lines tc)) in
        let tc :=
          set_block2real_lines tc
            (<[block_id := (i + 1 - cnt, i + 1 - cnt)]> (block2real_lines tc)) in
        Ok (tc, (block_id_stack ++ [block_id])%list, block_order)
      else
        _ ← last_item block_id_stack;
        let block_id_stack := removelast block_id_stack in
        '(start_line, _) ← getitem (block2lines tc) block_id;
        let tc := set_block2lines tc (<[block_id := (start_line, i - 1)]> (block2lines tc)) in
        '(real_start_line, _) ← getitem (block2real_lines tc) block_id;
        let tc :=
          set_block2real_lines tc
            (<[block_id := (real_start_line, i - 1 - (cnt - 1))]> (block2real_lines tc)) in
        let new_end := i - 1 in
        new_start ← skip_start (Z.to_nat (new_end - start_line)) tc start_line new_end;
        new_end ← skip_end (Z.to_nat (new_end - new_start)) tc new_start new_end;
        let tc := set_block2lines tc (<[block_id := (new_start, new_end)]> (block2lines tc)) in
        Ok (tc, block_id_stack, block_order)
  | None =>
      let tc :=
        set_real_line2line tc (<[i - instrumentation_cnt tc := i]> (real_line2line tc)) in
      let tc := set_line2blocks tc (<[i := block_id_stack]> (line2blocks tc)) in
      Ok (tc, block_id_stack, block_order)
  end.

Definition _parse_source_code_to_blocks (tc : TraceCollector)
  : result (TraceCollector * list block) :=
  '(tc, _, block_order) ←
    foldR parse_line (set_instrumentation_cnt tc 0, [GLOBAL_BLOCK], [])
      (range_incl 1 (size tc));
  Ok (tc, block_order).

(** The check that ends [__init__], for one block *)
Definition check_block (tc : TraceCollector) (_ : unit) (b : block) : result unit :=
  '(real_line_start, real_line_end) ← getitem (block2real_lines tc) b;
  '(line_start, line_end) ← getitem (block2lines tc) b;
  line ← getitem (real_line2line tc) real_line_start;
  if negb (line_start =? line) then Raise AssertionError
  else
    line ← getitem (real_line2line tc) real_line_end;
    if negb (line_end =? line) then Raise AssertionError else Ok ().

(** [TraceCollector.__init__] from the language, the comment tokens and the
    numbered lines that [app.utils.utils] gives for [file_path] *)
Definition new (file_path language comment_token : string)
    (multiline_comment_tokens : option (string * string)) (source_code : gmap Z string)
  : result TraceCollector :=
  line2code ← delete_instrumentation_comments source_code comment_token;
  begin_copyright_lines ←
    _count_copyright_comments comment_token multiline_comment_tokens line2code;
  let tc :=
    mkTraceCollector file_path language comment_token line2code begin_copyright_lines
      ∅ ∅ ∅ ∅ ∅ (Z.of_nat (base.size line2code)) 0 ∅ in
  '(tc, block_order) ← _parse_source_code_to_blocks tc;
  _ ← foldR (check_block tc) () block_order;
  Ok tc.

(** [self.block2cov.get(self.line2blocks[line_no][-1], 0)] *)
Definition get_line_covered_times (tc : TraceCollector) (line_no : Z) : result Z :=
  blocks ← getitem (line2blocks tc) line_no;
  leaf ← last_item blocks;
  Ok (default 0 (block2cov tc !! leaf)).

Definition get_real_line_content (tc : TraceCollector) (real_line_no : Z) : result string :=
  line ← getitem (real_line2line tc) real_line_no;
  getitem (line2code tc) line.

(** The hit count of a real (de-instrumented) line. *)
Definition real_line_covered_times (tc : TraceCollector) (real_line : Z) : result Z :=
  line ← getitem (real_line2line tc) real_line;
  get_line_covered_times tc line.

(** [[get_line_covered_times(real_line2line[l]) for l in range(start, end + 1)]] *)
Definition target_lines_cov (tc : TraceCollector) (target_lines : option (Z * Z))
  : result (list Z) :=
  match target_lines with
  | None => Ok []
  | Some (s, e) => mapR (real_line_covered_times tc) (range_incl s e)
  end.

(** One iteration of the loop over the real lines of a newly covered block:
    the line counts when it is not blank and its innermost block is [b]. *)
Definition count_real_line (tc : TraceCollector) (b : block)
    (acc : Z * gmap Z string) (real_line : Z) : result (Z * gmap Z string) :=
  let '(new_covered_lines, contents) := acc in
  code ← get_real_line_content tc real_line;
  if Py.is_empty (Py.strip code) then Ok acc
  else
    line ← getitem (real_line2line tc) real_line;
    blocks ← getitem (line2blocks tc) line;
    leaf ← last_item blocks;
    if decide (leaf = b) then
      match contents !! real_line with
      | Some _ => Raise AssertionError
      | None => Ok (new_covered_lines + 1, <[real_line := code]> contents)
      end
    else Ok acc.

(** The loop [for block in executed_blocks] of [collect_trace].  The
    assignments to [self.block2cov] made before an exception stay. *)
Fixpoint cover_blocks (tc : TraceCollector) (blocks : list block)
    (cov : gmap block Z) (acc : Z * gmap Z string) (global_first : bool)
  : gmap block Z * result (Z * bool) :=
  match blocks with
  | [] => (cov, Ok (acc.1, global_first))
  | b :: rest =>
      let prev_cov := default 0 (cov !! b) in
      let cov' := <[b := prev_cov + 1]> cov in
      if decide (b = GLOBAL_BLOCK) then
        cover_blocks tc rest cov' acc (bool_decide (prev_cov = 0))
      else if decide (prev_cov = 0) then
        match getitem (block2real_lines tc) b with
        | Raise e => (cov', Raise e)
        | Ok (start_real, end_real) =>
            match foldR (count_real_line tc b) acc (range_incl start_real end_real) with
            | Raise e => (cov', Raise e)
            | Ok acc' => cover_blocks tc rest cov' acc' global_first
            end
        end
      else cover_blocks tc rest cov' acc global_first
  end.

(** [sum(1 for cov, prev in zip(after, before) if cov > prev)] *)
Fixpoint covered_lines_count (after before : list Z) : Z :=
  match after, before with
  | a :: after', p :: before' =>
      (if p <? a then 1 else 0) + covered_lines_count after' before'
  | _, _ => 0
  end.

Definition summary_header (tc : TraceCollector) : string :=
  comment_token tc ++ " " ++ file_path tc ++ " ("
    ++ Py.str_of_Z (size tc - instrumentation_cnt tc) ++ " lines total)".

(** [{1: header}] updated with [{i + 2: summary_list[i]}] *)
Definition summary_dict (tc : TraceCollector) (summary_list : list string) : gmap Z string :=
  list_to_map ((1, summary_header tc)
                 :: imap (λ i s, (Z.of_nat i + 2, s)) summary_list).

(** *** The annotated source view *)

(** The first group of [re.match] on the pattern of leading whitespace *)
Definition indent_of (code : string) : string := (Py.span Py.isspace code).1.

(** One round of the loop over the lines of an unexecuted block, on
    [(lines_with_coverage, total_real_lines)]. *)
Definition count_block_line (tc : TraceCollector) (acc : Z * Z) (line : Z)
  : result (Z * Z) :=
  let '(lines_with_coverage, total_real_lines) := acc in
  code ← getitem (line2code tc) line;
  if Py.is_empty (Py.strip code) then Ok acc
  else if match_trace_pattern (Py.strip code) is Some _ then Ok acc
  else
    cov ← get_line_covered_times tc line;
    Ok (if 0 <? cov then lines_with_coverage + 1 else lines_with_coverage,
        total_real_lines + 1).

(** The pattern that [_merge_unexecuted_comments] compiles is a sequence of
    literal texts, [(\d+)] and [([0-9.]+)].  Each repetition is followed by
    a literal whose first character is outside its class, so the greedy
    match is the only one.  The comment token is interpolated into the
    pattern and is read here as literal text, which it is for a token
    without regex operators, such as [#] or [//]. *)
Inductive piece : Type :=
| Lit (s : string)
| Digits
| DigitsOrDots.

Definition is_digit_or_dot (c : ascii) : bool := Py.isdigit c || Ascii.eqb c ".".

Definition capture (p : ascii → bool) (s : string) : option (string * string) :=
  let '(g, r) := Py.span p s in
  if Py.is_empty g then None else Some (g, r).

(** The groups captured when the pieces match a prefix of [s] *)
Fixpoint match_pieces (ps : list piece) (s : string) : option (list string) :=
  match ps with
  | [] => Some []
  | Lit l :: ps' =>
      if Py.startswith s l then match_pieces ps' (Py.drop (String.length l) s)
      else None
  | Digits :: ps' =>
      match capture Py.isdigit s with
      | Some (g, r) => cons g <$> match_pieces ps' r
      | None => None
      end
  | DigitsOrDots :: ps' =>
      match capture is_digit_or_dot s with
      | Some (g, r) => cons g <$> match_pieces ps' r
      | None => None
      end
  end.

(** [pattern.search(s)]: the match at the leftmost position that has one *)
Fixpoint search_pieces (ps : list piece) (s : string) : option (list string) :=
  match match_pieces ps s with
  | Some gs => Some gs
  | None =>
      match s with
      | EmptyString => None
      | String _ r => search_pieces ps r
      end
  end.

(** [rf"{self.comment_token} unexecuted: \((\d+)-(\d+)\), cov: (\d+)/(\d+) \(([0-9.]+)%\)"] *)
Definition unexecuted_pattern (comment_token : string) : list piece :=
  [Lit (comment_token ++ " unexecuted: ("); Digits; Lit "-"; Digits;
   Lit "), cov: "; Digits; Lit "/"; Digits; Lit " ("; DigitsOrDots; Lit "%)"].

(** [unexecuted_pattern.search(line)], with its five groups *)
Definition search_unexecuted (comment_token line : string)
  : option (string * string * string * string * string) :=
  match search_pieces (unexecuted_pattern comment_token) line with
  | Some [g1; g2; g3; g4; g5] => Some (g1, g2, g3, g4, g5)
  | _ => None
  end.

(** The inner [while j < len(summary_list)] loop, on the lines after the
    comment at [i]: the comments appended to [consecutive_comments] and the
    number of lines that [j] advances over; blank lines are advanced over
    without being kept. *)
Fixpoint consecutive (comment_token : string) (rest : list string) : list string * nat :=
  match rest with
  | [] => ([], 0%nat)
  | next_line :: rest' =>
      if Py.is_empty (Py.strip next_line) then
        let '(comments, k) := consecutive comment_token rest' in (comments, S k)
      else if search_unexecuted comment_token next_line is Some _ then
        let '(comments, k) := consecutive comment_token rest' in
        (next_line :: comments, S k)
      else ([], 0%nat)
  end.


Section CollectTrace.

(** The order in which [for block in executed_blocks] visits a set: an
    enumeration of its elements, each once, that the interpreter fixes and
    the language leaves unspecified. *)
Variable iteration_order : gset block → list block.

(** The floating-point formats of the view: [f"{a / b:.1%}"] and
    [f"{a / b:.0%}"] for integers [a] and [b ≠ 0], and
    [f"{float(s) / 100:.0%}"], where [float] raises [ValueError] on a text
    that is no number. *)
Variable percent_1 : Z → Z → string.
Variable percent_0 : Z → Z → string.
Variable percent_0_of_text : string → result string.

(** One round of the loop over the lines of the file, on
    [(summary_list, visited_block)]. *)
Definition summary_line (tc : TraceCollector) (executed_blocks : gset block)
    (st : list string * gset block) (line_no : Z)
  : result (list string * gset block) :=
  let '(summary_list, visited_block) := st in
  blocks ← getitem (line2blocks tc) line_no;
  code ← getitem (line2code tc) line_no;
  let indent := indent_of code in
  leaf ← last_item blocks;
  if decide (leaf = INSTRUMENT_BLOCK) then Ok st
  else if decide (leaf = GLOBAL_BLOCK) then Ok ((summary_list ++ [code])%list, visited_block)
  else if decide (leaf ∈ visited_block) then
    Ok (if decide (leaf ∈ executed_blocks) then (summary_list ++ [code])%list
        else summary_list,
        visited_block)
  else
    let visited_block := visited_block ∪ {[ leaf ]} in
    if existsb (λ parent_block, negb (bool_decide (parent_block ∈ executed_blocks)))
         (removelast blocks)
    then Ok (summary_list, visited_block)
    else if decide (leaf ∈ executed_blocks) then Ok ((summary_list ++ [code])%list, visited_block)
    else
      '(start_line, end_line) ← getitem (block2lines tc) leaf;
      '(real_start_line, real_end_line) ← getitem (block2real_lines tc) leaf;
      '(lines_with_coverage, total_real_lines) ←
        foldR (count_block_line tc) (0, 0) (range_incl start_line end_line);
      if total_real_lines =? 0 then Raise ZeroDivisionError
      else
        let unex_comment :=
          indent ++ comment_token tc ++ " unexecuted: ("
            ++ Py.str_of_Z real_start_line ++ "-" ++ Py.str_of_Z real_end_line
            ++ "), cov: " ++ Py.str_of_Z lines_with_coverage ++ "/"
            ++ Py.str_of_Z total_real_lines
            ++ " (" ++ percent_1 lines_with_coverage total_real_lines ++ ")" in
        Ok ((summary_list ++ [unex_comment])%list, visited_block).

(** The comment that replaces several consecutive ones *)
Definition merge_comments (comment_token indent : string)
    (consecutive_comments : list string) : result (list string) :=
  let first_match := hd_error consecutive_comments ≫= search_unexecuted comment_token in
  let last_match := last consecutive_comments ≫= search_unexecuted comment_token in
  match first_match, last_match with
  | Some (g1, _, _, _, _), Some (_, g2, _, _, _) =>
      let start_line := Py.digits_val 0 g1 in
      let end_line := Py.digits_val 0 g2 in
      '(total_lines_with_coverage, total_lines) ←
        foldR (λ '(c, t) comment,
                 match search_unexecuted comment_token comment with
                 | Some (_, _, g3, g4, _) =>
                     Ok (c + Py.digits_val 0 g3, t + Py.digits_val 0 g4)
                 | None => Raise ValueError
                 end)
          (0, 0) consecutive_comments;
      let ratio :=
        if 0 <? total_lines then percent_0 total_lines_with_coverage total_lines
        else "0%" in
      Ok [indent ++ comment_token ++ " Unexecuted code (lines "
            ++ Py.str_of_Z start_line ++ "-" ++ Py.str_of_Z end_line
            ++ ") removed. Its line cov: " ++ Py.str_of_Z total_lines_with_coverage
            ++ "/" ++ Py.str_of_Z total_lines ++ " (" ++ ratio ++ ")"]
  | _, _ => Ok consecutive_comments
  end.

(** The comment that replaces a single one *)
Definition reword_comment (comment_token indent line : string) : result string :=
  match search_unexecuted comment_token line with
  | Some (start_line, end_line, lines_with_cov, total_lines, ratio_text) =>
      ratio ← percent_0_of_text ratio_text;
      Ok (indent ++ comment_token ++ " Unexecuted code ("
            ++ (if String.eqb start_line end_line then "line " ++ start_line
                else "lines " ++ start_line ++ "-" ++ end_line)
            ++ ") removed. Its line cov: " ++ lines_with_cov ++ "/" ++ total_lines
            ++ " (" ++ ratio ++ ")")
  | None => Raise ValueError
  end.

(** The outer [while i < len(summary_list)] loop, on the lines from [i] on.
    Every round advances [i], so as many rounds as there are lines left
    finish it. *)
Fixpoint merge_from (rounds : nat) (comment_token : string) (lines : list string)
  : result (list string) :=
  match rounds, lines with
  | O, _ | _, [] => Ok []
  | S rounds', line :: rest =>
      if search_unexecuted comment_token line is Some _ then
        let '(more, advanced) := consecutive comment_token rest in
        let indent := indent_of line in
        if more is [] then
          merged_comment ← reword_comment comment_token indent line;
          merged_list ← merge_from rounds' comment_token rest;
          Ok (merged_comment :: merged_list)
        else
          merged ← merge_comments comment_token indent (line :: more);
          merged_list ← merge_from rounds' comment_token (drop advanced rest);
          Ok (merged ++ merged_list)%list
      else
        merged_list ← merge_from rounds' comment_token rest;
        Ok (line :: merged_list)
  end.

Definition _merge_unexecuted_comments (tc : TraceCollector) (summary_list : list string)
  : result (list string) :=
  merge_from (length summary_list) (comment_token tc) summary_list.

(** The annotated view of the file after a run: the code of the executed
    blocks, a comment for each unexecuted block under an executed parent,
    consecutive comments merged. *)
Definition render_summary_list (tc : TraceCollector) (executed_blocks : gset block)
  : result (list string) :=
  '(summary_list, _) ←
    foldR (summary_line tc executed_blocks) ([], ∅)
      (range_incl (begin_copyright_lines tc + 1) (size tc));
  _merge_unexecuted_comments tc summary_list.

(** [app.utils.utils.format_code(summary, language, numbered=False, qouted=True)] *)
Variable format_code : gmap Z string → string → result string.

Definition get_last_summary_as_code (tc : TraceCollector) : result string :=
  format_code (summary tc) (language tc).

Definition collect_trace (tc : TraceCollector) (trace_str : string)
    (target_lines : option (Z * Z)) (add_coverage : bool)
  : TraceCollector * result (Z * bool * string) :=
  match target_lines_cov tc target_lines with
  | Raise e => (tc, Raise e)
  | Ok target_lines_prev_cov =>
      let executed_blocks := get_executed_blocks trace_str in
      let '(cov, counted) :=
        if add_coverage
        then cover_blocks tc (iteration_order executed_blocks) (block2cov tc) (0, ∅) false
        else (block2cov tc, Ok (0, false)) in
      let tc1 := set_block2cov tc cov in
      match counted with
      | Raise e => (tc1, Raise e)
      | Ok (new_covered_lines, global_first) =>
          if global_first && negb (0 <? new_covered_lines)
          then (tc1, Raise AssertionError)
          else
            match render_summary_list tc1 executed_blocks with
            | Raise e => (tc1, Raise e)
            | Ok summary_list =>
                let tc2 := set_summary tc1 (summary_dict tc1 summary_list) in
                (tc2,
                 is_target_lines_covered ←
                   match target_lines with
                   | Some _ =>
                       target_lines_cov' ← target_lines_cov tc2 target_lines;
                       Ok (0 <? covered_lines_count target_lines_cov' target_lines_prev_cov)
                   | None => Ok true
                   end;
                 code ← get_last_summary_as_code tc2;
                 Ok (new_covered_lines, is_target_lines_covered, code))
            end
      end
  end.

End CollectTrace.

(** *** Queries on a collector *)

(** [len(self.real_line2line)] *)
Definition get_real_line_size (tc : TraceCollector) : Z :=
  Z.of_nat (base.size (real_line2line tc)).

(** [get_real_line_coverage]: the hit count of every real line *)
Definition get_real_line_coverage (tc : TraceCollector) : result (gmap Z Z) :=
  foldR
    (λ real_line2cov real_line_no,
       line ← getitem (real_line2line tc) real_line_no;
       cov ← get_line_covered_times tc line;
       Ok (<[real_line_no := cov]> real_line2cov))
    ∅ (range_incl 1 (get_real_line_size tc)).

(** [get_function_real_lines]: the union of the real-line ranges of the
    blocks of the function *)
Definition get_function_real_lines (tc : TraceCollector) (func_name : string) : gset Z :=
  ⋃ ((λ entry : block * (Z * Z),
        if String.eqb entry.1.1 func_name
        then list_to_set (range_incl entry.2.1 entry.2.2)
        else ∅) <$> map_to_list (block2real_lines tc)).

(** *** [FILE_TRACE_PATTERN = r"\[([^\s\]]+)\]\s+(enter|exit)\s+([^\s]+)\s+(\d+)"]

    [file_marker_at s] matches the pattern at the start of [s] and gives
    its groups with the number of characters matched.  As in
    [TRACE_PATTERN], each repetition is followed by a character outside
    its class, so the greedy match is the only one. *)
Definition file_marker_at (s : string) : option (string * string * string * Z * nat) :=
  match s with
  | String "[" r =>
      let '(file_name, r) := Py.span (λ c, negb (Py.isspace c || Ascii.eqb c "]")) r in
      match r with
      | String "]" r =>
          let '(ws0, r) := Py.span Py.isspace r in
          let after_action :=
            if Py.startswith r "enter" then Some ("enter", Py.drop 5 r)
            else if Py.startswith r "exit" then Some ("exit", Py.drop 4 r)
            else None in
          match after_action with
          | None => None
          | Some (action, r) =>
              let '(ws1, r) := Py.span Py.isspace r in
              let '(func_name, r) := Py.span (λ c, negb (Py.isspace c)) r in
              let '(ws2, r) := Py.span Py.isspace r in
              let '(digits, r) := Py.span Py.isdigit r in
              if Py.is_empty file_name || Py.is_empty ws0 || Py.is_empty ws1
                 || Py.is_empty func_name || Py.is_empty ws2 || Py.is_empty digits
              then None
              else Some (file_name, action, func_name, Py.digits_val 0 digits,
                         (String.length s - String.length r)%nat)
          end
      | _ => None
      end
  | _ => None
  end.

(** [re.findall(FILE_TRACE_PATTERN, s)]: the matches from left to right,
    none overlapping another; [skip] counts the characters of the last
    match that are still to pass. *)
Fixpoint findall_file_markers (skip : nat) (s : string)
  : list (string * string * string * Z) :=
  match s with
  | EmptyString => []
  | String _ r =>
      match skip with
      | S skip' => findall_file_markers skip' r
      | O =>
          match file_marker_at s with
          | Some (file_name, action, func_name, block_id, len) =>
              (file_name, action, func_name, block_id)
                :: findall_file_markers (len - 1) r
          | None => findall_file_markers 0 r
          end
      end
  end.

(** One match in the loop of [trace_compress], on [last_file_and_func]
    ([None] for [(None, None)]), [cur_func_blocks] and [call_chain]; the
    chain is kept with the block sets, which the function turns into
    lists. *)
Definition compress_match
    (st : option (string * string) * gset Z * list (string * string * gset Z))
    (m : string * string * string * Z)
  : option (string * string) * gset Z * list (string * string * gset Z) :=
  let '(last_file_and_func, cur_func_blocks, call_chain) := st in
  let '(file_name, action, func_name, block_id) := m in
  let last_file_and_func := default (file_name, func_name) last_file_and_func in
  let '(last_file_and_func, cur_func_blocks, call_chain) :=
    if decide ((file_name, func_name) ≠ last_file_and_func)
    then ((file_name, func_name), ∅,
          (call_chain
             ++ [(last_file_and_func.1, last_file_and_func.2, cur_func_blocks)])%list)
    else (last_file_and_func, cur_func_blocks, call_chain) in
  (Some last_file_and_func,
   (if String.eqb action "enter" then cur_func_blocks ∪ {[ block_id ]}
    else cur_func_blocks),
   call_chain).

Definition compressed_chain (trace : string) : list (string * string * gset Z) :=
  let lines := Py.split "010" (Py.strip trace) in
  let '(last_file_and_func, cur_func_blocks, call_chain) :=
    fold_left
      (λ st line, fold_left compress_match (findall_file_markers 0 (Py.strip line)) st)
      lines (None, ∅, []) in
  match last_file_and_func with
  | Some (file_name, func_name) =>
      if 0 <? Z.of_nat (base.size cur_func_blocks)
      then (call_chain ++ [(file_name, func_name, cur_func_blocks)])%list
      else call_chain
  | None => call_chain
  end.

Section Queries.

(** The order in which a set of integers is iterated and listed *)
Variable int_order : gset Z → list Z.

(** [trace_compress]: the chain of [(file, function, list(blocks))] *)
Definition trace_compress (trace : string) : list (string * string * list Z) :=
  (λ entry : string * string * gset Z, (entry.1.1, entry.1.2, int_order entry.2))
    <$> compressed_chain trace.

(** [get_function_line_cov]: the covered and the total real lines of a
    function *)
Definition get_function_line_cov (tc : TraceCollector) (func_name : string)
  : result (Z * Z) :=
  real_line2cov ← get_real_line_coverage tc;
  let function_real_lines := get_function_real_lines tc func_name in
  func_covered_lines ←
    foldR (λ n real_line,
             cov ← getitem real_line2cov real_line;
             Ok (if 0 <? cov then n + 1 else n))
      0 (int_order function_real_lines);
  if negb (0 <? Z.of_nat (base.size function_real_lines)) then Raise AssertionError
  else Ok (func_covered_lines, Z.of_nat (base.size function_real_lines)).

(** One round of the outer loop of [get_exec_block_cov], on [exec_lines] *)
Definition exec_block_line (tc : TraceCollector) (func_name : string)
    (exec_block_ids : list Z) (exec_lines : gset Z) (real_line : Z)
  : result (gset Z) :=
  line ← getitem (real_line2line tc) real_line;
  foldR (λ exec_lines block_id,
           blocks ← getitem (line2blocks tc) line;
           leaf ← last_item blocks;
           Ok (if decide (leaf = (func_name, block_id))
               then exec_lines ∪ {[ real_line ]} else exec_lines))
    exec_lines exec_block_ids.

(** [get_exec_block_cov]: the real lines of the function that lie in the
    given blocks, and its total real lines *)
Definition get_exec_block_cov (tc : TraceCollector) (func_name : string)
    (exec_block_ids : list Z) : result (Z * Z) :=
  let function_real_lines := get_function_real_lines tc func_name in
  exec_lines ←
    foldR (exec_block_line tc func_name exec_block_ids) ∅
      (int_order function_real_lines);
  if negb (0 <? Z.of_nat (base.size function_real_lines)) then Raise AssertionError
  else if negb (Z.of_nat (base.size exec_lines)
                <=? Z.of_nat (base.size function_real_lines))
  then Raise AssertionError
  else Ok (Z.of_nat (base.size exec_lines), Z.of_nat (base.size function_real_lines)).

End Queries.

(** [re.match(TRACE_PATTERN, line.strip())] as a test *)
Definition is_instrumentation (line : string) : bool :=
  if match_trace_pattern (Py.strip line) is Some _ then true else false.

(** [app.agents.common.delete_instrumentation_from_code]: the items of the
    cleaned dictionary come in the order of their numbers. *)
Definition delete_instrumentation_from_code (instrumented_code : gmap Z string)
    (comment_token : string) : result (gmap Z string) :=
  instrumented_code ← delete_instrumentation_comments instrumented_code comment_token;
  lines ← lines_of instrumented_code;
  Ok (numbered (List.filter (λ line, negb (is_instrumentation line)) lines)).

End Trace.

(** ** The coverage registry ([app/agents/coverage.py]) *)

Module Coverage.

Section Registry.

(** [os.path.normpath] *)
Variable normpath : string → string.

(** [app.utils.utils]: the language of a file, the comment tokens of a
    language and the numbered lines of a file. *)
Variable detect_language : string → string.
Variable get_comment_token : string → string.
Variable get_multiline_comment_tokens : string → option (string * string).
Variable load_code_from_file : string → result (gmap Z string).

Variable iteration_order : gset Trace.block → list Trace.block.
Variable percent_1 percent_0 : Z → Z → string.
Variable percent_0_of_text : string → result string.
Variable format_code : gmap Z string → string → result string.

(** [TraceCollector(file_path)] *)
Definition new_collector (file_path : string) : result Trace.TraceCollector :=
  let language := detect_language file_path in
  source_code ← load_code_from_file file_path;
  Trace.new file_path language (get_comment_token language)
    (get_multiline_comment_tokens language) source_code.

(** The registry maps a normalised file path to its collector. *)
Definition get_file_coverage (file2cov : gmap string Trace.TraceCollector)
    (file_path : string)
  : gmap string Trace.TraceCollector * result Trace.TraceCollector :=
  let file_path := normpath file_path in
  match file2cov !! file_path with
  | Some tc => (file2cov, Ok tc)
  | None =>
      match new_collector file_path with
      | Ok tc => (<[file_path := tc]> file2cov, Ok tc)
      | Raise e => (file2cov, Raise e)
      end
  end.

(** [Coverage.collect_trace]: the collector is stored by reference, so its
    mutation is visible in the registry under the key it was found at. *)
Definition collect_trace (file2cov : gmap string Trace.TraceCollector)
    (file_path trace : string) (target_lines : option (Z * Z)) (add_coverage : bool)
  : gmap string Trace.TraceCollector * result (Z * bool * string) :=
  if bool_decide (target_lines ≠ None) && negb add_coverage
  then (file2cov, Raise AssertionError)
  else
    let file_path := normpath file_path in
    match get_file_coverage file2cov file_path with
    | (file2cov1, Raise e) => (file2cov1, Raise e)
    | (file2cov1, Ok tc) =>
        let '(tc', r) :=
          Trace.collect_trace iteration_order percent_1 percent_0 percent_0_of_text
            format_code
            tc trace target_lines add_coverage in
        (<[normpath file_path := tc']> file2cov1, r)
    end.

End Registry.

End Coverage.

(** ** Test cases and the corpus manager ([app/agents/testcase.py]) *)

Module Corpus.

(** [app/agents/states.py] *)
Inductive TestcaseState : Type :=
| SELECT
| SUMMARIZE
| SOLVE
| EXECUTE
| REVIEW_SOLVER
| REVIEW_SOLVER_EXECUTE
| REVIEW_SUMMARY
| REVIEW_SUMMARY_SOLVE
| REVIEW_SUMMARY_EXECUTE
| FINISHED.

#[global] Instance TestcaseState_eq_dec : EqDecision TestcaseState.
Proof. solve_decision. Defined.

(** [TestcaseState.__str__] returns the member's name. *)
Definition state_str (s : TestcaseState) : string :=
  match s with
  | SELECT => "SELECT"
  | SUMMARIZE => "SUMMARIZE"
  | SOLVE => "SOLVE"
  | EXECUTE => "EXECUTE"
  | REVIEW_SOLVER => "REVIEW_SOLVER"
  | REVIEW_SOLVER_EXECUTE => "REVIEW_SOLVER_EXECUTE"
  | REVIEW_SUMMARY => "REVIEW_SUMMARY"
  | REVIEW_SUMMARY_SOLVE => "REVIEW_SUMMARY_SOLVE"
  | REVIEW_SUMMARY_EXECUTE => "REVIEW_SUMMARY_EXECUTE"
  | FINISHED => "FINISHED"
  end.

Definition all_states : list TestcaseState :=
  [SELECT; SUMMARIZE; SOLVE; EXECUTE; REVIEW_SOLVER; REVIEW_SOLVER_EXECUTE;
   REVIEW_SUMMARY; REVIEW_SUMMARY_SOLVE; REVIEW_SUMMARY_EXECUTE; FINISHED].

(** [TestcaseState[name]]: [KeyError] for a name that is no member. *)
Definition state_of_name (name : string) : result TestcaseState :=
  match List.find (λ s, String.eqb (state_str s) name) all_states with
  | Some s => Ok s
  | None => Raise KeyError
  end.

(** [target_file_lines]: [None] stands for [(None, (None, None))]. *)
Definition file_lines : Type := option (string * (Z * Z)).

(** The [usage] attribute: a dictionary of usage records, or, after a load
    whose usage text could not be parsed, that text. *)
Inductive usage_field (UsageDict : Type) : Type :=
| UsageOf (d : UsageDict)
| UsageText (s : string).
Arguments UsageOf {UsageDict} d.
Arguments UsageText {UsageDict} s.

Section WithUsage.

(** The dictionary [str -> Usage] (or nested dictionaries of them); [Usage]
    is declared in [app.model.common]. *)
Context {UsageDict : Type}.

(** [bool(usage)]: whether the dictionary has an entry *)
Variable usage_nonempty : UsageDict → bool.
(** [{"TOTAL": Usage()}], the default of the [usage] field *)
Variable default_usage : UsageDict.
(** [TestCaseYAML.format_usage_dict] and [TestCaseYAML.parse_usage_dict]:
    they run [Usage.model_dump] and [Usage.model_validate] under a YAML dump
    and load. *)
Variable format_usage_dict : UsageDict → string.
Variable parse_usage_dict : string → result UsageDict.

Record TestCase : Type := mkTestCase {
  id : Z;
  src_id : option Z;
  create_time : string;
  time_taken : option Z;
  states : list TestcaseState;
  is_target_covered : bool;
  new_coverage : bool;
  newly_covered_lines : Z;
  is_satisfiable : bool;
  is_crash : bool;
  is_hang : bool;
  usage : usage_field UsageDict;
  target_branch : option string;
  target_file_lines : file_lines;
  target_lines_content : option string;
  justification : option string;
  target_path_constraint : option string;
  selected_cnt : Z;
  successful_generation_cnt : Z;
  exec_code : option string;
  returncode : option Z;
  src_execution_summary : option string;
  crash_info : option string;
  execution_trace : option string;
  execution_summary : option string;
  src_exec_code : option string;
  src_execution_trace : option string;
  _out_dir : option string
}.

(** The serialized fields: everything but [_out_dir] (and [_in_setattr]). *)
Definition with_out_dir (tc : TestCase) (d : option string) : TestCase :=
  mkTestCase (id tc) (src_id tc) (create_time tc) (time_taken tc) (states tc)
    (is_target_covered tc) (new_coverage tc) (newly_covered_lines tc)
    (is_satisfiable tc) (is_crash tc) (is_hang tc) (usage tc) (target_branch tc)
    (target_file_lines tc) (target_lines_content tc) (justification tc)
    (target_path_constraint tc) (selected_cnt tc) (successful_generation_cnt tc)
    (exec_code tc) (returncode tc) (src_execution_summary tc) (crash_info tc)
    (execution_trace tc) (execution_summary tc) (src_exec_code tc)
    (src_execution_trace tc) d.

Definition with_time_taken (tc : TestCase) (t : option Z) : TestCase :=
  mkTestCase (id tc) (src_id tc) (create_time tc) t (states tc)
    (is_target_covered tc) (new_coverage tc) (newly_covered_lines tc)
    (is_satisfiable tc) (is_crash tc) (is_hang tc) (usage tc) (target_branch tc)
    (target_file_lines tc) (target_lines_content tc) (justification tc)
    (target_path_constraint tc) (selected_cnt tc) (successful_generation_cnt tc)
    (exec_code tc) (returncode tc) (src_execution_summary tc) (crash_info tc)
    (execution_trace tc) (execution_summary tc) (src_exec_code tc)
    (src_execution_trace tc) (_out_dir tc).

Definition with_selected_cnt (tc : TestCase) (n : Z) : TestCase :=
  mkTestCase (id tc) (src_id tc) (create_time tc) (time_taken tc) (states tc)
    (is_target_covered tc) (new_coverage tc) (newly_covered_lines tc)
    (is_satisfiable tc) (is_crash tc) (is_hang tc) (usage tc) (target_branch tc)
    (target_file_lines tc) (target_lines_content tc) (justification tc)
    (target_path_constraint tc) n (successful_generation_cnt tc)
    (exec_code tc) (returncode tc) (src_execution_summary tc) (crash_info tc)
    (execution_trace tc) (execution_summary tc) (src_exec_code tc)
    (src_execution_trace tc) (_out_dir tc).

Definition current_state (tc : TestCase) : option TestcaseState := last (states tc).

(** The effect of [__setattr__] on [time_taken]: assigning any public
    attribute other than [time_taken] while the case is not FINISHED stores
    the clock reading [get_time_taken()]. *)
Definition unfinished (sts : list TestcaseState) : bool :=
  match last sts with
  | Some s => negb (bool_decide (s = FINISHED))
  | None => false
  end.

Definition touch (clock : Z) (tc : TestCase) : TestCase :=
  if unfinished (states tc) then with_time_taken tc (Some clock) else tc.

(** The generated [__init__] assigns the fields in declaration order;
    [time_taken] comes before [states], and public fields follow [states]. *)
Definition init (clock : Z) (fields : TestCase) : TestCase :=
  touch clock (with_out_dir fields None).

Definition is_crash_or_hang (tc : TestCase) : bool := is_crash tc || is_hang tc.
Definition is_valuable (tc : TestCase) : bool := is_target_covered tc || new_coverage tc.

(** *** [TestCaseYAML] *)

Definition target_file_lines_to_str (fl : file_lines) : option string :=
  match fl with
  | None => None
  | Some (file_path, (a, b)) =>
      Some (file_path ++ ":" ++ Py.str_of_Z a ++ "-" ++ Py.str_of_Z b)
  end.

Definition str_to_target_file_lines (value : option string) : result file_lines :=
  match value with
  | None => Ok None
  | Some value =>
      if Py.is_empty value then Ok None
      else
        match Py.split1 ":" value with
        | (_, None) => Raise ValueError
        | (file_path, Some line_range) =>
            match Py.split1 "-" line_range with
            | (_, None) => Raise ValueError
            | (start, Some end_) =>
                a ← Py.int start;
                b ← Py.int end_;
                Ok (Some (file_path, (a, b)))
            end
        end
  end.

(** A string scalar of the document, with the block style chosen for it. *)
Record scalar : Type := mkScalar { literal_block : bool; text : string }.

Definition to_scalar (s : string) : scalar :=
  mkScalar (Py.contains (String "010" EmptyString) s) s.

Inductive yaml_usage : Type :=
| YUsageDict (d : UsageDict)
| YUsageStr (s : scalar).

(** The dictionary that is dumped: [to_dict()], that is [asdict] without the
    private fields, passed through [process_dict_for_yaml]. *)
Record CaseDoc : Type := mkCaseDoc {
  d_id : Z;
  d_src_id : option Z;
  d_create_time : scalar;
  d_time_taken : option Z;
  d_states : list string;
  d_is_target_covered : bool;
  d_new_coverage : bool;
  d_newly_covered_lines : Z;
  d_is_satisfiable : bool;
  d_is_crash : bool;
  d_is_hang : bool;
  d_usage : yaml_usage;
  d_target_branch : option scalar;
  d_target_file_lines : option scalar;
  d_target_lines_content : option scalar;
  d_justification : option scalar;
  d_target_path_constraint : option scalar;
  d_selected_cnt : Z;
  d_successful_generation_cnt : Z;
  d_exec_code : option scalar;
  d_returncode : option Z;
  d_src_execution_summary : option scalar;
  d_crash_info : option scalar;
  d_execution_trace : option scalar;
  d_execution_summary : option scalar;
  d_src_exec_code : option scalar;
  d_src_execution_trace : option scalar
}.

Definition to_dict (tc : TestCase) : CaseDoc :=
  mkCaseDoc (id tc) (src_id tc) (to_scalar (create_time tc)) (time_taken tc)
    (state_str <$> states tc)
    (is_target_covered tc) (new_coverage tc) (newly_covered_lines tc)
    (is_satisfiable tc) (is_crash tc) (is_hang tc)
    (match usage tc with
     | UsageOf d =>
         if usage_nonempty d then YUsageStr (to_scalar (format_usage_dict d))
         else YUsageDict d
     | UsageText s => YUsageStr (to_scalar s)
     end)
    (to_scalar <$> target_branch tc)
    (to_scalar <$> target_file_lines_to_str (target_file_lines tc))
    (to_scalar <$> target_lines_content tc)
    (to_scalar <$> justification tc)
    (to_scalar <$> target_path_constraint tc)
    (selected_cnt tc) (successful_generation_cnt tc)
    (to_scalar <$> exec_code tc) (returncode tc)
    (to_scalar <$> src_execution_summary tc) (to_scalar <$> crash_info tc)
    (to_scalar <$> execution_trace tc) (to_scalar <$> execution_summary tc)
    (to_scalar <$> src_exec_code tc) (to_scalar <$> src_execution_trace tc).

(** [from_dict]: [process_dict_from_yaml], then [cls( ** processed_data)]. *)
Definition from_dict (clock : Z) (data : CaseDoc) : result TestCase :=
  fl ← str_to_target_file_lines (text <$> d_target_file_lines data);
  sts ← mapR state_of_name (d_states data);
  let usage_ :=
    match d_usage data with
    | YUsageDict d => UsageOf d
    | YUsageStr s =>
        if Py.is_empty (Py.strip (text s)) then UsageText (text s)
        else match parse_usage_dict (text s) with
             | Ok d => UsageOf d
             | Raise _ => UsageText (text s)
             end
    end in
  Ok (init clock
        (mkTestCase (d_id data) (d_src_id data) (text (d_create_time data))
           (d_time_taken data) sts
           (d_is_target_covered data) (d_new_coverage data)
           (d_newly_covered_lines data) (d_is_satisfiable data)
           (d_is_crash data) (d_is_hang data) usage_
           (text <$> d_target_branch data) fl
           (text <$> d_target_lines_content data)
           (text <$> d_justification data)
           (text <$> d_target_path_constraint data)
           (d_selected_cnt data) (d_successful_generation_cnt data)
           (text <$> d_exec_code data) (d_returncode data)
           (text <$> d_src_execution_summary data) (text <$> d_crash_info data)
           (text <$> d_execution_trace data) (text <$> d_execution_summary data)
           (text <$> d_src_exec_code data) (text <$> d_src_execution_trace data)
           None)).

(** *** Files

    A YAML file holds the dumped dictionary; the YAML library (ruamel.yaml)
    is taken to load what it dumped, out of the content that
    [load_from_file] passes to it.  [open(path, "w")] needs the directory of
    [path] to exist. *)
Record Disk : Type := mkDisk {
  dirs : gset string;
  files : gmap string CaseDoc
}.

(** [os.path.join(a, b)] for a relative [b] *)
Definition path_join (a b : string) : string :=
  if Py.is_empty a then b
  else if String.eqb (Py.drop (String.length a - 1) a) "/" then a ++ b
  else a ++ "/" ++ b.

(** [f"{n:06d}"] *)
Definition fmt_06d (n : Z) : string :=
  let digits := Py.str_of_Z (Z.abs n) in
  let width := if n <? 0 then 5%nat else 6%nat in
  (if n <? 0 then "-" else EmptyString)
    ++ Py.join EmptyString (replicate (width - String.length digits) "0") ++ digits.

Definition yaml_filename (tc : TestCase) : string :=
  match src_id tc with
  | Some src => "id:" ++ fmt_06d (id tc) ++ ",src:" ++ fmt_06d src ++ ".yaml"
  | None => "id:" ++ fmt_06d (id tc) ++ ".yaml"
  end.

(** [write_to_yaml_file]: the three attempts fail alike when the directory
    is missing, and the method then raises. *)
Definition write_to_yaml_file (disk : Disk) (dir yaml_path : string) (content : CaseDoc)
  : result Disk :=
  if bool_decide (dir ∈ dirs disk)
  then Ok (mkDisk (dirs disk) (<[yaml_path := content]> (files disk)))
  else Raise (OtherError ("Failed to save test case to " ++ yaml_path
                          ++ ", reached the maximum number of retries")).

Definition save_to_disk (tc : TestCase) (disk : Disk) : result Disk :=
  match _out_dir tc with
  | None => Raise ValueError
  | Some out_dir =>
      if Py.is_empty out_dir then Raise ValueError
      else
        let queue_dir := path_join out_dir "queue" in
        let data := to_dict tc in
        let filename := yaml_filename tc in
        let yaml_path := path_join queue_dir filename in
        disk1 ← write_to_yaml_file disk queue_dir yaml_path data;
        if is_crash tc || is_hang tc then
          let dir := path_join out_dir "crashes_or_hangs" in
          Ok (mkDisk ({[ dir ]} ∪ dirs disk1)
                (<[path_join dir filename := data]> (files disk1)))
        else Ok disk1
  end.

(** The bytes that [load_from_file] removes from the content of a file
    before the YAML library sees it: NUL, EOT and DEL. *)
Definition deleted_byte (c : ascii) : bool :=
  Ascii.eqb c "000" || Ascii.eqb c "004" || Ascii.eqb c "127".

(** The three [content.replace] calls, on the characters of a text of the
    file *)
Fixpoint delete_bytes (s : string) : string :=
  match s with
  | EmptyString => EmptyString
  | String c r => if deleted_byte c then delete_bytes r else String c (delete_bytes r)
  end.

Definition read_scalar (s : scalar) : scalar :=
  mkScalar (literal_block s) (delete_bytes (text s)).

(** The document that [load_from_file] hands to [from_dict]: the document
    of the file with the three bytes deleted from each of its texts.  The
    numbers and the truth values of a document hold none of them. *)
Definition read_doc (data : CaseDoc) : CaseDoc :=
  mkCaseDoc (d_id data) (d_src_id data) (read_scalar (d_create_time data))
    (d_time_taken data) (delete_bytes <$> d_states data)
    (d_is_target_covered data) (d_new_coverage data) (d_newly_covered_lines data)
    (d_is_satisfiable data) (d_is_crash data) (d_is_hang data)
    (match d_usage data with
     | YUsageDict d => YUsageDict d
     | YUsageStr s => YUsageStr (read_scalar s)
     end)
    (read_scalar <$> d_target_branch data)
    (read_scalar <$> d_target_file_lines data)
    (read_scalar <$> d_target_lines_content data)
    (read_scalar <$> d_justification data)
    (read_scalar <$> d_target_path_constraint data)
    (d_selected_cnt data) (d_successful_generation_cnt data)
    (read_scalar <$> d_exec_code data) (d_returncode data)
    (read_scalar <$> d_src_execution_summary data) (read_scalar <$> d_crash_info data)
    (read_scalar <$> d_execution_trace data) (read_scalar <$> d_execution_summary data)
    (read_scalar <$> d_src_exec_code data) (read_scalar <$> d_src_execution_trace data).

(** [load_from_file(yaml_path, out_dir)] *)
Definition load_from_file (clock : Z) (yaml_path : string) (out_dir : option string)
    (disk : Disk) : result TestCase :=
  match files disk !! yaml_path with
  | None => Raise (OtherError "FileNotFoundError")
  | Some data =>
      let data := read_doc data in
      tc ← from_dict clock data;
      let tc :=
        match out_dir with
        | Some d => if Py.is_empty d then tc else with_out_dir tc (Some d)
        | None => tc
        end in
      Ok (with_time_taken tc (d_time_taken data))
  end.

(** [TestCase.create_initial] *)
Definition create_initial (create_time_now : string) (disk : Disk)
    (id_ : Z) (exec_code_ execution_trace_ execution_summary_ : string)
    (newly_covered_lines_ : Z) (out_dir : option string)
  : result (TestCase * Disk) :=
  if negb (0 <? newly_covered_lines_) then Raise AssertionError
  else
    let tc := init 0
      (mkTestCase id_ None create_time_now (Some 0) [FINISHED]
         true true newly_covered_lines_ false false false (UsageOf default_usage)
         None None None None None 0 0
         (Some exec_code_) None None None
         (Some execution_trace_) (Some execution_summary_) None None None) in
    match out_dir with
    | Some d =>
        if Py.is_empty d then Ok (tc, disk)
        else
          let tc := with_out_dir tc (Some d) in
          disk' ← save_to_disk tc disk;
          Ok (tc, disk')
    | None => Ok (tc, disk)
    end.

(** *** Cases the encoding can express

    A text of printable ASCII characters and line feeds: the library writes
    such a text and reads it back, and [load_from_file] deletes none of its
    characters.  Other characters are escaped, normalised (a carriage
    return in a block) or refused by the library, or deleted by the load. *)
Definition printable_char (c : ascii) : bool :=
  Ascii.eqb c "010" || ((32 <=? nat_of_ascii c)%nat && (nat_of_ascii c <=? 126)%nat).

Fixpoint printable (s : string) : bool :=
  match s with
  | EmptyString => true
  | String c r => printable_char c && printable r
  end.

(** The texts of a document *)
Definition doc_texts (data : CaseDoc) : list string :=
  (text (d_create_time data)
   :: d_states data
   ++ match d_usage data with YUsageDict _ => [] | YUsageStr s => [text s] end
   ++ omap (fmap text)
        [d_target_branch data; d_target_file_lines data; d_target_lines_content data;
         d_justification data; d_target_path_constraint data; d_exec_code data;
         d_src_execution_summary data; d_crash_info data; d_execution_trace data;
         d_execution_summary data; d_src_exec_code data; d_src_execution_trace data])%list.

Definition plain_doc (data : CaseDoc) : Prop :=
  Forall (λ s, printable s = true) (doc_texts data).

(** The conditions under which the usage field is read back: a usage
    dictionary through its text form, a usage text as such. *)
Definition usage_reloads (u : usage_field UsageDict) : Prop :=
  match u with
  | UsageOf d =>
      usage_nonempty d = true →
      Py.is_empty (Py.strip (format_usage_dict d)) = false
      ∧ parse_usage_dict (format_usage_dict d) = Ok d
  | UsageText s =>
      Py.is_empty (Py.strip s) = true ∨ ∃ e, parse_usage_dict s = Raise e
  end.

Definition target_reloads (fl : file_lines) : Prop :=
  match fl with
  | Some (path, (a, _)) => Py.contains ":" path = false ∧ 0 ≤ a
  | None => True
  end.

(** *** The corpus manager *)

(** [app/agents/common.py] *)
Definition wrap_between_tags (tag s : string) : string :=
  "<" ++ tag ++ ">" ++ s ++ "</" ++ tag ++ ">".

Definition SCHEDULING_FORMAT_REMINDER : string :=
  "Format Remind: "
  ++ wrap_between_tags "function_call_chain"
       "{filename}[func_name (overall line coverage until now)][line coverage achieved by this execution]"
  ++ nl
  ++ wrap_between_tags "historical_information"
       "[failed times]/[total selected times](ratio)"
  ++ nl ++ nl ++ " This following is the information of each test case: ".

(** Dictionaries whose iteration order is observed: association lists in
    insertion order, with the keys pairwise distinct. *)
Definition dict_get {V} (d : list (Z * V)) (k : Z) : option V :=
  snd <$> List.find (λ p, Z.eqb p.1 k) d.

Fixpoint dict_set {V} (k : Z) (v : V) (d : list (Z * V)) : list (Z * V) :=
  match d with
  | [] => [(k, v)]
  | (k', v') :: d' => if Z.eqb k' k then (k, v) :: d' else (k', v') :: dict_set k v d'
  end.

Definition dict_of_pairs {V} (l : list (Z * V)) : list (Z * V) :=
  fold_left (λ d p, dict_set p.1 p.2 d) l [].

Record TestCaseManager : Type := mkManager {
  out_dir : string;
  test_cases : list (Z * TestCase);
  next_testcase_id : Z
}.

Definition get_testcase (m : TestCaseManager) (id_ : Z) : option TestCase :=
  dict_get (test_cases m) id_.

(** [TestCaseManager.add_initial_testcase] *)
Definition add_initial_testcase (create_time_now : string)
    (m : TestCaseManager) (disk : Disk)
    (exec_code_ execution_trace_ execution_summary_ : string)
    (newly_covered_lines_ : Z) (save_immediately : bool)
  : (TestCaseManager * Disk) * result TestCase :=
  match create_initial create_time_now disk (next_testcase_id m) exec_code_
          execution_trace_ execution_summary_ newly_covered_lines_ (Some (out_dir m)) with
  | Raise e => ((m, disk), Raise e)
  | Ok (testcase, disk1) =>
      let m1 := mkManager (out_dir m)
                  (dict_set (next_testcase_id m) testcase (test_cases m))
                  (next_testcase_id m + 1) in
      if save_immediately then
        match save_to_disk testcase disk1 with
        | Ok disk2 => ((m1, disk2), Ok testcase)
        | Raise e => ((m1, disk1), Raise e)
        end
      else ((m1, disk1), Ok testcase)
  end.

(** [TestCase.get_historical_information] *)
Definition get_historical_information (tc : TestCase) : result (Z * Z) :=
  let failure_cnt := selected_cnt tc - successful_generation_cnt tc in
  if failure_cnt <=? selected_cnt tc then Ok (failure_cnt, selected_cnt tc)
  else Raise AssertionError.

(** [str(x)] for an optional value *)
Definition str_opt (o : option string) : string := default "None" o.

(** The true division of two integers and the float arithmetic on its
    result are carried out on rationals. *)
Definition fail_ratio_of (historical_fail_info : Z * Z) : Q :=
  if 0 <? historical_fail_info.2
  then (inject_Z historical_fail_info.1 / inject_Z historical_fail_info.2)%Q
  else 0%Q.

(** [(w1, id1) >= (w2, id2)] on the sort keys [(weight, tc_id)] *)
Definition key_geb (x y : string * Q * Z) : bool :=
  match (x.1.2 ?= y.1.2)%Q with
  | Gt => true
  | Lt => false
  | Eq => y.2 <=? x.2
  end.

(** [list.sort(key=..., reverse=True)]: descending and stable *)
Fixpoint insert_desc (x : string * Q * Z) (l : list (string * Q * Z))
  : list (string * Q * Z) :=
  match l with
  | [] => [x]
  | y :: r => if key_geb x y then x :: y :: r else y :: insert_desc x r
  end.

Definition sort_desc (l : list (string * Q * Z)) : list (string * Q * Z) :=
  foldr insert_desc [] l.

Definition TOKEN_LIMIT : Z := 180 * 1000.

(** [{tc_id: info for info, _, tc_id in l}] *)
Definition view_of (l : list (string * Q * Z)) : list (Z * string) :=
  dict_of_pairs ((λ x, (x.2, x.1.1)) <$> l).

(** The text whose tokens are estimated: the reminder and the case
    descriptions, joined by blank lines. *)
Definition view_text (infos : list string) : string :=
  Py.join (nl ++ nl) (SCHEDULING_FORMAT_REMINDER :: infos).

(** The description and the dictionary entry of a collected case *)
Definition info_of (x : string * Q * Z) : string := x.1.1.

Section Scheduling.

(** Part 5 of a case's description, the rendered function call chain: it
    compresses the execution trace and asks the coverage registry for the
    line ratios, which it prints through floating-point conversions. *)
Variable func_call_chain_str : TestCase → result string.

(** [f"{fail_ratio:.1%}"] *)
Variable format_percent : Q → string.

(** [app.utils.utils.estimate_text_token] *)
Variable estimate_text_token : string → Z.

(** [TestCaseManager.get_test_case_scheduling_information] *)
Definition get_test_case_scheduling_information (m : TestCaseManager) (tc_id : Z)
  : result (string * Q) :=
  match get_testcase m tc_id with
  | None => Raise ValueError
  | Some tc =>
      let info := wrap_between_tags "test_case_id" (Py.str_of_Z (id tc)) in
      let info := info ++ wrap_between_tags "src_test_case_id"
                            (match src_id tc with
                             | Some s => Py.str_of_Z s
                             | None => "None"
                             end) in
      let path_constraint :=
        if is_target_covered tc then str_opt (target_path_constraint tc) else "None" in
      let info := info ++ wrap_between_tags "path_constraint" path_constraint in
      let info := info ++ wrap_between_tags "execution_information" (str_opt (exec_code tc)) in
      chain ← func_call_chain_str tc;
      let info := info ++ wrap_between_tags "function_call_chain" chain in
      historical_fail_info ← get_historical_information tc;
      let fail_ratio := fail_ratio_of historical_fail_info in
      let weight := (1 - fail_ratio)%Q in
      let info := info ++ wrap_between_tags "historical_information"
                            (Py.str_of_Z historical_fail_info.1 ++ "/"
                               ++ Py.str_of_Z historical_fail_info.2
                               ++ "(" ++ format_percent fail_ratio ++ ")") in
      Ok (info, if new_coverage tc then (weight + 1)%Q else 0%Q)
  end.

(** The loop that collects [(info, weight, tc_id)] for the valuable cases *)
Definition valuable_testcase_info (m : TestCaseManager)
  : result (list (string * Q * Z)) :=
  foldR
    (λ acc entry,
       let '(tc_id, tc) := entry in
       if is_valuable tc then
         match exec_code tc with
         | None => Raise AssertionError
         | Some _ =>
             '(info, weight) ← get_test_case_scheduling_information m tc_id;
             Ok (acc ++ [(wrap_between_tags "test_case_information" info, weight, tc_id)])%list
         end
       else Ok acc)
    [] (test_cases m).

(** The truncation loop over the sorted cases *)
Fixpoint truncate_loop (sorted : list (string * Q * Z)) (truncated_str : string)
    (selected_tc_ids : list (string * Q * Z)) : result (list (Z * string)) :=
  match sorted with
  | [] => Raise AssertionError
  | x :: rest =>
      if TOKEN_LIMIT <? estimate_text_token (truncated_str ++ x.1.1) then
        match selected_tc_ids with
        | [] => Raise AssertionError
        | _ :: _ => Ok (view_of selected_tc_ids)
        end
      else truncate_loop rest (truncated_str ++ x.1.1 ++ nl ++ nl)
             (selected_tc_ids ++ [x])%list
  end.

(** [TestCaseManager.get_all_scheduling_information] *)
Definition get_all_scheduling_information (m : TestCaseManager)
  : result (list (Z * string)) :=
  match test_cases m with
  | [] => Raise ValueError
  | _ :: _ =>
      infos ← valuable_testcase_info m;
      let raw_str := view_text ((λ x, x.1.1) <$> infos) in
      if TOKEN_LIMIT <? estimate_text_token raw_str then
        truncate_loop (sort_desc infos) (SCHEDULING_FORMAT_REMINDER ++ nl ++ nl) []
      else Ok (view_of infos)
  end.

End Scheduling.

(** *** Derived cases and the life of the corpus *)

(** The six assignments of [create_new_testcase] to the case it derives *)
Definition with_target (tc : TestCase) (src_execution_summary_ target_branch_
    justification_ : string) (target_file_lines_ : file_lines)
    (target_lines_content_ : option string) (target_path_constraint_ : string)
  : TestCase :=
  mkTestCase (id tc) (src_id tc) (create_time tc) (time_taken tc) (states tc)
    (is_target_covered tc) (new_coverage tc) (newly_covered_lines tc)
    (is_satisfiable tc) (is_crash tc) (is_hang tc) (usage tc) (Some target_branch_)
    target_file_lines_ target_lines_content_ (Some justification_)
    (Some target_path_constraint_) (selected_cnt tc) (successful_generation_cnt tc)
    (exec_code tc) (returncode tc) (Some src_execution_summary_) (crash_info tc)
    (execution_trace tc) (execution_summary tc) (src_exec_code tc)
    (src_execution_trace tc) (_out_dir tc).

(** [TestCase.from_src]: the new case, the source case after
    [src_tc.selected_cnt += 1], and the disk.  [clock] is the reading stored
    when the new case is built, [clock_src] the one stored in a source case
    that is not finished. *)
Definition from_src (create_time_now : string) (clock clock_src : Z)
    (src_tc : TestCase) (id_ : Z) (disk : Disk)
  : result (TestCase * TestCase * Disk) :=
  let tc := init clock
    (mkTestCase id_ (Some (id src_tc)) create_time_now None [SELECT; SUMMARIZE]
       false false 0 false false false (UsageOf default_usage)
       None None None None None 0 0
       None None None None None None
       (exec_code src_tc) (execution_trace src_tc) None) in
  match _out_dir src_tc with
  | Some d =>
      if Py.is_empty d then Raise ValueError
      else
        let tc := with_out_dir tc (Some d) in
        disk' ← save_to_disk tc disk;
        Ok (tc, touch clock_src (with_selected_cnt src_tc (selected_cnt src_tc + 1)),
            disk')
  | None => Raise ValueError
  end.

(** [TestCaseManager.__init__] *)
Definition new_manager (out_dir_ : string) (disk : Disk) : TestCaseManager * Disk :=
  (mkManager out_dir_ [] 0,
   mkDisk ({[ path_join out_dir_ "queue" ]} ∪ dirs disk) (files disk)).

(** [TestCaseManager.create_new_testcase]: the source case is updated in
    the dictionary it is stored in; [clock_set] is the reading stored by the
    last of the six assignments. *)
Definition create_new_testcase (create_time_now : string) (clock clock_src clock_set : Z)
    (m : TestCaseManager) (disk : Disk) (src_id_ : Z)
    (latest_src_exec_summary target_branch_ justification_ : string)
    (target_file_lines_ : file_lines) (target_lines_content_ : option string)
    (target_path_constraint_ : string) (save_immediately : bool)
  : (TestCaseManager * Disk) * result TestCase :=
  match get_testcase m src_id_ with
  | None => ((m, disk), Raise ValueError)
  | Some parent =>
      match from_src create_time_now clock clock_src parent (next_testcase_id m) disk with
      | Raise e => ((m, disk), Raise e)
      | Ok (testcase, parent', disk1) =>
          let testcase :=
            touch clock_set
              (with_target testcase latest_src_exec_summary target_branch_ justification_
                 target_file_lines_ target_lines_content_ target_path_constraint_) in
          let m1 :=
            mkManager (out_dir m)
              (dict_set (next_testcase_id m) testcase
                 (dict_set src_id_ parent' (test_cases m)))
              (next_testcase_id m + 1) in
          if save_immediately then
            match save_to_disk testcase disk1 with
            | Ok disk2 => ((m1, disk2), Ok testcase)
            | Raise e => ((m1, disk1), Raise e)
            end
          else ((m1, disk1), Ok testcase)
      end
  end.

(** A corpus as its manager builds it: every case is stored under its own
    id, once, and the ids in use lie below the next one. *)
Definition consistent (m : TestCaseManager) : Prop :=
  NoDup (test_cases m).*1
  ∧ 0 ≤ next_testcase_id m
  ∧ ∀ k tc, (k, tc) ∈ test_cases m → id tc = k ∧ 0 ≤ k < next_testcase_id m.

(** [TestCaseManager.save_all_testcases]: the files written before an
    exception stay. *)
Fixpoint save_all (cases : list (Z * TestCase)) (disk : Disk) : Disk * result unit :=
  match cases with
  | [] => (disk, Ok ())
  | (_, tc) :: rest =>
      match save_to_disk tc disk with
      | Ok disk' => save_all rest disk'
      | Raise e => (disk, Raise e)
      end
  end.

Definition save_all_testcases (m : TestCaseManager) (disk : Disk) : Disk * result unit :=
  save_all (test_cases m) disk.

(** The part of a file name that holds the id:
    [filename.split(",")[0]] or [filename.split(".")[0]] *)
Definition id_part (filename : string) : string :=
  if Py.contains "," filename then hd EmptyString (Py.split "," filename)
  else hd EmptyString (Py.split "." filename).

Section Loading.

(** [os.listdir]: the names in a directory, in an arbitrary order *)
Variable listdir : Disk → string → list string.

(** One round of the loop of [_load_testcases_from_dir], on [testcases] and
    [max_id]: a file whose id or whose content cannot be read is skipped. *)
Definition load_file (clock : Z) (out_dir_ directory : string) (disk : Disk)
    (acc : list (Z * TestCase) * Z) (filename : string) : list (Z * TestCase) * Z :=
  if Py.endswith filename ".yaml" && Py.startswith filename "id:" then
    let id_str := Py.drop 3 (id_part filename) in
    match
      tc_id ← Py.int id_str;
      testcase ← load_from_file clock (path_join directory filename) (Some out_dir_) disk;
      Ok (tc_id, testcase)
    with
    | Ok (tc_id, testcase) => (dict_set tc_id testcase acc.1, Z.max acc.2 tc_id)
    | Raise _ => acc
    end
  else acc.

(** The file [filename] of [directory] passes the filter of the loader and
    holds the case [tc] under the id [k]. *)
Definition reads (clock : Z) (out_dir_ directory : string) (disk : Disk)
    (filename : string) (k : Z) (tc : TestCase) : Prop :=
  Py.endswith filename ".yaml" && Py.startswith filename "id:" = true
  ∧ Py.int (Py.drop 3 (id_part filename)) = Ok k
  ∧ load_from_file clock (path_join directory filename) (Some out_dir_) disk = Ok tc.

(** [_load_testcases_from_dir]: [os.path.exists] holds of a directory and
    of a file, and [os.listdir] raises for a file. *)
Definition _load_testcases_from_dir (clock : Z) (out_dir_ directory : string)
    (disk : Disk) : result (list (Z * TestCase) * Z) :=
  if bool_decide (directory ∈ dirs disk) then
    let '(testcases, max_id) :=
      fold_left (load_file clock out_dir_ directory disk) (listdir disk directory) ([], 0) in
    Ok (testcases, max_id + 1)
  else if bool_decide (is_Some (files disk !! directory))
  then Raise (OtherError "NotADirectoryError")
  else Ok ([], 0).

(** [TestCaseManager.load_testcases] *)
Definition load_testcases (clock : Z) (m : TestCaseManager) (in_dir : string)
    (disk : Disk) : result TestCaseManager :=
  '(testcases, next_id) ←
    _load_testcases_from_dir clock (out_dir m) (path_join in_dir "queue") disk;
  Ok (mkManager (out_dir m) testcases next_id).

End Loading.

(** An entry of the statistics: [testcase.id], or [str(testcase.id)]
    followed by a note in brackets *)
Inductive stat_entry : Type :=
| StatId (id_ : Z)
| StatNoted (id_ : Z) (note : string).

Definition stat_id (e : stat_entry) : Z :=
  match e with
  | StatId i => i
  | StatNoted i _ => i
  end.

(** [repr] of an entry, and of a list of entries *)
Definition show_stat (e : stat_entry) : string :=
  match e with
  | StatId i => Py.str_of_Z i
  | StatNoted i note => "'" ++ Py.str_of_Z i ++ " (" ++ note ++ ")'"
  end.

Definition show_stats (l : list stat_entry) : string :=
  "[" ++ Py.join ", " (show_stat <$> l) ++ "]".

Record Statistics : Type := mkStatistics {
  reach_success : list stat_entry;
  reach_failure : list stat_entry;
  unsatisfiable_constraints : list stat_entry;
  stat_new_coverage : list stat_entry;
  crashes : list stat_entry;
  hangs : list stat_entry
}.

(** The cases that [get_statistics] counts: generated and finished *)
Definition counted (tc : TestCase) : bool :=
  bool_decide (src_id tc ≠ None) && bool_decide (current_state tc = Some FINISHED).

Definition finished_generated (m : TestCaseManager) : list TestCase :=
  List.filter counted (omap (get_testcase m) (seqZ 0 (next_testcase_id m))).

(** One round of the loop of [get_statistics], on the statistics and
    [gen_finished_tc_cnt] *)
Definition count_case (m : TestCaseManager) (acc : Statistics * Z) (testcase_id : Z)
  : result (Statistics * Z) :=
  let '(st, gen_finished_tc_cnt) := acc in
  match get_testcase m testcase_id with
  | None => Ok acc
  | Some testcase =>
      if negb (counted testcase) then Ok acc
      else
        let new_cov :=
          if new_coverage testcase
          then (stat_new_coverage st ++ [StatId (id testcase)])%list
          else stat_new_coverage st in
        let crashes_ :=
          if is_crash testcase then (crashes st ++ [StatId (id testcase)])%list
          else crashes st in
        let hangs_ :=
          if is_hang testcase then (hangs st ++ [StatId (id testcase)])%list
          else hangs st in
        if is_target_covered testcase then
          if negb (is_satisfiable testcase) then Raise AssertionError
          else
            let entry :=
              if bool_decide (REVIEW_SUMMARY_EXECUTE ∈ states testcase)
              then StatNoted (id testcase) "ReviewSummarizer"
              else if bool_decide (REVIEW_SOLVER_EXECUTE ∈ states testcase)
              then StatNoted (id testcase) "ReviewSolver"
              else StatId (id testcase) in
            Ok (mkStatistics (reach_success st ++ [entry])%list (reach_failure st)
                  (unsatisfiable_constraints st) new_cov crashes_ hangs_,
                gen_finished_tc_cnt + 1)
        else if is_satisfiable testcase then
          let entry :=
            if new_coverage testcase then StatNoted (id testcase) "NewCov"
            else StatId (id testcase) in
          Ok (mkStatistics (reach_success st) (reach_failure st ++ [entry])%list
                (unsatisfiable_constraints st) new_cov crashes_ hangs_,
              gen_finished_tc_cnt + 1)
        else
          Ok (mkStatistics (reach_success st) (reach_failure st)
                (unsatisfiable_constraints st ++ [StatId (id testcase)])%list
                new_cov crashes_ hangs_,
              gen_finished_tc_cnt + 1)
  end.

Section Statistics.

(** [f"{a / b:.2%}"] *)
Variable percent_2 : Z → Z → string.

Definition show_statistic (gen_finished_tc_cnt : Z) (key : string)
    (value : list stat_entry) : string :=
  key ++ ": " ++ Py.str_of_Z (Z.of_nat (length value)) ++ "/"
    ++ Py.str_of_Z gen_finished_tc_cnt
    ++ " (" ++ percent_2 (Z.of_nat (length value)) gen_finished_tc_cnt ++ ")"
    ++ nl ++ String "009" "- " ++ show_stats value ++ nl.

(** [TestCaseManager.get_statistics] *)
Definition get_statistics (m : TestCaseManager) : result (Statistics * string) :=
  '(st, gen_finished_tc_cnt) ←
    foldR (count_case m) (mkStatistics [] [] [] [] [] [], 0)
      (seqZ 0 (next_testcase_id m));
  if gen_finished_tc_cnt =? 0 then Ok (st, "No newly generated test cases found")
  else
    Ok (st,
        "========== Statistics ==========" ++ nl
          ++ show_statistic gen_finished_tc_cnt "reach_success" (reach_success st)
          ++ show_statistic gen_finished_tc_cnt "reach_failure" (reach_failure st)
          ++ show_statistic gen_finished_tc_cnt "unsatisfiable_constraints"
               (unsatisfiable_constraints st)
          ++ show_statistic gen_finished_tc_cnt "new_coverage" (stat_new_coverage st)
          ++ show_statistic gen_finished_tc_cnt "crashes" (crashes st)
          ++ show_statistic gen_finished_tc_cnt "hangs" (hangs st)).

End Statistics.

(** The branches of [get_statistics] for a counted case: the target is
    covered; it is not and the case is satisfiable; neither. *)
Definition reached (tc : TestCase) : bool := is_target_covered tc.
Definition missed (tc : TestCase) : bool :=
  negb (is_target_covered tc) && is_satisfiable tc.
Definition unsolved (tc : TestCase) : bool :=
  negb (is_target_covered tc) && negb (is_satisfiable tc).

(** What the loop of [get_statistics] holds after the counted cases [l] *)
Definition collected (l : list TestCase) (acc : Statistics * Z) : Prop :=
  stat_id <$> reach_success acc.1 = id <$> List.filter reached l
  ∧ stat_id <$> reach_failure acc.1 = id <$> List.filter missed l
  ∧ unsatisfiable_constraints acc.1 = StatId ∘ id <$> List.filter unsolved l
  ∧ stat_new_coverage acc.1 = StatId ∘ id <$> List.filter new_coverage l
  ∧ crashes acc.1 = StatId ∘ id <$> List.filter is_crash l
  ∧ hangs acc.1 = StatId ∘ id <$> List.filter is_hang l
  ∧ acc.2 = Z.of_nat (length l).

End WithUsage.

End Corpus.

(** ** The prompt cache of the scheduling agent
       ([app/agents/agent_scheduling.py]) *)

Module SchedulingAgent.

(** A message thread ([app.data_structures.MessageThread]) is the list of its
    messages; [add_system] and [add_user] append one. *)
Inductive role : Type := System | User.

(** The agent: [already_cached_tc_ids] and [cached_msg_thread], an attribute
    that [__init__] does not set. *)
Record Agent : Type := mkAgent {
  already_cached_tc_ids : gset Z;
  cached_msg_thread : option (list (role * string))
}.

(** [TestCaseScheduler.__init__] *)
Definition new_agent : Agent := mkAgent ∅ None.

Section Prompt.

(** [xml.sax.saxutils.unescape] and the text of [_build_system_prompt()] *)
Variable unescape : string → string.
Variable system_prompt : string.

(** [_build_user_prompt]: [provided_tc_info] is a dictionary, read in the
    order of its entries. *)
Definition _build_user_prompt (a : Agent) (provided_tc_info : list (Z * string))
  : result Agent :=
  if (0 <? size (already_cached_tc_ids a))%nat
     && forallb (λ tc_id, bool_decide (tc_id ∈ provided_tc_info.*1))
                (elements (already_cached_tc_ids a))
  then
    let new :=
      List.filter (λ entry : Z * string,
                     bool_decide (entry.1 ∉ already_cached_tc_ids a))
                  provided_tc_info in
    let new_tc_info :=
      fold_left (λ text (entry : Z * string), text ++ entry.2 ++ nl ++ nl)
                new EmptyString in
    let new_tc_ids := new.*1 in
    if (0 <? length new_tc_ids)%nat then
      match cached_msg_thread a with
      | Some thread =>
          Ok (mkAgent (already_cached_tc_ids a ∪ list_to_set new_tc_ids)
                (Some (thread ++ [(User, new_tc_info)])%list))
      | None => Raise (OtherError "AttributeError")
      end
    else Ok a
  else
    Ok (mkAgent (list_to_set provided_tc_info.*1)
          (Some [(System, system_prompt);
                 (User,
                  unescape (Corpus.SCHEDULING_FORMAT_REMINDER ++ nl ++ nl
                              ++ Py.join (nl ++ nl) provided_tc_info.*2))])).

End Prompt.

End SchedulingAgent.

(** ** The [select_target_branch] tool ([app/agents/tools/target_branch.py]) *)

Module TargetBranch.

Section Selection.

(** [os.path.normpath], [os.path.join], [os.path.relpath], [os.path.exists],
    [os.path.isdir] and [get_project_dir()] ([app.utils.utils]) *)
Variable normpath : string → string.
Variable join : string → string → string.
Variable relpath : string → string → string.
Variable path_exists isdir : string → bool.
Variable project_dir : string.

(** [app.utils.utils], as [Coverage] uses it *)
Variable detect_language : string → string.
Variable get_comment_token : string → string.
Variable get_multiline_comment_tokens : string → option (string * string).
Variable load_code_from_file : string → result (gmap Z string).

(** The third component of the answer: [None] stands for
    [(None, (None, None))]. *)
Definition rejected (msg : string) : string * bool * option (string * (Z * Z)) :=
  (msg, false, None).

Definition invalid_line_range (line_range : string) : string :=
  "Error: Invalid line range " ++ line_range
    ++ ". Please provide a valid line range in the format of 'start-end', e.g., '10-20'.".

(** A text that is [None], empty or blank: [not s or not s.strip()] *)
Definition missing (s : option string) : bool :=
  match s with
  | None => true
  | Some s => Py.is_empty s || Py.is_empty (Py.strip s)
  end.

(** [process_target_branch_selection], on the registry of [Coverage] *)
Definition process_target_branch_selection
    (file2cov : gmap string Trace.TraceCollector)
    (target_branch justification : option string)
    (expected_covered_lines : option (string * string))
  : gmap string Trace.TraceCollector
    * result (string * bool * option (string * (Z * Z))) :=
  if missing target_branch then
    (file2cov,
     Ok (rejected "Error: `target_branch` is not provided or it is empty. Please provide a valid `target_branch`."))
  else if missing justification then
    (file2cov,
     Ok (rejected "Error: `justification` is not provided or it is empty. Please provide a valid `justification`."))
  else
    match expected_covered_lines with
    | None =>
        (file2cov,
         Ok (rejected "Error: `expected_covered_lines` is not provided or it is empty. Please provide a valid `expected_covered_lines`."))
    | Some (file_path, line_range) =>
        let relative_file_path := normpath file_path in
        let '(file_path_to_check, relative_file_path) :=
          if negb (Py.contains project_dir relative_file_path)
          then (normpath (join project_dir relative_file_path), relative_file_path)
          else (relative_file_path, normpath (relpath relative_file_path project_dir)) in
        if negb (path_exists file_path_to_check) then
          (file2cov, Ok (rejected ("Error: File " ++ file_path ++ " does not exist.")))
        else if isdir file_path_to_check then
          (file2cov, Ok (rejected ("Error: " ++ file_path ++ " is a directory.")))
        else
          let range :=
            if Py.contains "-" line_range then
              let parts := Py.split "-" line_range in
              if negb (length parts =? 2)%nat
                 || negb (Py.str_isdigit (nth 0 parts EmptyString))
                 || negb (Py.str_isdigit (nth 1 parts EmptyString))
              then Ok None
              else
                a ← Py.int (nth 0 parts EmptyString);
                b ← Py.int (nth 1 parts EmptyString);
                Ok (Some (Z.min a b, Z.max a b))
            else if negb (Py.str_isdigit line_range) then Ok None
            else n ← Py.int line_range; Ok (Some (n, n)) in
          match range with
          | Raise e => (file2cov, Raise e)
          | Ok None => (file2cov, Ok (rejected (invalid_line_range line_range)))
          | Ok (Some (start, end_)) =>
              match Coverage.get_file_coverage normpath detect_language get_comment_token
                      get_multiline_comment_tokens load_code_from_file
                      file2cov relative_file_path with
              | (file2cov1, Raise e) => (file2cov1, Raise e)
              | (file2cov1, Ok tc) =>
                  let file_line_size := Trace.get_real_line_size tc in
                  if file_line_size <? end_ then
                    (file2cov1,
                     Ok (rejected
                           ("Error: Line range " ++ line_range
                              ++ " is out of bounds for file " ++ file_path
                              ++ ", which has " ++ Py.str_of_Z file_line_size ++ " lines.")))
                  else
                    (file2cov1,
                     Ok ("New Target branch successfully selected and recorded. Now please generate path constraints to reach this branch: "
                           ++ String "034" (default EmptyString target_branch)
                           ++ String "034" ".",
                         true, Some (relative_file_path, (start, end_))))
              end
          end
    end.

End Selection.

End TargetBranch.

(** ** Tagged text ([app/agents/common.py]) *)

Module Common.

(** The text before the first occurrence of [sub] in [s] *)
Fixpoint before_first (sub s : string) : option string :=
  if String.prefix sub s then Some EmptyString
  else
    match s with
    | EmptyString => None
    | String c r => String c <$> before_first sub r
    end.

(** [re.findall(f"<{tag}>(.+?)</{tag}>", s, re.DOTALL)] for an opening and a
    closing tag that are literal texts: at an opening tag, the lazy group
    takes one character and then as few as bring it to a closing tag;
    [skip] counts the characters of the last match that are still to
    pass. *)
Fixpoint findall_between (skip : nat) (opening closing s : string) : list string :=
  match s with
  | EmptyString => []
  | String _ r =>
      match skip with
      | S skip' => findall_between skip' opening closing r
      | O =>
          if String.prefix opening s then
            match Py.drop (String.length opening) s with
            | String c0 r0 =>
                match before_first closing r0 with
                | Some more =>
                    String c0 more
                      :: findall_between
                           (String.length opening + String.length more
                            + String.length closing)
                           opening closing r
                | None => findall_between 0 opening closing r
                end
            | EmptyString => findall_between 0 opening closing r
            end
          else findall_between 0 opening closing r
      end
  end.

(** The characters that a regular expression reads as operators; a text
    without them is a pattern that matches itself. *)
Definition regex_operator (c : ascii) : bool := Py.has_char c ".^$*+?{}[]\|()".

Fixpoint regex_literal (s : string) : bool :=
  match s with
  | EmptyString => true
  | String c r => negb (regex_operator c) && regex_literal r
  end.

Section Extract.

(** [html.unescape] *)
Variable html_unescape : string → string.

(** [re.findall(pattern, s, re.DOTALL)] for the pattern of a tag that holds
    a regex operator: the matches, or the exception of a pattern that does
    not compile *)
Variable re_findall : string → string → result (list string).

(** [extract_between_tags]: the tag is interpolated into the pattern, so it
    is read as a regular expression. *)
Definition extract_between_tags (tag s : string) (strip use_unescape : bool)
  : result (list string) :=
  let s := if use_unescape then html_unescape s else s in
  ext_list ←
    (if regex_literal tag
     then Ok (findall_between 0 ("<" ++ tag ++ ">") ("</" ++ tag ++ ">") s)
     else re_findall ("<" ++ tag ++ ">(.+?)</" ++ tag ++ ">") s);
  let ext_list := if strip then Py.strip <$> ext_list else ext_list in
  match ext_list with
  | [] => Raise (OtherError ("Failed to extract from tag <" ++ tag ++ ">"))
  | _ :: _ => Ok ext_list
  end.

End Extract.

End Common.

(** ** The [solve_with_smt] tool ([app/agents/tools/smt_solver.py]) *)

Module SmtSolver.

(** The value of a Z3 model entry, by the tests of the handler.  For an
    algebraic value the handler calls [float(var_value.approx(10))]:
    [as_float] is the message of the exception that this raises, or the text
    of the float. *)
Inductive model_value : Type :=
| IntValue (n : Z)                (* [is_int_value]: [as_long()] *)
| AlgebraicValue (as_float : string + string)
| TrueValue
| FalseValue
| OtherValue (shown : string).    (* anything else: the text of the value *)

Inductive check_result : Type :=
| Sat (model : list (string * model_value))
| Unsat
| Unknown (reason : string).

(** What the loop stores in [variables] for an entry, by the text that
    [f"{value}"] prints for it, or the message of the exception that the
    conversion raises. *)
Definition read_value (v : model_value) : string + string :=
  match v with
  | IntValue n => inr (Py.str_of_Z n)
  | AlgebraicValue as_float => as_float
  | TrueValue => inr "True"
  | FalseValue => inr "False"
  | OtherValue s => inr s
  end.

(** A dictionary with string keys, in insertion order. *)
Fixpoint sdict_set {V} (k : string) (v : V) (d : list (string * V)) : list (string * V) :=
  match d with
  | [] => [(k, v)]
  | (k', v') :: d' =>
      if String.eqb k' k then (k, v) :: d' else (k', v') :: sdict_set k v d'
  end.

Definition sdict_get {V} (d : list (string * V)) (k : string) : option V :=
  snd <$> List.find (λ p, String.eqb p.1 k) d.

(** [sorted(keys)]: strings are ordered by their character codes. *)
Fixpoint insert_sorted (x : string) (l : list string) : list string :=
  match l with
  | [] => [x]
  | y :: r => if String.leb x y then x :: y :: r else y :: insert_sorted x r
  end.

Definition sorted (l : list string) : list string := foldr insert_sorted [] l.

Definition fence : string := "```".

(** Removal of the markdown code-block markers from the stripped input *)
Definition strip_code_fence (s : string) : string :=
  if Py.startswith s fence then
    let first_line_end := Py.find s nl in
    let s := if 0 <? first_line_end then Py.drop (Z.to_nat (first_line_end + 1)) s else s in
    let end_marker := Py.rfind s fence in
    if 0 <? end_marker then Py.take (Z.to_nat end_marker) s else s
  else s.

Definition is_comment_or_blank (line : string) : bool :=
  Py.is_empty (Py.strip line) || Py.startswith (Py.strip line) "#".

Definition format1_prefixes : list string :=
  ["z3."; "("; ")"; ","; "&&"; "||"; "and "; "or "; "+"; "-"; "*"; "/";
   "=="; "!="; "<"; ">"].

(** The test for the direct-expression dialect (FORMAT 1) *)
Definition is_format1 (lines : list string) : bool :=
  let non_empty_lines :=
    Py.strip <$> List.filter (λ line, negb (is_comment_or_blank line)) lines in
  negb (bool_decide (non_empty_lines = []))
  && forallb (λ line, existsb (Py.startswith (Py.strip line)) format1_prefixes)
       non_empty_lines.

Definition is_import_line (line : string) : bool :=
  Py.startswith (Py.strip line) "import" || Py.startswith (Py.strip line) "from".

Definition strip_imports (lines : list string) : list string :=
  List.filter (λ line, negb (is_import_line line)) lines.

(** [min(spaces for spaces in leading_spaces if spaces > 0)], or [0] when no
    line is indented *)
Definition min_indent (code_lines : list string) : nat :=
  let leading_spaces :=
    Py.leading_ws <$> List.filter (λ line, negb (is_comment_or_blank line)) code_lines in
  match List.filter (λ n, (0 <? n)%nat) leading_spaces with
  | [] => O
  | n :: ns => foldr Nat.min n ns
  end.

Definition fix_line (min_indent : nat) (line : string) : string :=
  if Py.is_empty (Py.strip line) then line
  else if (min_indent <=? Py.leading_ws line)%nat then Py.drop min_indent line
  else line.

Definition fix_indentation (code_lines : list string) : list string :=
  let m := min_indent code_lines in
  if (0 <? m)%nat then fix_line m <$> code_lines else code_lines.

(** The program text handed to [exec] in the code-block dialect *)
Definition code_of_block (lines : list string) : string :=
  Py.join nl (fix_indentation (strip_imports lines)).



(** The loop [for decl in model] that fills the dictionary [variables], one
    entry per name: it ends with the exception of the first conversion that
    raises. *)
Fixpoint fill_variables (model : list (string * model_value))
    (variables : list (string * string)) : string + list (string * string) :=
  match model with
  | [] => inr variables
  | (var_name, var_value) :: rest =>
      match read_value var_value with
      | inl msg => inl msg
      | inr shown => fill_variables rest (sdict_set var_name shown variables)
      end
  end.

Definition variables_of (model : list (string * model_value))
  : string + list (string * string) :=
  fill_variables model [].

(** [[f"{var} = {variables[var]}" for var in sorted(variables.keys())]] *)
Definition solution_of (variables : list (string * string)) : list string :=
  (λ var, var ++ " = " ++ default "None" (sdict_get variables var))
    <$> sorted (fst <$> variables).

(** The constraint text without its code-block markers, stripped *)
Definition block_text (smt_constraints : string) : string :=
  Py.strip (strip_code_fence (Py.strip smt_constraints)).


(** What running a piece of Python text gives the handler: a value; an
    exception that [except Exception] catches, by its message; or neither,
    when the run does not end or ends in an exception outside [Exception]
    ([SystemExit], [KeyboardInterrupt]), which the handler lets pass. *)
Inductive outcome (A : Type) : Type :=
| Returns (a : A)
| Raises (msg : string)
| Escapes.
Arguments Returns {A} a.
Arguments Raises {A} msg.
Arguments Escapes {A}.

Section Solver.

(** The Python object a constraint text evaluates to. *)
Variable Constraint : Type.

(** [eval(text, {"z3": z3})] *)
Variable py_eval : string → outcome Constraint.

(** [exec(code, {"z3": z3}, local_vars)]: its value is what [local_vars]
    binds [final_constraint] to, if anything, and whether that value is a
    [z3.BoolRef]. *)
Variable py_exec : string → outcome (option (Constraint * bool)).

(** [solver.add(constraint); solver.check()], then the model or the reason:
    the message of the exception, or the outcome *)
Variable z3_check : Constraint → string + check_result.

Definition solving_error (msg : string) : string * bool :=
  ("Z3 solving error:" ++ nl ++ " " ++ msg, false).

(** The last statement of the handler, on [result_str] and [err_msg] *)
Definition conclude (result_str err_msg : string) : string * bool :=
  if negb (Py.is_empty result_str) then (result_str, true) else (err_msg, false).

(** The report for the outcome of [solver.check()]; an exception of the
    loop over the model is caught like one of the solver. *)
Definition report (r : check_result) : string * bool :=
  match r with
  | Sat model =>
      match variables_of model with
      | inl msg => solving_error msg
      | inr variables => conclude (Py.join nl (solution_of variables)) EmptyString
      end
  | Unsat => conclude EmptyString "Constraints unsatisfiable."
  | Unknown reason =>
      conclude EmptyString
        (if Py.contains "timeout" (Py.lower reason) || Py.contains "canceled" (Py.lower reason)
         then "Solver timeout (10 seconds)."
         else "Solver could not determine result. Reason: " ++ reason)
  end.

Definition solve (constraint : Constraint) : string * bool :=
  match z3_check constraint with
  | inl msg => solving_error msg
  | inr r => report r
  end.

(** [process_smt_solver]: the pair it returns, or [None] when the call
    does not return one (the evaluation of the text escapes). *)
Definition process_smt_solver (smt_constraints : option string)
  : option (string * bool) :=
  match smt_constraints with
  | None =>
      Some ("Error: `smt_constraints` is not provided or it is empty. Please provide a valid `smt_constraints`.", false)
  | Some smt_constraints =>
      if Py.is_empty (Py.strip smt_constraints) then
        Some ("Error: `smt_constraints` is not provided or it is empty. Please provide a valid `smt_constraints`.", false)
      else
        let smt_constraints := block_text smt_constraints in
        let lines := Py.split "010" smt_constraints in
        if is_format1 lines then
          match py_eval smt_constraints with
          | Escapes => None
          | Raises msg => Some (solving_error msg)
          | Returns constraint => Some (solve constraint)
          end
        else
          match py_exec (code_of_block lines) with
          | Escapes => None
          | Raises msg => Some ("Error executing provided code block: " ++ msg, false)
          | Returns None =>
              Some ("Missing required 'final_constraint' variable in code block. You must assign your final constraint to 'final_constraint'.", false)
          | Returns (Some (constraint, is_bool)) =>
              if is_bool then Some (solve constraint)
              else Some ("The 'final_constraint' variable must be a Z3 boolean expression.", false)
          end
  end.

End Solver.

End SmtSolver.

(** ** The [provide_solution] tool ([app/agents/tools/provide_solution.py]) *)

Module ProvideSolution.

(** The fields of [run_target]'s result that the handler reads. *)
Record run_result : Type := mkRun { exec_success : bool; exec_error : string }.

Section Solution.

(** [app.utils.utils.run_target(code, timeout=...)] *)
Variable run_target : string → Z → run_result.

(** [is_satisfiable = None] stands for an argument that is not a boolean. *)
Definition process_solution (is_satisfiable : option bool)
    (python_execution : option string) : string * bool * option string :=
  match is_satisfiable with
  | None =>
      ("Error: `is_satisfiable` is not a boolean. Please provide a valid `is_satisfiable`.",
       true, None)
  | Some false => ("UNSATISFIABLE constraints acknowledged.", false, None)
  | Some true =>
      match python_execution with
      | None =>
          ("Error: Python execution function is required when constraints are satisfiable.",
           true, None)
      | Some code =>
          if Py.is_empty code then
            ("Error: Python execution function is required when constraints are satisfiable.",
             true, None)
          else if negb (Py.contains "def execute_program" code) then
            ("Error: Python execution must contain a 'def execute_program(timeout: int) -> tuple[str, int]' function.",
             true, None)
          else
            let result := run_target code 2 in
            if negb (exec_success result) then
              ("Running the given solution failed, error: " ++ exec_error result,
               true, None)
            else ("Solution accepted.", true, Some code)
      end
  end.

End Solution.

End ProvideSolution.

(** ** Sample data *)

Module Sample.

(** The instrumented file of [tests/agents/test_coverage.py], as the parser
    of the collector lays it out. *)
Definition test_function_1 : Trace.block := ("test_function", 1).

Definition collector : Trace.TraceCollector :=
  Trace.mkTraceCollector "test_file.py" "python" "#"
    (list_to_map
       [(1, "import sys"); (2, EmptyString); (3, "def test_function():");
        (4, "    sys.stderr.write('enter test_function 1')");
        (5, "    print('Hello, World!')");
        (6, "    sys.stderr.write('exit test_function 1')")])
    0
    (list_to_map
       [(1, [Trace.GLOBAL_BLOCK]); (2, [Trace.GLOBAL_BLOCK]); (3, [Trace.GLOBAL_BLOCK]);
        (4, [Trace.INSTRUMENT_BLOCK]);
        (5, [Trace.GLOBAL_BLOCK; test_function_1]);
        (6, [Trace.INSTRUMENT_BLOCK])])
    ∅
    (list_to_map [(test_function_1, (5, 5))])
    (list_to_map [(test_function_1, (4, 4))])
    (list_to_map [(1, 1); (2, 2); (3, 3); (4, 5)])
    6 2 ∅.

Definition triple_quote : string :=
  String "034" (String "034" (String "034" EmptyString)).

(** The lines of the file that the test writes *)
Definition source_code : gmap Z string :=
  Trace.numbered
    ["import sys"; EmptyString; "def test_function():";
     "    sys.stderr.write('enter test_function 1')";
     "    print('Hello, World!')";
     "    sys.stderr.write('exit test_function 1')"; EmptyString].

Definition trace : string := "enter test_function 1
exit test_function 1
".


(** The formats of the ratios, computed on the exact quotient and rounded
    half to even; the floating-point ones give the same text unless the
    quotient is within rounding error of a tie. *)
Definition round_half_even (n d : Z) : Z :=
  let q := n / d in
  let r := n mod d in
  if 2 * r <? d then q
  else if d <? 2 * r then q + 1
  else if Z.even q then q else q + 1.

Definition percent_1 (a b : Z) : string :=
  let t := round_half_even (1000 * a) b in
  Py.str_of_Z (t / 10) ++ "." ++ Py.str_of_Z (t mod 10) ++ "%".

Definition percent_0 (a b : Z) : string :=
  Py.str_of_Z (round_half_even (100 * a) b) ++ "%".

Definition all_digits (s : string) : bool := Py.is_empty (Py.span Py.isdigit s).2.

Definition percent_0_of_text (s : string) : result string :=
  match Py.split "." s with
  | [i] =>
      if all_digits i && negb (Py.is_empty i) then Ok (i ++ "%") else Raise ValueError
  | [i; f] =>
      if all_digits i && all_digits f && negb (Py.is_empty (i ++ f)) then
        Ok (percent_0 (Py.digits_val 0 (i ++ f)) (100 * 10 ^ Z.of_nat (String.length f)))
      else Raise ValueError
  | _ => Raise ValueError
  end.

(** A stand-in for [format_code]: the lines in the order of their numbers *)
Definition format_code (summary : gmap Z string) (language : string) : result string :=
  Ok (Py.join nl (omap (λ i, summary !! i) (seqZ 1 (Z.of_nat (size summary))))).

Definition render_summary_list :=
  Trace.render_summary_list percent_1 percent_0 percent_0_of_text.

Definition collect_trace :=
  Trace.collect_trace elements percent_1 percent_0 percent_0_of_text format_code.

Definition summary_code : string := "# test_file.py (4 lines total)
import sys

def test_function():
    print('Hello, World!')".

(** A file with a branch: the lines of [check] are block 1, the body of
    its [if] is block 2 and the body of its [else] is block 3. *)
Definition check_1 : Trace.block := ("check", 1).
Definition check_2 : Trace.block := ("check", 2).
Definition check_3 : Trace.block := ("check", 3).

Definition branching : Trace.TraceCollector :=
  Trace.mkTraceCollector "branch.py" "python" "#"
    (list_to_map
       [(1, "def check(x):");
        (2, "    sys.stderr.write('enter check 1')");
        (3, "    if x > 0:");
        (4, "        sys.stderr.write('enter check 2')");
        (5, "        y = 1");
        (6, "        sys.stderr.write('exit check 2')");
        (7, "    else:");
        (8, "        sys.stderr.write('enter check 3')");
        (9, "        y = 2");
        (10, "        z = 3");
        (11, "        sys.stderr.write('exit check 3')");
        (12, "    return y");
        (13, "    sys.stderr.write('exit check 1')")])
    0
    (list_to_map
       [(1, [Trace.GLOBAL_BLOCK]);
        (2, [Trace.INSTRUMENT_BLOCK]);
        (3, [Trace.GLOBAL_BLOCK; check_1]);
        (4, [Trace.INSTRUMENT_BLOCK]);
        (5, [Trace.GLOBAL_BLOCK; check_1; check_2]);
        (6, [Trace.INSTRUMENT_BLOCK]);
        (7, [Trace.GLOBAL_BLOCK; check_1]);
        (8, [Trace.INSTRUMENT_BLOCK]);
        (9, [Trace.GLOBAL_BLOCK; check_1; check_3]);
        (10, [Trace.GLOBAL_BLOCK; check_1; check_3]);
        (11, [Trace.INSTRUMENT_BLOCK]);
        (12, [Trace.GLOBAL_BLOCK; check_1]);
        (13, [Trace.INSTRUMENT_BLOCK])])
    ∅
    (list_to_map [(check_1, (3, 12)); (check_2, (5, 5)); (check_3, (9, 10))])
    (list_to_map [(check_1, (2, 7)); (check_2, (3, 3)); (check_3, (5, 6))])
    (list_to_map [(1, 1); (2, 3); (3, 5); (4, 7); (5, 9); (6, 10); (7, 12)])
    13 6 ∅.

Definition branching_source : gmap Z string :=
  Trace.numbered
    ["def check(x):";
     "    sys.stderr.write('enter check 1')";
     "    if x > 0:";
     "        sys.stderr.write('enter check 2')";
     "        y = 1";
     "        sys.stderr.write('exit check 2')";
     "    else:";
     "        sys.stderr.write('enter check 3')";
     "        y = 2";
     "        z = 3";
     "        sys.stderr.write('exit check 3')";
     "    return y";
     "    sys.stderr.write('exit check 1')"; EmptyString].

Definition branch_trace : string := "enter check 1
enter check 2
exit check 2
exit check 1
".

Definition branch_summary : string := "# branch.py (7 lines total)
def check(x):
    if x > 0:
        y = 1
    else:
        # Unexecuted code (lines 5-6) removed. Its line cov: 0/2 (0%)
    return y".

(** The order in which CPython visits a set of small integers *)
Definition int_order (s : gset Z) : list Z := merge_sort Z.le (elements s).

(** Traces of [tests/agents/test_common.py] and
    [tests/agents/test_instr_matching.py] *)
Definition cycle_trace : string := "[file1.cpp] enter main 1
[file1.cpp] exit main 1
[file1.cpp] enter main 2
[file1.cpp] enter function1 1
[file1.cpp] exit function1 1
[file2.cpp] enter function2 1
[file2.cpp] exit function2 1
[file2.cpp] enter function3 1
[file2.cpp] exit function3 1
[file1.cpp] enter main 1
[file1.cpp] exit main 1
[file1.cpp] enter function5 1
".

Definition noisy_trace : string := "
    Encoding [ 0m00s so far] | [oggenc/encode.c] enter update_statistics_notime 2[oggenc/encode.c] enter update_statistics_notime 1
    [oggenc/encode.c] exit update_statistics_notime 3
    [oggenc/encode.c] enter update 1
    [aaa][bbb] enter update_statistics_notime 2
    ".

End Sample.

(** ** The statements of the specification, in its words *)

Module Spec.

(** [failure_ratio = (selected - successful) / selected], and 0 when
    [selected = 0] *)
Definition failure_ratio {U} (tc : @Corpus.TestCase U) : Q :=
  if Corpus.selected_cnt tc =? 0 then 0%Q
  else (inject_Z (Corpus.selected_cnt tc - Corpus.successful_generation_cnt tc)
        / inject_Z (Corpus.selected_cnt tc))%Q.

(** [weight = (1 - failure_ratio) + (1 if new_coverage else 0)] *)
Definition weight {U} (tc : @Corpus.TestCase U) : Q :=
  ((1 - failure_ratio tc) + (if Corpus.new_coverage tc then 1 else 0))%Q.

(** A seed: no parent, the single state FINISHED, both flags set. *)
Definition is_seed {U} (tc : @Corpus.TestCase U) : Prop :=
  Corpus.src_id tc = None
  ∧ Corpus.states tc = [Corpus.FINISHED]
  ∧ Corpus.new_coverage tc = true
  ∧ Corpus.is_target_covered tc = true.

End Spec.

Module SampleCorpus.

Import Corpus.

(** Stand-ins for the usage records and their text form *)
Definition usage_nonempty (u : unit) : bool := true.
Definition format_usage_dict (u : unit) : string := "TOTAL: {}".
Definition parse_usage_dict (s : string) : result unit := Ok tt.

Definition seed : @TestCase unit :=
  mkTestCase 0 None "2025-04-16 14:52:16.589" (Some 0) [FINISHED]
    true true 3 false false false (UsageOf tt)
    None None None None None 1 1
    (Some "print('hi')") None None None
    (Some "enter main 1
exit main 1") (Some "summary") None None (Some "out").

(** A finished child that reached its target lines without new coverage *)
Definition child : @TestCase unit :=
  mkTestCase 1 (Some 0) "2025-04-16 14:53:01.120" (Some 45)
    [SELECT; SUMMARIZE; SOLVE; EXECUTE; FINISHED]
    true false 0 true false false (UsageOf tt)
    (Some "if (x > 5) taken") (Some ("example.c", (10, 12))) None
    (Some "uncovered branch") (Some "x > 5") 0 0
    (Some "def execute_program(timeout): return run(6, timeout)") (Some 0)
    (Some "summary") None
    (Some "enter main 1
enter main 2") (Some "summary") (Some "print('hi')")
    (Some "enter main 1
exit main 1") (Some "out").

(** The same child with target lines in a file whose path has a colon *)
Definition colon_child : @TestCase unit :=
  mkTestCase 1 (Some 0) "2025-04-16 14:53:01.120" (Some 45)
    [SELECT; SUMMARIZE; SOLVE; EXECUTE; FINISHED]
    true false 0 true false false (UsageOf tt)
    (Some "if (x > 5) taken") (Some ("src/v1:2/example.c", (10, 12))) None
    (Some "uncovered branch") (Some "x > 5") 0 0
    (Some "def execute_program(timeout): return run(6, timeout)") (Some 0)
    (Some "summary") None
    (Some "enter main 1
enter main 2") (Some "summary") (Some "print('hi')")
    (Some "enter main 1
exit main 1") (Some "out").

Definition manager : TestCaseManager := mkManager "out" [(0, seed); (1, child)] 2.

Definition empty_manager : @TestCaseManager unit := mkManager "out" [] 0.




Definition disk : @Disk unit := mkDisk {[ "out/queue" ]} ∅.

(** A directory listing: the names of the files below [dir] *)
Definition listdir (d : @Disk unit) (dir : string) : list string :=
  omap (λ p : string * CaseDoc,
          if String.prefix (dir ++ "/") p.1
          then Some (Py.drop (String.length dir + 1) p.1) else None)
       (map_to_list (files d)).

Definition func_call_chain_str (tc : @TestCase unit) : result string :=
  Ok "example.c[main (75%)][50%]".
Definition format_percent (q : Q) : string := "0.0%".

(** Three estimators: two tokens for seven characters, a coarse one under
    which the two sample cases do not fit together, and a coarser one under
    which none fits on its own. *)
Definition estimate_text_token (s : string) : Z := Z.of_nat (String.length s) * 2 / 7.
Definition coarse_estimate (s : string) : Z := 250 * Z.of_nat (String.length s).

(** The description of the seed in the scheduling view *)
Definition seed_info : string :=
  "<test_case_information><test_case_id>0</test_case_id><src_test_case_id>None</src_test_case_id><path_constraint>None</path_constraint><execution_information>print('hi')</execution_information><function_call_chain>example.c[main (75%)][50%]</function_call_chain><historical_information>0/1(0.0%)</historical_information></test_case_information>".


End SampleCorpus.

Module SampleSolver.

(** A block in the code-block dialect, as in
    [tests/agents/test_agent_solver_smt.py] *)
Definition code_block : string := "
    ```
    # Define variables
    x = z3.Int('x')
    import os
    y = z3.Int('y')

    # Final constraint
    final_constraint = z3.And(x > 0, y < 10, x + y == 7)
    ```
    ".

Definition dedented_code : string := "# Define variables
x = z3.Int('x')
y = z3.Int('y')

# Final constraint
final_constraint = z3.And(x > 0, y < 10, x + y == 7)".




(** Stand-ins for the interpreter and the solver *)
Definition py_eval (text : string) : SmtSolver.outcome unit := SmtSolver.Returns tt.
Definition py_exec (code : string) : SmtSolver.outcome (option (unit * bool)) :=
  if String.eqb code dedented_code then SmtSolver.Returns (Some (tt, true))
  else SmtSolver.Raises "IndentationError: unexpected indent".
Definition z3_check (c : unit) : string + SmtSolver.check_result :=
  inr (SmtSolver.Sat [("y", SmtSolver.IntValue 6); ("x", SmtSolver.IntValue 1)]).


(** The solver's answer to a constraint without free variables, such as
    [z3.BoolVal(True)]: satisfiable, with an empty model *)
Definition z3_check_closed (c : unit) : string + SmtSolver.check_result :=
  inr (SmtSolver.Sat []).

End SampleSolver.
Example strip_ex : Py.strip "  enter f 1 	" = "enter f 1".
Proof. reflexivity. Qed.
Example split_ex : Py.split "010" "a
b
" = ["a"; "b"; EmptyString].
Proof. reflexivity. Qed.
Example split1_ex : Py.split1 ":" "a:b:c" = ("a", Some "b:c").
Proof. reflexivity. Qed.
Example int_ex : Py.int " 12_3 " = Ok 123 ∧ Py.int "b.c:1" = Raise ValueError ∧ Py.int "-7" = Ok (-7).
Proof. repeat split; reflexivity. Qed.
Example rfind_ex : Py.rfind "ab```cd```" "```" = 7 ∧ Py.find "abc" "z" = -1.
Proof. split; reflexivity. Qed.
Example match_trace_ex :
  Trace.match_trace_pattern "sys.stderr.write('enter test_function 12')"
  = Some ("enter", "test_function", 12).
Proof. reflexivity. Qed.
Example executed_blocks_ex :
  Trace.get_executed_blocks "enter main 1
exit main 1
noise
[f.c] enter g 2" = {[ ("Global", 0); ("main", 1); ("g", 2) ]}.
Proof. vm_compute. reflexivity. Qed.

(** * Properties *)

(** ** Generic facts about [result] loops *)

Lemma mapR_Forall2 {A B} (f : A → result B) (l : list A) (ys : list B) :
  mapR f l = Ok ys → Forall2 (λ x y, f x = Ok y) l ys.
Proof.
  revert ys. induction l as [|a l IH]; intros ys H; simpl in H.
  - inversion H. constructor.
  - destruct (f a) as [b|e] eqn:Hfa; simpl in H; [|discriminate].
    destruct (mapR f l) as [bs|e] eqn:Hl; simpl in H; [|discriminate].
    inversion H; subst. constructor; auto.
Qed.

Lemma elem_of_range_incl (a b x : Z) : x ∈ range_incl a b ↔ a ≤ x ≤ b.
Proof. unfold range_incl. rewrite elem_of_seqZ. lia. Qed.

(** ** The trace collector *)


Section TraceProps.

Import Trace.

Variable iteration_order : gset block → list block.
Variable percent_1 percent_0 : Z → Z → string.
Variable percent_0_of_text : string → result string.
Variable format_code : gmap Z string → string → result string.

(** Whatever the order, a set is visited element by element, each once. *)
Hypothesis iteration_NoDup : ∀ s, NoDup (iteration_order s).
Hypothesis iteration_elements : ∀ s b, b ∈ iteration_order s ↔ b ∈ s.

Abbreviation render_summary_list :=
  (Trace.render_summary_list percent_1 percent_0 percent_0_of_text).

Abbreviation collect_trace :=
  (Trace.collect_trace iteration_order percent_1 percent_0 percent_0_of_text format_code).

(** The loops written with a bound on their rounds do not depend on it
    once it is large enough. *)
Lemma consecutive_advanced token rest :
  ((consecutive token rest).2 ≤ length rest)%nat.
Proof.
  induction rest as [|line rest IH]; simpl; [lia|].
  destruct (Py.is_empty _).
  - destruct (consecutive token rest); simpl in *; lia.
  - destruct (search_unexecuted token line); [|simpl; lia].
    destruct (consecutive token rest); simpl in *; lia.
Qed.

Lemma merge_from_enough token n m lines :
  (length lines ≤ n)%nat → (length lines ≤ m)%nat →
  merge_from percent_0 percent_0_of_text n token lines
  = merge_from percent_0 percent_0_of_text m token lines.
Proof.
  revert m lines. induction n as [|n IH]; intros [|m] [|line rest]; simpl;
    try done; try lia.
  intros Hn Hm.
  destruct (search_unexecuted token line).
  - pose proof (consecutive_advanced token rest) as Hadv.
    destruct (consecutive token rest) as [more advanced]. simpl in Hadv.
    destruct more.
    + by rewrite (IH m rest) by lia.
    + assert (length (drop advanced rest) ≤ length rest)%nat
        by (rewrite length_drop; lia).
      by rewrite (IH m (drop advanced rest)) by lia.
  - by rewrite (IH m rest) by lia.
Qed.

Lemma skip_start_enough t n m new_start new_end :
  (Z.to_nat (new_end - new_start) ≤ n)%nat → (Z.to_nat (new_end - new_start) ≤ m)%nat →
  skip_start n t new_start new_end = skip_start m t new_start new_end.
Proof.
  revert m new_start. induction n as [|n IH]; intros [|m] new_start Hn Hm; simpl.
  - done.
  - assert ((new_start <? new_end) = false) as -> by (apply Z.ltb_ge; lia).
    by rewrite andb_false_r.
  - assert ((new_start <? new_end) = false) as -> by (apply Z.ltb_ge; lia).
    by rewrite andb_false_r.
  - destruct (new_start <? size t); [|done]. simpl.
    destruct (new_start <? new_end) eqn:E; [|done]. apply Z.ltb_lt in E.
    destruct (is_instrumentation_line t new_start) as [[|]|]; simpl; try done.
    apply IH; lia.
Qed.

Lemma skip_end_enough t n m new_start new_end :
  (Z.to_nat (new_end - new_start) ≤ n)%nat → (Z.to_nat (new_end - new_start) ≤ m)%nat →
  skip_end n t new_start new_end = skip_end m t new_start new_end.
Proof.
  revert m new_end. induction n as [|n IH]; intros [|m] new_end Hn Hm; simpl.
  - done.
  - assert ((new_start <? new_end) = false) as -> by (apply Z.ltb_ge; lia).
    by rewrite andb_false_r.
  - assert ((new_start <? new_end) = false) as -> by (apply Z.ltb_ge; lia).
    by rewrite andb_false_r.
  - destruct (1 <? new_end); [|done]. simpl.
    destruct (new_start <? new_end) eqn:E; [|done]. apply Z.ltb_lt in E.
    destruct (is_instrumentation_line t new_end) as [[|]|]; simpl; try done.
    apply IH; lia.
Qed.





Lemma covered_lines_count_nonneg (after before : list Z) :
  0 ≤ covered_lines_count after before.
Proof.
  revert before. induction after as [|a after IH]; intros [|p before]; simpl; try lia.
  specialize (IH before). destruct (p <? a); lia.
Qed.

Lemma covered_lines_count_pos (after before : list Z) :
  0 < covered_lines_count after before ↔
  ∃ i a p, after !! i = Some a ∧ before !! i = Some p ∧ p < a.
Proof.
  revert before. induction after as [|a after IH]; intros [|p before]; simpl.
  - split; [lia|]. intros (i & a & p & H & _). by rewrite lookup_nil in H.
  - split; [lia|]. intros (i & a & p' & H & _). by rewrite lookup_nil in H.
  - split; [lia|]. intros (i & a' & p & _ & H & _). by rewrite lookup_nil in H.
  - pose proof (covered_lines_count_nonneg after before) as Hnn.
    split.
    + intros H. destruct (p <? a) eqn:E.
      * apply Z.ltb_lt in E. exists 0%nat, a, p. auto.
      * assert (0 < covered_lines_count after before) as H' by lia.
        apply IH in H' as (i & a' & p' & ? & ? & ?).
        exists (S i), a', p'. auto.
    + intros ([|i] & a' & p' & Ha & Hp & Hlt); simpl in Ha, Hp.
      * inversion Ha; inversion Hp; subst.
        apply Z.ltb_lt in Hlt. rewrite Hlt. lia.
      * assert (0 < covered_lines_count after before) as H'
          by (apply IH; exists i, a', p'; auto).
        destruct (p <? a); lia.
Qed.

(** The loop over the executed blocks, when it completes, has added one to
    the count of each block of the list and has left the others alone. *)
Lemma cover_blocks_counts tc bs cov acc gf cov' n gf' :
  NoDup bs →
  cover_blocks tc bs cov acc gf = (cov', Ok (n, gf')) →
  ∀ b, cov' !! b = if decide (b ∈ bs) then Some (default 0 (cov !! b) + 1) else cov !! b.
Proof.
  revert cov acc gf. induction bs as [|b0 bs IH]; intros cov acc gf Hnd H b; simpl in H.
  - inversion H; subst. rewrite decide_False; [done|]. apply not_elem_of_nil.
  - apply NoDup_cons in Hnd as [Hnotin Hnd].
    assert (∀ acc1 gf1,
      cover_blocks tc bs (<[b0 := default 0 (cov !! b0) + 1]> cov) acc1 gf1 = (cov', Ok (n, gf')) →
      cov' !! b = if decide (b ∈ b0 :: bs)
                  then Some (default 0 (cov !! b) + 1) else cov !! b) as Hstep.
    { intros acc1 gf1 H1. rewrite (IH _ _ _ Hnd H1 b).
      destruct (decide (b = b0)) as [->|Hne].
      - rewrite decide_False by done. rewrite lookup_insert_eq.
        rewrite decide_True by left. done.
      - rewrite lookup_insert_ne by done.
        destruct (decide (b ∈ bs)) as [Hin|Hnin].
        + rewrite decide_True by (by right). done.
        + rewrite decide_False; [done|]. intros Hc.
          apply elem_of_cons in Hc as [?|?]; done. }
    destruct (decide (b0 = GLOBAL_BLOCK)); [by eapply Hstep|].
    destruct (decide (default 0 (cov !! b0) = 0)); [|by eapply Hstep].
    destruct (getitem (block2real_lines tc) b0) as [[sr er]|]; [|discriminate].
    destruct (foldR _ _ _); [|discriminate].
    by eapply Hstep.
Qed.



(** What a normal return of [collect_trace] tells about its run. *)
Lemma collect_trace_ok_inv tc trace target add tc' n covered code :
  collect_trace tc trace target add = (tc', Ok (n, covered, code)) →
  ∃ prev cov gf summary_list,
    target_lines_cov tc target = Ok prev
    ∧ (if add
       then cover_blocks tc (iteration_order (get_executed_blocks trace)) (block2cov tc) (0, ∅) false
            = (cov, Ok (n, gf))
       else cov = block2cov tc ∧ n = 0 ∧ gf = false)
    ∧ (gf = true → 0 < n)
    ∧ tc' = set_summary (set_block2cov tc cov)
              (summary_dict (set_block2cov tc cov) summary_list)
    ∧ match target with
      | Some _ => ∃ after, target_lines_cov tc' target = Ok after
                           ∧ covered = (0 <? covered_lines_count after prev)
      | None => covered = true
      end
    ∧ render_summary_list (set_block2cov tc cov) (get_executed_blocks trace)
      = Ok summary_list
    ∧ format_code (summary_dict (set_block2cov tc cov) summary_list) (language tc)
      = Ok code.
Proof.
  unfold Trace.collect_trace. intros H.
  destruct (target_lines_cov tc target) as [prev|] eqn:Hprev; [|by inversion H].
  exists prev.
  set (run := if add then _ else _) in H.
  destruct run as [cov counted] eqn:Hrun. subst run.
  destruct counted as [[n0 gf]|]; [|by inversion H].
  destruct (gf && negb (0 <? n0)) eqn:Hassert; [by inversion H|].
  destruct (Trace.render_summary_list _ _ _ _ _) as [sl|] eqn:Hrender; [|by inversion H].
  inversion H as [[Htc Hr]]. clear H.
  exists cov, gf, sl.
  assert (n0 = n ∧
    match target with
    | Some _ =>
        ∃ after, target_lines_cov tc' target = Ok after
                 ∧ covered = (0 <? covered_lines_count after prev)
    | None => covered = true
    end
    ∧ format_code (summary_dict (set_block2cov tc cov) sl) (language tc) = Ok code)
    as (-> & Hcov & Hcode).
  { unfold get_last_summary_as_code in Hr. simpl in Hr. destruct target as [t|].
    - rewrite Htc in Hr.
      destruct (target_lines_cov tc' (Some t)) as [after|]; simpl in Hr; [|discriminate].
      destruct (format_code _ _); simpl in Hr; [|discriminate].
      inversion Hr; subst. eauto.
    - simpl in Hr.
      destruct (format_code _ _); simpl in Hr; [|discriminate].
      by inversion Hr. }
  split; [done|]. split; [|split; [|split; [|split; [|split]]]].
  - destruct add; [done|]. by inversion Hrun.
  - intros ->. simpl in Hassert. apply negb_false_iff, Z.ltb_lt in Hassert. done.
  - done.
  - rewrite Htc. exact Hcov.
  - done.
  - done.
Qed.




(** C8.  When target lines [(start, end)] are given and the call returns,
    the covered flag is true exactly when some real line of [start..end] has
    a strictly greater hit count after the ingestion than before it. *)
Theorem collect_trace_target_covered tc trace (s e : Z) add tc' n covered code :
  collect_trace tc trace (Some (s, e)) add = (tc', Ok (n, covered, code)) →
  covered = true ↔
  ∃ line before after,
    s ≤ line ≤ e
    ∧ real_line_covered_times tc line = Ok before
    ∧ real_line_covered_times tc' line = Ok after
    ∧ before < after.
Proof.
  intros H.
  apply collect_trace_ok_inv in H
    as (prev & cov & gf & sl & Hprev & _ & _ & _ & (aft & Hafter & ->) & _).
  simpl in Hprev, Hafter.
  apply mapR_Forall2 in Hprev, Hafter.
  rewrite Z.ltb_lt, covered_lines_count_pos. split.
  - intros (i & a & p & Ha & Hp & Hlt).
    destruct (Forall2_lookup_r _ _ _ _ _ Hafter Ha) as (line & Hline & Hla).
    destruct (Forall2_lookup_r _ _ _ _ _ Hprev Hp) as (line' & Hline' & Hlp).
    assert (line' = line) as -> by congruence.
    exists line, p, a. split; [|done].
    apply elem_of_range_incl, list_elem_of_lookup. eauto.
  - intros (line & before & after & Hrange & Hb & Ha & Hlt).
    apply elem_of_range_incl, list_elem_of_lookup in Hrange as [i Hi].
    destruct (Forall2_lookup_l _ _ _ _ _ Hprev Hi) as (p & Hp & Hlp).
    destruct (Forall2_lookup_l _ _ _ _ _ Hafter Hi) as (a & Ha' & Hla).
    exists i, a, p. split; [done|]. split; [done|]. congruence.
Qed.

(** C10.  With [add_coverage = False] the collector keeps every hit count
    (only its summary is replaced) and a returned count of newly covered
    lines is 0; the registry refuses target lines without [add_coverage]. *)
Theorem collect_trace_without_coverage tc trace target :
  block2cov (collect_trace tc trace target false).1 = block2cov tc
  ∧ set_summary (collect_trace tc trace target false).1 (summary tc) = tc
  ∧ (∀ n covered code,
       (collect_trace tc trace target false).2 = Ok (n, covered, code) → n = 0)
  ∧ (∀ normpath detect_language get_comment_token get_multiline_comment_tokens
       load_code_from_file file2cov file_path target_lines,
       Coverage.collect_trace normpath detect_language get_comment_token
         get_multiline_comment_tokens load_code_from_file iteration_order
         percent_1 percent_0 percent_0_of_text format_code
         file2cov file_path trace (Some target_lines) false
       = (file2cov, Raise AssertionError)).
Proof.
  split; [|split; [|split]].
  - unfold Trace.collect_trace.
    destruct (target_lines_cov tc target); [|done]. simpl.
    by destruct (Trace.render_summary_list _ _ _ _ _).
  - unfold Trace.collect_trace.
    destruct (target_lines_cov tc target); [|by destruct tc]. simpl.
    destruct (Trace.render_summary_list _ _ _ _ _); by destruct tc.
  - intros n covered code H.
    destruct (collect_trace tc trace target false) as [tc' r] eqn:Hcall.
    simpl in H. subst r.
    by apply collect_trace_ok_inv in Hcall as (? & ? & ? & ? & _ & (_ & -> & _) & _).
  - intros. unfold Coverage.collect_trace. done.
Qed.

End TraceProps.

Example sample_first_ingestion :
  (Sample.collect_trace Sample.collector Sample.trace (Some (4, 4)) true).2
  = Ok (1, true, Sample.summary_code).
Proof. vm_compute. reflexivity. Qed.

(** The collectors of the samples are the ones that the constructor builds
    from the lines of the files. *)
Example sample_collector_parsed :
  Trace.new "test_file.py" "python" "#" None Sample.source_code = Ok Sample.collector
  ∧ Trace.new "test_file.py" "python" "#"
      (Some (Sample.triple_quote, Sample.triple_quote)) Sample.source_code
    = Ok Sample.collector
  ∧ Trace.new "branch.py" "python" "#" None Sample.branching_source = Ok Sample.branching.
Proof. vm_compute. done. Qed.

(** A block that did not run under a parent that did is replaced by a
    comment, and the comments of consecutive blocks are merged. *)
Example sample_branch_summary :
  (Sample.collect_trace Sample.branching Sample.branch_trace None true).2
  = Ok (4, true, Sample.branch_summary)
  ∧ Sample.render_summary_list Sample.branching {[ Trace.GLOBAL_BLOCK ]}
    = Ok ["def check(x):";
          "    # Unexecuted code (lines 2-7) removed. Its line cov: 0/6 (0%)"]
  ∧ Trace.merge_from Sample.percent_0 Sample.percent_0_of_text 4 "#"
      ["  # unexecuted: (3-3), cov: 0/1 (0.0%)"; EmptyString;
       "  # unexecuted: (5-6), cov: 1/2 (50.0%)"; "  return y"]
    = Ok ["  # Unexecuted code (lines 3-6) removed. Its line cov: 1/3 (33%)";
          "  return y"]
  ∧ Trace.merge_from Sample.percent_0 Sample.percent_0_of_text 3 "#"
      ["  # unexecuted: (3-3), cov: 0/1 (0.0%)"; EmptyString; "  return y"]
    = Ok ["  # Unexecuted code (line 3) removed. Its line cov: 0/1 (0%)";
          EmptyString; "  return y"].
Proof. vm_compute. done. Qed.



Lemma collect_trace_target_covered_witness :
  true = true ↔
  ∃ line before after,
    4 ≤ line ≤ 4
    ∧ Trace.real_line_covered_times Sample.collector line = Ok before
    ∧ Trace.real_line_covered_times
        (Sample.collect_trace Sample.collector Sample.trace (Some (4, 4)) true).1 line
      = Ok after
    ∧ before < after.
Proof.
  apply (collect_trace_target_covered elements Sample.percent_1 Sample.percent_0
           Sample.percent_0_of_text Sample.format_code
           Sample.collector Sample.trace 4 4 true
           (Sample.collect_trace Sample.collector Sample.trace (Some (4, 4)) true).1
           1 true Sample.summary_code).
  vm_compute. reflexivity.
Defined.

(** ** Test cases and the corpus manager *)

Section CorpusProps.

Import Corpus.

Context {UsageDict : Type}.
Variable usage_nonempty : UsageDict → bool.
Variable default_usage : UsageDict.
Variable format_usage_dict : UsageDict → string.
Variable parse_usage_dict : string → result UsageDict.
Variable func_call_chain_str : @TestCase UsageDict → result string.
Variable format_percent : Q → string.
Variable estimate_text_token : string → Z.

Abbreviation create_initial :=
  (Corpus.create_initial usage_nonempty default_usage format_usage_dict).
Abbreviation add_initial_testcase :=
  (Corpus.add_initial_testcase usage_nonempty default_usage format_usage_dict).
Abbreviation scheduling_information :=
  (Corpus.get_test_case_scheduling_information func_call_chain_str format_percent).
Abbreviation valuable_info :=
  (Corpus.valuable_testcase_info func_call_chain_str format_percent).
Abbreviation all_scheduling_information :=
  (Corpus.get_all_scheduling_information func_call_chain_str format_percent
     estimate_text_token).

Lemma create_initial_seed now disk id_ code trace summary_ newly dir tc disk' :
  create_initial now disk id_ code trace summary_ newly dir = Ok (tc, disk') →
  0 < newly ∧ Spec.is_seed tc ∧ id tc = id_ ∧ newly_covered_lines tc = newly
  ∧ exec_code tc = Some code.
Proof.
  unfold Corpus.create_initial. intros H.
  destruct (0 <? newly) eqn:Hpos; simpl in H; [|discriminate].
  apply Z.ltb_lt in Hpos. split; [done|].
  destruct dir as [d|].
  - destruct (Py.is_empty d).
    + inversion H; subst. by repeat split.
    + destruct (save_to_disk _ _ _ _); simpl in H; [|discriminate].
      inversion H; subst. by repeat split.
  - inversion H; subst. by repeat split.
Qed.

(** C9.  A seed, as built by [TestCase.create_initial] and registered by
    [TestCaseManager.add_initial_testcase], has no parent, the state list
    [[FINISHED]], [new_coverage] and [is_target_covered] set; it is only
    built for a positive [newly_covered_lines], and otherwise the assertion
    fails. *)
Theorem seed_case_invariants now m disk code trace summary_ newly save st tc :
  add_initial_testcase now m disk code trace summary_ newly save = (st, Ok tc) →
  0 < newly
  ∧ Spec.is_seed tc
  ∧ newly_covered_lines tc = newly
  ∧ get_testcase st.1 (next_testcase_id m) = Some tc
  ∧ (∀ now' disk' id_ dir tc' disk'',
       create_initial now' disk' id_ code trace summary_ newly dir = Ok (tc', disk'') →
       Spec.is_seed tc')
  ∧ (∀ now' disk' id_ code' trace' summary' newly' dir,
       newly' ≤ 0 →
       create_initial now' disk' id_ code' trace' summary' newly' dir
       = Raise AssertionError).
Proof.
  unfold Corpus.add_initial_testcase. intros H.
  destruct (Corpus.create_initial _ _ _ _ _ _ _ _ _ _ _) as [[tc0 disk1]|] eqn:Hc;
    [|by inversion H].
  apply create_initial_seed in Hc as (Hpos & Hseed & Hid & Hnew & _).
  assert (tc0 = tc ∧
          get_testcase st.1 (next_testcase_id m) = Some tc) as [-> Hreg].
  { assert (∀ (d : list (Z * @TestCase UsageDict)) k v,
              dict_get (dict_set k v d) k = Some v) as Hget.
    { clear. induction d as [|[k' v'] d IH]; intros k v; unfold dict_get; simpl.
      - by rewrite Z.eqb_refl.
      - destruct (Z.eqb_spec k' k) as [->|Hne]; simpl.
        + by rewrite Z.eqb_refl.
        + destruct (Z.eqb_spec k' k); [done|]. apply IH. }
    destruct save.
    - destruct (save_to_disk _ _ _ _); inversion H; subst. split; [done|].
      apply Hget.
    - inversion H; subst. split; [done|]. apply Hget. }
  split; [done|]. split; [done|]. split; [done|]. split; [done|]. split.
  - intros now' disk' id_ dir tc' disk'' Hc'.
    by apply create_initial_seed in Hc' as (_ & ? & _).
  - intros now' disk' id_ code' trace' summary' newly' dir Hle.
    unfold Corpus.create_initial.
    destruct (Z.ltb_spec 0 newly'); [lia|done].
Qed.

(** *** The scheduling weight *)

(** What the code computes: the weight is [(1 - fail_ratio) + 1] for a case
    with new coverage and [0] for every other case. *)
Lemma scheduling_weight_computed m tc_id info w :
  scheduling_information m tc_id = Ok (info, w) →
  ∃ tc, get_testcase m tc_id = Some tc
        ∧ 0 ≤ successful_generation_cnt tc
        ∧ w = (if new_coverage tc
               then (1 - fail_ratio_of ((selected_cnt tc - successful_generation_cnt tc)%Z,
                                        selected_cnt tc)) + 1
               else 0)%Q.
Proof.
  unfold Corpus.get_test_case_scheduling_information. intros H.
  destruct (get_testcase m tc_id) as [tc|]; [|discriminate].
  exists tc. split; [done|].
  destruct (func_call_chain_str tc); simpl in H; [|discriminate].
  unfold get_historical_information in H.
  destruct (Z.leb_spec (selected_cnt tc - successful_generation_cnt tc) (selected_cnt tc));
    simpl in H; [|discriminate].
  inversion H. split; [lia|done].
Qed.

(** For a case with new coverage this is the weight of the specification. *)
Lemma scheduling_weight_new_coverage m tc_id info w tc :
  scheduling_information m tc_id = Ok (info, w) →
  get_testcase m tc_id = Some tc →
  new_coverage tc = true →
  0 ≤ selected_cnt tc →
  w = Spec.weight tc.
Proof.
  intros H Hget Hnew Hsel.
  apply scheduling_weight_computed in H as (tc' & Hget' & _ & ->).
  assert (tc' = tc) as -> by congruence.
  unfold Spec.weight, Spec.failure_ratio, fail_ratio_of. rewrite Hnew. simpl.
  destruct (Z.ltb_spec 0 (selected_cnt tc)), (Z.eqb_spec (selected_cnt tc) 0);
    try done; lia.
Qed.

(** C1.  For a valuable case without new coverage the code returns the
    weight [0], not [(1 - failure_ratio) + 0]: the two agree only for a
    case that was selected and never led to a successful generation. *)
Theorem scheduling_weight_without_new_coverage m tc_id info w tc :
  scheduling_information m tc_id = Ok (info, w) →
  get_testcase m tc_id = Some tc →
  is_valuable tc = true →
  new_coverage tc = false →
  w = 0%Q
  ∧ ((w == Spec.weight tc)%Q
     ↔ selected_cnt tc ≠ 0 ∧ successful_generation_cnt tc = 0).
Proof using.
  clear usage_nonempty default_usage format_usage_dict parse_usage_dict estimate_text_token.
  intros H Hget _ Hnew.
  apply scheduling_weight_computed in H as (tc' & Hget' & _ & ->).
  assert (tc' = tc) as -> by congruence.
  rewrite Hnew. split; [done|].
  unfold Spec.weight, Spec.failure_ratio. rewrite Hnew.
  destruct (Z.eqb_spec (selected_cnt tc) 0) as [Hz|Hnz].
  - split; [|tauto]. intros Heq. exfalso. revert Heq. unfold Qeq. simpl. lia.
  - set (a := inject_Z (selected_cnt tc - successful_generation_cnt tc)).
    set (b := inject_Z (selected_cnt tc)).
    assert (¬ (b == 0)%Q) as Hb.
    { unfold b. intros Hb. apply Hnz. revert Hb. unfold Qeq, inject_Z. simpl. lia. }
    assert ((a == b)%Q ↔ successful_generation_cnt tc = 0) as Hab.
    { unfold a, b. rewrite inject_Z_injective. lia. }
    rewrite <- Hab. split.
    + intros Heq. split; [done|].
      assert ((a / b == 1)%Q) as Hdiv.
      { apply Qeq_trans with (1 - ((1 - a / b) + 0))%Q; [ring|].
        apply Qeq_trans with (1 - 0)%Q; [|ring].
        apply Qplus_comp; [reflexivity|]. apply Qopp_comp. by symmetry. }
      apply Qeq_trans with (a / b * b)%Q; [by field|].
      apply Qeq_trans with (1 * b)%Q; [|ring].
      apply Qmult_comp; [exact Hdiv|reflexivity].
    + intros [_ Heq].
      apply Qeq_trans with ((1 - b / b) + 0)%Q.
      * apply Qeq_trans with ((1 - 1) + 0)%Q; [ring|].
        apply Qplus_comp; [|reflexivity]. apply Qplus_comp; [reflexivity|].
        apply Qopp_comp. symmetry. by apply Qmult_inv_r.
      * apply Qplus_comp; [|reflexivity]. apply Qplus_comp; [reflexivity|].
        apply Qopp_comp. apply Qmult_comp; [by symmetry|reflexivity].
Qed.

(** *** The scheduling view *)

Lemma str_app_assoc (a b c : string) : (a ++ b) ++ c = a ++ b ++ c.
Proof.
  induction a as [|ch a IH]; [done|].
  change (String ch ((a ++ b) ++ c) = String ch (a ++ b ++ c)). by rewrite IH.
Qed.


















(** X16.  The assertion of the truncation loop: when the first case in
    descending order does not fit on its own, no view is returned. *)
Lemma scheduling_view_first_case_too_large m infos x rest :
  test_cases m ≠ [] →
  valuable_info m = Ok infos →
  TOKEN_LIMIT < estimate_text_token (view_text (info_of <$> infos)) →
  sort_desc infos = x :: rest →
  TOKEN_LIMIT < estimate_text_token (view_text [info_of x]) →
  all_scheduling_information m = Raise AssertionError.
Proof.
  intros Hne Hinfos Hover Hsort Hfirst. unfold Corpus.get_all_scheduling_information.
  destruct (test_cases m); [done|]. rewrite Hinfos. simpl.
  change (λ x : string * Q * Z, x.1.1) with info_of.
  apply Z.ltb_lt in Hover. rewrite Hover, Hsort. simpl.
  assert ((SCHEDULING_FORMAT_REMINDER ++ nl ++ nl) ++ x.1.1 = view_text [info_of x]) as ->.
  { unfold view_text. simpl. by rewrite str_app_assoc. }
  apply Z.ltb_lt in Hfirst. by rewrite Hfirst.
Qed.

End CorpusProps.

Lemma seed_case_invariants_witness :
  0 < 3
  ∧ Spec.is_seed
      (Corpus.mkTestCase 0 None "2025-04-16 14:52:16.589" (Some 0) [Corpus.FINISHED]
         true true 3 false false false (Corpus.UsageOf tt) None None None None None 0 0
         (Some "print('hi')") None None None
         (Some "enter main 1
exit main 1") (Some "summary") None None (Some "out")).
Proof.
  destruct (seed_case_invariants SampleCorpus.usage_nonempty tt
              SampleCorpus.format_usage_dict
              "2025-04-16 14:52:16.589" SampleCorpus.empty_manager SampleCorpus.disk
              "print('hi')" "enter main 1
exit main 1" "summary" 3 true
              (Corpus.add_initial_testcase SampleCorpus.usage_nonempty tt
                 SampleCorpus.format_usage_dict
                 "2025-04-16 14:52:16.589" SampleCorpus.empty_manager SampleCorpus.disk
                 "print('hi')" "enter main 1
exit main 1" "summary" 3 true).1
              (Corpus.mkTestCase 0 None "2025-04-16 14:52:16.589" (Some 0) [Corpus.FINISHED]
                 true true 3 false false false (Corpus.UsageOf tt) None None None None None 0 0
                 (Some "print('hi')") None None None
                 (Some "enter main 1
exit main 1") (Some "summary") None None (Some "out")))
    as (H1 & H2 & _).
  - vm_compute. reflexivity.
  - split; [exact H1|exact H2].
Defined.

Example seed_file_on_disk :
  is_Some (Corpus.files
     (Corpus.add_initial_testcase SampleCorpus.usage_nonempty tt
        SampleCorpus.format_usage_dict
        "2025-04-16 14:52:16.589" SampleCorpus.empty_manager SampleCorpus.disk
        "print('hi')" "enter main 1
exit main 1" "summary" 3 true).1.2 !! "out/queue/id:000000.yaml").
Proof. vm_compute. eauto. Qed.

Lemma scheduling_weight_without_new_coverage_witness :
  0%Q = 0%Q
  ∧ ((0 == Spec.weight SampleCorpus.child)%Q
     ↔ Corpus.selected_cnt SampleCorpus.child ≠ 0
       ∧ Corpus.successful_generation_cnt SampleCorpus.child = 0).
Proof.
  apply (scheduling_weight_without_new_coverage SampleCorpus.func_call_chain_str
           SampleCorpus.format_percent SampleCorpus.manager 1
           "<test_case_id>1</test_case_id><src_test_case_id>0</src_test_case_id><path_constraint>x > 5</path_constraint><execution_information>def execute_program(timeout): return run(6, timeout)</execution_information><function_call_chain>example.c[main (75%)][50%]</function_call_chain><historical_information>0/0(0.0%)</historical_information>"
           0%Q SampleCorpus.child).
  - vm_compute. reflexivity.
  - reflexivity.
  - reflexivity.
  - reflexivity.
Defined.

Example sample_child_weights :
  (Spec.weight SampleCorpus.child == 1)%Q ∧ (Spec.weight SampleCorpus.seed == 2)%Q.
Proof. split; reflexivity. Qed.



Example sample_view_truncated :
  Corpus.TOKEN_LIMIT
  < SampleCorpus.coarse_estimate
      (Corpus.view_text
         (Corpus.info_of <$>
            default []
              (match Corpus.valuable_testcase_info SampleCorpus.func_call_chain_str
                       SampleCorpus.format_percent SampleCorpus.manager with
               | Ok l => Some l
               | Raise _ => None
               end))).
Proof. vm_compute. reflexivity. Qed.

(** ** The [provide_solution] tool *)

Section SolutionProps.

Import ProvideSolution.

Variable run_target : string → Z → run_result.

(** C7.  A solution is accepted (message [Solution accepted.], the program
    recorded) exactly when [is_satisfiable] is true, the program text
    contains [def execute_program] and its smoke run with a timeout of 2
    seconds succeeds; a program is recorded only on acceptance; an
    unsatisfiable verdict is acknowledged without a program. *)
Theorem process_solution_accepts (is_satisfiable : option bool) (python_execution : option string) :
  (∀ p, process_solution run_target is_satisfiable python_execution
        = ("Solution accepted.", true, Some p)
        ↔ is_satisfiable = Some true
          ∧ python_execution = Some p
          ∧ Py.contains "def execute_program" p = true
          ∧ exec_success (run_target p 2) = true)
  ∧ (∀ msg sat p, process_solution run_target is_satisfiable python_execution
                  = (msg, sat, Some p) →
                  msg = "Solution accepted." ∧ sat = true)
  ∧ (is_satisfiable = Some false →
     process_solution run_target is_satisfiable python_execution
     = ("UNSATISFIABLE constraints acknowledged.", false, None)).
Proof.
  assert (∀ p, Py.contains "def execute_program" p = true → Py.is_empty p = false) as Hne.
  { intros [|c p]; [discriminate|done]. }
  unfold process_solution.
  destruct is_satisfiable as [[|]|]; try (split; [|split]; intros; try done; split; intros; done || (by destruct_and!)).
  destruct python_execution as [code|];
    try (split; [|split]; intros; try done; split; intros; done || (by destruct_and!)).
  destruct (Py.is_empty code) eqn:Hempty.
  { split; [|split]; intros; try done. split; [done|].
    intros (_ & [= <-] & Hc & _). apply Hne in Hc. congruence. }
  destruct (Py.contains "def execute_program" code) eqn:Hcontains; simpl.
  2:{ split; [|split]; intros; try done. split; [done|].
      intros (_ & [= <-] & Hc & _). congruence. }
  destruct (exec_success (run_target code 2)) eqn:Hrun; simpl.
  - split; [|split]; intros; try done.
    + split.
      * intros [= <-]. done.
      * intros (_ & [= <-] & _). done.
    + by inversion H.
  - split; [|split]; intros; try done. split; [done|].
    intros (_ & [= <-] & _ & Hr). congruence.
Qed.

End SolutionProps.

(** ** The [solve_with_smt] tool *)

Lemma is_empty_app (a b : string) :
  Py.is_empty (a ++ b) = Py.is_empty a && Py.is_empty b.
Proof. by destruct a. Qed.

Lemma join_nonempty (sep : string) (l : list string) :
  l ≠ [] → Forall (λ x, Py.is_empty x = false) l → Py.is_empty (Py.join sep l) = false.
Proof.
  intros Hne Hall. destruct l as [|x l]; [done|].
  apply Forall_cons in Hall as [Hx _].
  destruct l as [|y l]; [done|].
  change (Py.join sep (x :: y :: l)) with (x ++ sep ++ Py.join sep (y :: l)).
  by rewrite is_empty_app, Hx.
Qed.

Section SolverProps.

Import SmtSolver.

Lemma insert_sorted_Permutation x l : insert_sorted x l ≡ₚ x :: l.
Proof.
  induction l as [|y l IH]; simpl; [done|].
  destruct (String.leb x y); [done|]. rewrite IH. apply Permutation_swap.
Qed.

Lemma sorted_Permutation l : sorted l ≡ₚ l.
Proof.
  induction l as [|x l IH]; simpl; [done|].
  rewrite insert_sorted_Permutation. by rewrite IH.
Qed.

Lemma insert_sorted_Sorted x l : Sorted String.le l → Sorted String.le (insert_sorted x l).
Proof.
  induction l as [|y l IH]; intros Hs; simpl.
  - repeat constructor.
  - destruct (String.leb x y) eqn:Hxy.
    + constructor; [done|]. constructor. unfold String.le. by rewrite Hxy.
    + assert (String.le y x) as Hyx.
      { unfold String.le. destruct (String.leb_total x y) as [H|H]; [congruence|].
        by rewrite H. }
      apply Sorted_inv in Hs as [Hs Hhd].
      constructor; [by apply IH|].
      destruct l as [|z l]; simpl.
      * by constructor.
      * destruct (String.leb x z); constructor; [done|]. by apply HdRel_inv in Hhd.
Qed.

(** [sorted] returns its argument in ascending order of the names. *)
Lemma sorted_StronglySorted l : StronglySorted String.le (sorted l).
Proof.
  apply Sorted_StronglySorted; [apply _|].
  induction l as [|x l IH]; simpl; [constructor|]. by apply insert_sorted_Sorted.
Qed.

Lemma sdict_set_keys {V} (k : string) (v : V) (d : list (string * V)) :
  ∀ name, name ∈ (sdict_set k v d).*1 ↔ name = k ∨ name ∈ d.*1.
Proof.
  induction d as [|[k' v'] d IH]; intros name; simpl.
  - rewrite list_elem_of_singleton, elem_of_nil. tauto.
  - destruct (String.eqb_spec k' k) as [->|Hne]; simpl.
    + rewrite !elem_of_cons. tauto.
    + rewrite !elem_of_cons, IH. tauto.
Qed.

Lemma fill_variables_keys model :
  ∀ d vars, fill_variables model d = inr vars →
  ∀ name, name ∈ vars.*1 ↔ name ∈ d.*1 ∨ name ∈ model.*1.
Proof.
  induction model as [|[k v] model IH]; intros d vars H name; simpl in H.
  - injection H as <-. rewrite elem_of_nil. tauto.
  - destruct (read_value v) as [msg|shown]; [discriminate|].
    rewrite (IH _ _ H), sdict_set_keys, fmap_cons, elem_of_cons. simpl. tauto.
Qed.

Lemma variables_of_keys model vars :
  variables_of model = inr vars → ∀ name, name ∈ vars.*1 ↔ name ∈ model.*1.
Proof.
  intros H name. rewrite (fill_variables_keys _ _ _ H). simpl.
  rewrite elem_of_nil. tauto.
Qed.

(** The loop over the model fills the dictionary unless the model holds an
    algebraic value whose conversion to a float raises; the exception is
    that of the first such entry. *)
Lemma fill_variables_raises model :
  ∀ d msg, fill_variables model d = inl msg ↔
    ∃ before name rest,
      model = (before ++ (name, AlgebraicValue (inl msg)) :: rest)%list
      ∧ Forall (λ entry, ∀ m, entry.2 ≠ AlgebraicValue (inl m)) before.
Proof.
  induction model as [|[k v] model IH]; intros d msg; simpl.
  - split; [done|]. intros (before & name & rest & H & _). by destruct before.
  - destruct (read_value v) as [m|shown] eqn:Hv.
    + assert (v = AlgebraicValue (inl m)) as ->.
      { destruct v as [n|[m'|sh]| | |sh]; simpl in Hv; congruence. }
      split.
      * intros [= ->]. by exists [], k, model.
      * intros (before & name & rest & H & Hall).
        destruct before as [|[k0 v0] before]; simpl in H.
        -- congruence.
        -- injection H as -> <- ->. apply Forall_cons in Hall as [Hbad _].
           by destruct (Hbad m).
    + rewrite IH. split.
      * intros (before & name & rest & -> & Hall).
        exists ((k, v) :: before), name, rest. split; [done|].
        constructor; [|done]. intros m Hm. simpl in Hm. subst v.
        simpl in Hv. discriminate.
      * intros (before & name & rest & H & Hall).
        destruct before as [|[k0 v0] before]; simpl in H.
        -- injection H as -> -> ->. simpl in Hv. discriminate.
        -- injection H as -> -> ->. apply Forall_cons in Hall as [_ Hall].
           by exists before, name, rest.
Qed.

Lemma variables_of_reads model :
  (∃ vars, variables_of model = inr vars)
  ↔ Forall (λ entry, ∀ m, entry.2 ≠ AlgebraicValue (inl m)) model.
Proof.
  unfold variables_of. split.
  - intros [vars H]. apply Forall_forall. intros [k v] Hin m Hm.
    simpl in Hm. subst v.
    apply list_elem_of_split in Hin as (l1 & l2 & ->).
    assert (∃ msg, fill_variables (l1 ++ (k, AlgebraicValue (inl m)) :: l2) [] = inl msg)
      as [msg Hmsg]; [|congruence].
    clear H. generalize (@nil (string * string)).
    induction l1 as [|[k1 v1] l1 IH]; intros d; simpl; [by eexists|].
    destruct (read_value v1); [by eexists|apply IH].
  - intros Hall. destruct (fill_variables model []) as [msg|vars] eqn:H; [|by eexists].
    apply fill_variables_raises in H as (before & name & rest & -> & _).
    apply Forall_app in Hall as [_ Hall]. apply Forall_cons in Hall as [Hbad _].
    by destruct (Hbad msg).
Qed.

Variable Constraint : Type.
Variable py_eval : string → outcome Constraint.
Variable py_exec : string → outcome (option (Constraint * bool)).
Variable z3_check : Constraint → string + check_result.

(** The report for each outcome of the solver.  For a model with at least
    one entry, all of them read, the observation lists [var = value] in
    ascending order of the names and the flag is true; a model with an
    algebraic value whose conversion raises is reported as a solving error;
    UNSAT and UNKNOWN give their messages and the flag false.  A satisfiable
    constraint with an empty model gives the empty observation and the flag
    false. *)
Lemma report_outcomes :
  (∀ model vars, model ≠ [] → variables_of model = inr vars →
     report (Sat model) = (Py.join nl (solution_of vars), true)
     ∧ StronglySorted String.le (sorted vars.*1)
     ∧ sorted vars.*1 ≡ₚ vars.*1
     ∧ ∀ name, name ∈ vars.*1 ↔ name ∈ model.*1)
  ∧ (∀ model msg, variables_of model = inl msg →
       report (Sat model) = solving_error msg)
  ∧ report Unsat = ("Constraints unsatisfiable.", false)
  ∧ (∀ reason,
       report (Unknown reason)
       = (if Py.contains "timeout" (Py.lower reason) || Py.contains "canceled" (Py.lower reason)
          then "Solver timeout (10 seconds)."
          else "Solver could not determine result. Reason: " ++ reason, false))
  ∧ report (Sat []) = (EmptyString, false).
Proof.
  split; [|split; [|split; [|split]]]; try done.
  - intros model vars Hne Hvars.
    split; [|split; [apply sorted_StronglySorted|split;
      [apply sorted_Permutation|by apply variables_of_keys]]].
    unfold report, conclude. rewrite Hvars.
    assert (Py.is_empty (Py.join nl (solution_of vars)) = false) as ->; [|done].
    apply join_nonempty.
    + unfold solution_of. intros Heq. apply fmap_nil_inv in Heq.
      assert (sorted vars.*1 ≡ₚ vars.*1) as Hp by apply sorted_Permutation.
      rewrite Heq in Hp. apply Permutation_nil_l in Hp. symmetry in Hp.
      apply fmap_nil_inv in Hp.
      destruct model as [|[k v] model]; [done|].
      assert (k ∈ vars.*1) as Hin
        by (apply (variables_of_keys _ _ Hvars); simpl; left).
      rewrite Hp in Hin. by apply elem_of_nil in Hin.
    + unfold solution_of. apply Forall_fmap, Forall_forall. intros var _. simpl.
      rewrite !is_empty_app. simpl. by rewrite andb_false_r.
  - intros model msg H. unfold report. by rewrite H.
Qed.

End SolverProps.




Section CodeBlockProps.

Import SmtSolver.

Variable Constraint : Type.
Variable py_eval : string → outcome Constraint.
Variable py_exec : string → outcome (option (Constraint * bool)).
Variable z3_check : Constraint → string + check_result.






(** C6.  When the solver answers SAT with a model that has no entry (a
    constraint without free variables), the handler returns the empty
    observation with the success flag false, in either dialect. *)
Theorem sat_with_empty_model_reported_as_failure (s : string) (c : Constraint) :
  Py.is_empty (Py.strip s) = false →
  (is_format1 (Py.split "010" (block_text s)) = true
   ∧ py_eval (block_text s) = Returns c)
  ∨ (is_format1 (Py.split "010" (block_text s)) = false
     ∧ py_exec (code_of_block (Py.split "010" (block_text s)))
       = Returns (Some (c, true))) →
  z3_check c = inr (Sat []) →
  process_smt_solver Constraint py_eval py_exec z3_check (Some s)
  = Some (EmptyString, false).
Proof.
  intros Hs Hdialect Hsat. unfold process_smt_solver. rewrite Hs.
  assert (solve Constraint z3_check c = (EmptyString, false)) as Hsolve.
  { unfold solve. rewrite Hsat. apply report_outcomes. }
  destruct Hdialect as [[-> ->]|[-> ->]]; by rewrite Hsolve.
Qed.

End CodeBlockProps.



Lemma sat_with_empty_model_reported_as_failure_witness :
  SmtSolver.process_smt_solver unit SampleSolver.py_eval SampleSolver.py_exec
    SampleSolver.z3_check_closed (Some "z3.BoolVal(True)")
  = Some (EmptyString, false).
Proof.
  apply (sat_with_empty_model_reported_as_failure unit SampleSolver.py_eval
           SampleSolver.py_exec SampleSolver.z3_check_closed "z3.BoolVal(True)" tt).
  - reflexivity.
  - left. split; reflexivity.
  - reflexivity.
Defined.

(** ** Saving and loading a test case *)

(** *** Characters of a string *)

Lemma contains_char (c : ascii) (s : string) :
  Py.contains (String c EmptyString) s = Py.has_char c s.
Proof.
  induction s as [|d r IH]; [done|].
  change (Py.contains (String c EmptyString) (String d r))
    with (String.prefix (String c EmptyString) (String d r)
          || Py.contains (String c EmptyString) r).
  rewrite IH. simpl. f_equal.
  destruct (ascii_dec c d) as [->|Hne].
  - rewrite Ascii.eqb_refl. by destruct r.
  - symmetry. apply Ascii.eqb_neq. congruence.
Qed.

Lemma has_char_app (c : ascii) (a b : string) :
  Py.has_char c (a ++ b) = Py.has_char c a || Py.has_char c b.
Proof.
  induction a as [|d a IH]; [done|].
  change (Py.has_char c (String d (a ++ b)) = Py.has_char c (String d a) || Py.has_char c b).
  simpl. rewrite IH. by rewrite orb_assoc.
Qed.

(** [split1] cuts at the first occurrence of the separator. *)
Lemma split1_spec (c : ascii) (s h : string) (t : option string) :
  Py.split1 c s = (h, t) →
  Py.has_char c h = false
  ∧ match t with
    | None => s = h
    | Some r => s = h ++ String c r
    end.
Proof.
  revert h t. induction s as [|d s IH]; intros h t H; simpl in H.
  - by inversion H.
  - destruct (Ascii.eqb_spec d c) as [->|Hne].
    + by inversion H.
    + destruct (Py.split1 c s) as [h' t'] eqn:Hs. inversion H; subst.
      destruct (IH h' t eq_refl) as [Hh Ht]. split.
      * simpl. rewrite Hh. by apply Ascii.eqb_neq in Hne as ->.
      * destruct t; by rewrite Ht.
Qed.

Lemma split1_no_sep (c : ascii) (s : string) :
  Py.has_char c s = false → Py.split1 c s = (s, None).
Proof.
  induction s as [|d s IH]; intros H; simpl in *; [done|].
  apply orb_false_iff in H as [Hd Hs]. rewrite Hd, (IH Hs). done.
Qed.

Lemma split1_first (c : ascii) (a b : string) :
  Py.has_char c a = false → Py.split1 c (a ++ String c b) = (a, Some b).
Proof.
  induction a as [|d a IH]; intros H.
  - simpl. by rewrite Ascii.eqb_refl.
  - simpl in H. apply orb_false_iff in H as [Hd Ha].
    change (Py.split1 c (String d (a ++ String c b)) = (String d a, Some b)).
    simpl. rewrite Hd, (IH Ha). done.
Qed.

(** Cutting a text whose part before some separator already holds one:
    the remainder still holds a separator. *)
Lemma split1_early (c : ascii) (a b : string) :
  Py.has_char c a = true →
  ∃ h r, Py.split1 c (a ++ String c b) = (h, Some r) ∧ Py.has_char c r = true.
Proof.
  induction a as [|d a IH]; intros H; [done|].
  change (∃ h r, Py.split1 c (String d (a ++ String c b)) = (h, Some r)
                 ∧ Py.has_char c r = true).
  simpl in *. destruct (Ascii.eqb d c).
  - eexists _, _. split; [done|]. rewrite has_char_app. simpl.
    rewrite Ascii.eqb_refl. by rewrite orb_true_r.
  - simpl in H. destruct (IH H) as (h & r & -> & Hr). eauto.
Qed.

(** *** [int()] rejects a text with a colon *)

Lemma colon_not_space (c : ascii) : Ascii.eqb c ":" = true → Py.isspace c = false.
Proof. intros H. apply Ascii.eqb_eq in H as ->. reflexivity. Qed.

Lemma has_colon_lstrip (s : string) :
  Py.has_char ":" (Py.lstrip s) = Py.has_char ":" s.
Proof.
  induction s as [|c s IH]; [done|]. simpl.
  destruct (Py.isspace c) eqn:Hsp; [|done].
  rewrite IH. destruct (Ascii.eqb c ":") eqn:Hc; [|done].
  apply colon_not_space in Hc. congruence.
Qed.

Lemma has_colon_rstrip (s : string) :
  Py.has_char ":" (Py.rstrip s) = Py.has_char ":" s.
Proof.
  induction s as [|c s IH]; [done|]. simpl.
  destruct (Py.is_empty (Py.rstrip s) && Py.isspace c) eqn:Hcut.
  - apply andb_true_iff in Hcut as [Hempty Hsp].
    destruct (Py.rstrip s); [|done]. rewrite <- IH. simpl.
    destruct (Ascii.eqb c ":") eqn:Hc; [|done].
    apply colon_not_space in Hc. congruence.
  - simpl. by rewrite IH.
Qed.

Lemma int_digits_colon (s : string) :
  Py.has_char ":" s = true → ∀ prev acc, Py.int_digits prev acc s = None.
Proof.
  induction s as [|c s IH]; intros H prev acc; [done|]. simpl in *.
  destruct (Ascii.eqb c ":") eqn:Hc.
  - apply Ascii.eqb_eq in Hc as ->. done.
  - simpl in H. destruct (Py.isdigit c); [by apply IH|].
    destruct (Ascii.eqb c "_" && prev); [|done].
    destruct s as [|d s]; [done|]. destruct (Py.isdigit d); [by apply IH|done].
Qed.

Lemma int_colon (s : string) : Py.has_char ":" s = true → Py.int s = Raise ValueError.
Proof.
  intros H. unfold Py.int.
  assert (Py.has_char ":" (Py.strip s) = true) as Ht
    by (unfold Py.strip; by rewrite has_colon_rstrip, has_colon_lstrip).
  destruct (Py.strip s) as [|c t]; [done|].
  simpl in Ht.
  destruct (Ascii.eqb_spec c "-") as [->|_]; [by rewrite int_digits_colon|].
  destruct (Ascii.eqb_spec c "+") as [->|_]; [by rewrite int_digits_colon|].
  by rewrite int_digits_colon.
Qed.

Lemma int_raises (s : string) (e : exn) : Py.int s = Raise e → e = ValueError.
Proof.
  unfold Py.int. destruct (Py.strip s) as [|c t].
  - destruct (Py.int_digits _ _ _); [done|]. by intros [= <-].
  - destruct (Ascii.eqb c "-"); [|destruct (Ascii.eqb c "+")];
      (destruct (Py.int_digits _ _ _); [done|]; by intros [= <-]).
Qed.

(** A text with a colon before its last colon cannot be read back as
    target lines; such is the text written for a path with a colon. *)
Lemma colon_text_unreadable (path rest : string) :
  Py.has_char ":" path = true →
  Corpus.str_to_target_file_lines (Some (path ++ String ":" rest)) = Raise ValueError.
Proof.
  intros Hcolon. unfold Corpus.str_to_target_file_lines.
  destruct (split1_early ":" path rest Hcolon) as (h & r & Hsplit & Hr).
  assert (Py.is_empty (path ++ String ":" rest) = false) as -> by (by destruct path).
  rewrite Hsplit.
  destruct (Py.split1 "-" r) as [start [end_|]] eqn:Hdash; [|done].
  apply split1_spec in Hdash as [_ ->].
  rewrite has_char_app in Hr. simpl in Hr.
  destruct (Py.has_char ":" start) eqn:Hstart.
  - rewrite (int_colon _ Hstart). reflexivity.
  - simpl in Hr. destruct (Py.int start) as [x|e] eqn:Hint.
    + rewrite (int_colon _ Hr). reflexivity.
    + apply int_raises in Hint as ->. reflexivity.
Qed.

Lemma target_file_lines_colon (path : string) (a b : Z) :
  Py.contains ":" path = true →
  Corpus.str_to_target_file_lines
    (Corpus.target_file_lines_to_str (Some (path, (a, b)))) = Raise ValueError.
Proof.
  rewrite contains_char. intros Hcolon. by apply colon_text_unreadable.
Qed.

(** *** The bytes deleted by the load *)

Lemma delete_bytes_app (a b : string) :
  Corpus.delete_bytes (a ++ b) = Corpus.delete_bytes a ++ Corpus.delete_bytes b.
Proof.
  induction a as [|c a IH]; [done|].
  change (String c a ++ b) with (String c (a ++ b)). cbn [Corpus.delete_bytes].
  rewrite IH. by destruct (Corpus.deleted_byte c).
Qed.

Lemma delete_bytes_has_char (c : ascii) (s : string) :
  Corpus.deleted_byte c = false →
  Py.has_char c (Corpus.delete_bytes s) = Py.has_char c s.
Proof.
  intros Hc. induction s as [|d s IH]; [done|]. cbn [Corpus.delete_bytes Py.has_char].
  destruct (Corpus.deleted_byte d) eqn:Hd.
  - rewrite IH. destruct (Ascii.eqb_spec d c) as [->|]; [congruence|done].
  - cbn [Py.has_char]. by rewrite IH.
Qed.

Lemma printable_not_deleted (c : ascii) :
  Corpus.printable_char c = true → Corpus.deleted_byte c = false.
Proof.
  destruct c as [[] [] [] [] [] [] [] []]; vm_compute; congruence.
Qed.

(** The load deletes nothing from a printable text. *)
Lemma delete_bytes_printable (s : string) :
  Corpus.printable s = true → Corpus.delete_bytes s = s.
Proof.
  induction s as [|c s IH]; [done|]. cbn [Corpus.printable Corpus.delete_bytes].
  intros H. apply andb_true_iff in H as [Hc Hs].
  by rewrite (printable_not_deleted _ Hc), IH.
Qed.

(** *** [int()] reads back what [str()] prints *)

Lemma int_digits_uint (d : Decimal.uint) :
  ∀ prev acc, d ≠ Decimal.Nil ∨ prev = true →
    Py.int_digits prev acc (NilEmpty.string_of_uint d) = Some (Py.uint_val acc d).
Proof.
  induction d; intros prev acc Hd;
    try (simpl; rewrite IHd by (by right); reflexivity).
  destruct Hd as [? | ->]; done.
Qed.

Lemma uint_val_acc (d : Decimal.uint) :
  ∀ acc, Py.uint_val (Z.pos acc) d = Z.pos (Pos.of_uint_acc d acc).
Proof. induction d; intros acc; simpl; [done|by rewrite <- IHd; f_equal; lia..]. Qed.

Lemma uint_val_of_uint (d : Decimal.uint) : Py.uint_val 0 d = Z.of_uint d.
Proof.
  unfold Z.of_uint.
  induction d; simpl; try done;
    match goal with
    | |- Py.uint_val ?k _ = _ => change k with (Z.pos (Z.to_pos k))
    end; by rewrite uint_val_acc.
Qed.

Lemma digits_only (c : ascii) (d : Decimal.uint) :
  Py.has_char c (NilEmpty.string_of_uint d) = true → Py.isdigit c = true.
Proof.
  induction d; cbn [Py.has_char NilEmpty.string_of_uint]; [done|..];
    (intros H; apply orb_true_iff in H as [H|H]; [|by apply IHd];
     by apply Ascii.eqb_eq in H as <-).
Qed.

Lemma strip_no_space (s : string) :
  (∀ c, Py.has_char c s = true → Py.isspace c = false) → Py.strip s = s.
Proof.
  intros Hs. unfold Py.strip.
  assert (Py.lstrip s = s) as ->.
  { destruct s as [|c s]; [done|]. simpl. rewrite Hs; [done|].
    simpl. by rewrite Ascii.eqb_refl. }
  induction s as [|c s IH]; [done|]. simpl.
  rewrite IH.
  - rewrite (Hs c); [|simpl; by rewrite Ascii.eqb_refl].
    by rewrite andb_false_r.
  - intros c' Hc'. apply Hs. simpl. by rewrite Hc', orb_true_r.
Qed.

Lemma digit_not_space (c : ascii) : Py.isdigit c = true → Py.isspace c = false.
Proof.
  unfold Py.isdigit, Py.isspace. intros H.
  apply andb_true_iff in H as [H1 H2]. apply N.leb_le in H1, H2.
  apply orb_false_iff. split; apply andb_false_iff.
  - right. apply N.leb_gt. lia.
  - right. apply N.leb_gt. lia.
Qed.

Lemma to_uint_string_nonempty (p : positive) :
  ∃ c r, NilEmpty.string_of_uint (Pos.to_uint p) = String c r ∧ Py.isdigit c = true.
Proof.
  pose proof (DecimalPos.Unsigned.to_uint_nonnil p) as Hnn.
  destruct (Pos.to_uint p); [done|..]; simpl; eauto.
Qed.

(** [int(str(z)) = z] *)
Lemma int_str_of_Z (z : Z) : Py.int (Py.str_of_Z z) = Ok z.
Proof.
  unfold Py.str_of_Z.
  pose proof (DecimalZ.of_to z) as Hz.
  destruct z as [|p|p]; [done|..]; simpl in *.
  - pose proof (DecimalPos.Unsigned.to_uint_nonnil p) as Hnn.
    assert (NilZero.string_of_uint (Pos.to_uint p)
            = NilEmpty.string_of_uint (Pos.to_uint p)) as -> by (by destruct (Pos.to_uint p)).
    unfold Py.int. rewrite strip_no_space
      by (intros c Hc; by apply digit_not_space, (digits_only c (Pos.to_uint p))).
    destruct (to_uint_string_nonempty p) as (c & r & Hstr & Hc).
    assert (Ascii.eqb c "-" = false ∧ Ascii.eqb c "+" = false) as [Hm Hp].
    { split; apply Ascii.eqb_neq; intros ->; done. }
    rewrite Hstr, Hm, Hp, <- Hstr.
    rewrite int_digits_uint by (by left). rewrite uint_val_of_uint.
    unfold Z.of_uint. by rewrite DecimalPos.Unsigned.of_to.
  - pose proof (DecimalPos.Unsigned.to_uint_nonnil p) as Hnn.
    assert (NilZero.string_of_uint (Pos.to_uint p)
            = NilEmpty.string_of_uint (Pos.to_uint p)) as -> by (by destruct (Pos.to_uint p)).
    unfold Py.int. rewrite strip_no_space.
    + simpl. rewrite int_digits_uint by (by left). rewrite uint_val_of_uint.
      unfold Z.of_uint. by rewrite DecimalPos.Unsigned.of_to.
    + intros c Hc. cbn [Py.has_char] in Hc. apply orb_true_iff in Hc as [Hc|Hc].
      * by apply Ascii.eqb_eq in Hc as <-.
      * by apply digit_not_space, (digits_only c (Pos.to_uint p)).
Qed.

Lemma str_of_Z_no_dash (z : Z) : 0 ≤ z → Py.has_char "-" (Py.str_of_Z z) = false.
Proof.
  intros Hz. unfold Py.str_of_Z.
  destruct z as [|p|p]; [done| |lia]. simpl.
  assert (NilZero.string_of_uint (Pos.to_uint p)
          = NilEmpty.string_of_uint (Pos.to_uint p)) as ->.
  { pose proof (DecimalPos.Unsigned.to_uint_nonnil p). by destruct (Pos.to_uint p). }
  destruct (Py.has_char "-" _) eqn:H; [|done].
  by apply digits_only in H.
Qed.

(** The text written for the target lines is read back when the path has no
    colon and the first line number is not negative. *)
Lemma target_file_lines_roundtrip (fl : Corpus.file_lines) :
  match fl with
  | Some (path, (a, _)) => Py.contains ":" path = false ∧ 0 ≤ a
  | None => True
  end →
  Corpus.str_to_target_file_lines (Corpus.target_file_lines_to_str fl) = Ok fl.
Proof.
  destruct fl as [[path [a b]]|]; [|done]. rewrite contains_char. intros [Hpath Ha].
  simpl.
  change (path ++ ":" ++ Py.str_of_Z a ++ "-" ++ Py.str_of_Z b)
    with (path ++ String ":" (Py.str_of_Z a ++ String "-" (Py.str_of_Z b))).
  assert (Py.is_empty (path ++ String ":" (Py.str_of_Z a ++ String "-" (Py.str_of_Z b))) = false)
    as -> by (by destruct path).
  rewrite split1_first by done.
  rewrite split1_first by (by apply str_of_Z_no_dash).
  by rewrite !int_str_of_Z.
Qed.

Lemma states_roundtrip (sts : list Corpus.TestcaseState) :
  mapR Corpus.state_of_name (Corpus.state_str <$> sts) = Ok sts.
Proof.
  induction sts as [|s sts IH]; [done|].
  rewrite fmap_cons. cbn [mapR]. rewrite IH. by destruct s.
Qed.

Section RoundTripProps.

Import Corpus.

Context {UsageDict : Type}.
Variable usage_nonempty : UsageDict → bool.
Variable format_usage_dict : UsageDict → string.
Variable parse_usage_dict : string → result UsageDict.

Abbreviation save_to_disk := (Corpus.save_to_disk usage_nonempty format_usage_dict).
Abbreviation to_dict := (Corpus.to_dict usage_nonempty format_usage_dict).
Abbreviation load_from_file := (Corpus.load_from_file parse_usage_dict).
Abbreviation usage_reloads :=
  (Corpus.usage_reloads usage_nonempty format_usage_dict parse_usage_dict).

(** A successful save leaves the dumped dictionary in the queue file. *)
Lemma save_to_disk_file tc disk disk1 :
  save_to_disk tc disk = Ok disk1 →
  ∃ d, _out_dir tc = Some d
       ∧ Py.is_empty d = false
       ∧ files disk1 !! path_join (path_join d "queue") (yaml_filename tc)
         = Some (to_dict tc).
Proof.
  unfold Corpus.save_to_disk. intros H.
  destruct (_out_dir tc) as [d|]; [|discriminate]. exists d. split; [done|].
  destruct (Py.is_empty d); [discriminate|]. split; [done|].
  unfold write_to_yaml_file in H.
  destruct (bool_decide _); simpl in H; [|discriminate].
  destruct (is_crash tc || is_hang tc); inversion H; subst; simpl.
  - rewrite lookup_insert. case_decide; [done|]. by rewrite lookup_insert_eq.
  - by rewrite lookup_insert_eq.
Qed.

Lemma text_to_scalar (o : option string) : text <$> (to_scalar <$> o) = o.
Proof. by destruct o. Qed.

Lemma read_scalar_printable (sc : scalar) :
  printable (text sc) = true → read_scalar sc = sc.
Proof.
  intros H. destruct sc as [lit t]. unfold read_scalar. simpl in *.
  by rewrite delete_bytes_printable.
Qed.

Lemma read_option_printable (o : option scalar) (l : list (option scalar)) :
  Forall (λ s, printable s = true) (omap (fmap text) (o :: l)) →
  read_scalar <$> o = o ∧ Forall (λ s, printable s = true) (omap (fmap text) l).
Proof.
  destruct o as [sc|]; simpl; intros H; [|done].
  apply Forall_cons in H as [H1 H2]. by rewrite read_scalar_printable.
Qed.

(** The load reads a document of printable texts as it was written. *)
Lemma read_doc_plain (data : @CaseDoc UsageDict) : plain_doc data → read_doc data = data.
Proof.
  unfold plain_doc, doc_texts, read_doc. intros H.
  apply Forall_cons in H as [Hct H]. apply Forall_app in H as [Hst H].
  apply Forall_app in H as [Hu H].
  do 12 (apply read_option_printable in H as [-> H]).
  rewrite (read_scalar_printable _ Hct).
  assert (delete_bytes <$> d_states data = d_states data) as ->.
  { clear -Hst. induction Hst as [|x l Hx _ IH]; [done|].
    rewrite fmap_cons, IH. by rewrite delete_bytes_printable. }
  assert (match d_usage data with
          | YUsageDict d => YUsageDict d
          | YUsageStr s => YUsageStr (read_scalar s)
          end = d_usage data) as ->.
  { destruct (d_usage data) as [d|sc]; [done|].
    apply Forall_cons in Hu as [Hu _]. by rewrite read_scalar_printable. }
  by destruct data.
Qed.

Lemma from_dict_to_dict clock tc :
  target_reloads (target_file_lines tc) →
  usage_reloads (usage tc) →
  Corpus.from_dict parse_usage_dict clock (to_dict tc) = Ok (init clock tc).
Proof.
  intros Htarget Husage. unfold Corpus.from_dict, Corpus.to_dict.
  cbn [d_id d_src_id d_create_time d_time_taken d_states d_is_target_covered
       d_new_coverage d_newly_covered_lines d_is_satisfiable d_is_crash d_is_hang
       d_usage d_target_branch d_target_file_lines d_target_lines_content
       d_justification d_target_path_constraint d_selected_cnt
       d_successful_generation_cnt d_exec_code d_returncode d_src_execution_summary
       d_crash_info d_execution_trace d_execution_summary d_src_exec_code
       d_src_execution_trace].
  rewrite !text_to_scalar.
  rewrite (target_file_lines_roundtrip _ Htarget). cbn [mbind result_bind].
  rewrite states_roundtrip. cbn [mbind result_bind].
  f_equal. unfold init. f_equal.
  assert (match
            match usage tc with
            | UsageOf d =>
                if usage_nonempty d then YUsageStr (to_scalar (format_usage_dict d))
                else YUsageDict d
            | UsageText s => YUsageStr (to_scalar s)
            end
          with
          | YUsageDict d => UsageOf d
          | YUsageStr s =>
              if Py.is_empty (Py.strip (text s)) then UsageText (text s)
              else match parse_usage_dict (text s) with
                   | Ok d => UsageOf d
                   | Raise _ => UsageText (text s)
                   end
          end = usage tc) as ->.
  { unfold Corpus.usage_reloads in Husage. destruct (usage tc) as [d|s].
    - destruct (usage_nonempty d); [|done]. destruct (Husage eq_refl) as [Hne Hparse].
      simpl. by rewrite Hne, Hparse.
    - simpl. destruct Husage as [->|[e ->]]; [done|].
      by destruct (Py.is_empty (Py.strip s)). }
  by destruct tc.
Qed.

(** X15.  The round trip for the cases the encoding can express: after a
    successful save, loading the queue file returns the saved case, provided
    the texts of the saved document are printable (ASCII characters from
    the space to the tilde, and line feeds), the target path has no colon,
    the first target line is not negative and the usage text is read
    back. *)
Lemma load_after_save_roundtrip tc disk disk1 clock :
  save_to_disk tc disk = Ok disk1 →
  plain_doc (to_dict tc) →
  target_reloads (target_file_lines tc) →
  usage_reloads (usage tc) →
  ∃ d, _out_dir tc = Some d
       ∧ load_from_file clock (path_join (path_join d "queue") (yaml_filename tc))
           (Some d) disk1
         = Ok tc.
Proof.
  intros Hsave Hplain Htarget Husage.
  apply save_to_disk_file in Hsave as (d & Hd & Hne & Hfile).
  exists d. split; [done|].
  unfold Corpus.load_from_file. rewrite Hfile. cbv zeta.
  rewrite (read_doc_plain _ Hplain), from_dict_to_dict by done.
  cbn [mbind result_bind]. rewrite Hne. f_equal.
  unfold init, touch. destruct (unfinished _); destruct tc; simpl in *; by subst.
Qed.

(** C3.  A test case whose target lines lie in a file with a colon in its
    path is saved with [target_file_lines: <path>:<start>-<end>]; loading
    cuts that text at its first colon and then fails to read a number:
    [load_from_file] raises [ValueError] instead of returning the case. *)
Theorem load_after_save_fails_on_colon_path tc disk disk1 path lines clock out :
  target_file_lines tc = Some (path, lines) →
  Py.contains ":" path = true →
  save_to_disk tc disk = Ok disk1 →
  ∃ d, _out_dir tc = Some d
       ∧ load_from_file clock (path_join (path_join d "queue") (yaml_filename tc)) out disk1
         = Raise ValueError.
Proof.
  intros Htarget Hcolon Hsave.
  apply save_to_disk_file in Hsave as (d & Hd & _ & Hfile).
  exists d. split; [done|].
  unfold Corpus.load_from_file. rewrite Hfile. cbv zeta.
  unfold Corpus.from_dict.
  assert (text <$> d_target_file_lines (read_doc (to_dict tc))
          = Some (delete_bytes path
                    ++ String ":" (delete_bytes
                                     (Py.str_of_Z lines.1 ++ "-" ++ Py.str_of_Z lines.2))))
    as ->.
  { simpl. rewrite Htarget. destruct lines as [a b]. simpl. f_equal.
    by rewrite delete_bytes_app. }
  rewrite colon_text_unreadable; [done|].
  rewrite delete_bytes_has_char by done. by rewrite <- contains_char.
Qed.

End RoundTripProps.

Lemma load_after_save_fails_on_colon_path_witness :
  ∃ d, Corpus._out_dir SampleCorpus.colon_child = Some d
       ∧ Corpus.load_from_file SampleCorpus.parse_usage_dict 45
           (Corpus.path_join (Corpus.path_join d "queue")
              (Corpus.yaml_filename SampleCorpus.colon_child))
           (Some "out")
           (Corpus.mkDisk {[ "out/queue" ]}
              {[ "out/queue/id:000001,src:000000.yaml" :=
                   Corpus.to_dict SampleCorpus.usage_nonempty
                     SampleCorpus.format_usage_dict SampleCorpus.colon_child ]})
         = Raise ValueError.
Proof.
  apply (load_after_save_fails_on_colon_path SampleCorpus.usage_nonempty
           SampleCorpus.format_usage_dict SampleCorpus.parse_usage_dict
           SampleCorpus.colon_child SampleCorpus.disk _
           "src/v1:2/example.c" (10, 12) 45 (Some "out")).
  - reflexivity.
  - reflexivity.
  - vm_compute. reflexivity.
Defined.

Example colon_path_saved_text :
  Corpus.target_file_lines_to_str (Some ("src/v1:2/example.c", (10, 12)))
  = Some "src/v1:2/example.c:10-12".
Proof. reflexivity. Qed.

Example load_after_save_sample :
  ∃ disk1,
    Corpus.save_to_disk SampleCorpus.usage_nonempty SampleCorpus.format_usage_dict
      SampleCorpus.child SampleCorpus.disk = Ok disk1
    ∧ Corpus.load_from_file SampleCorpus.parse_usage_dict 45
        "out/queue/id:000001,src:000000.yaml" (Some "out") disk1
      = Ok SampleCorpus.child.
Proof. eexists. split; vm_compute; reflexivity. Qed.

(** ** The layout of a collector *)

Section LayoutProps.

Import Trace.

Lemma numbered_from_lookup (lines : list string) (a r : Z) :
  (list_to_map (imap (λ i line, (Z.of_nat i + a, line)) lines) : gmap Z string) !! r
  = if decide (a ≤ r) then lines !! Z.to_nat (r - a) else None.
Proof.
  revert a. induction lines as [|x lines IH]; intros a; simpl.
  - rewrite lookup_empty. by destruct (decide _).
  - destruct (decide (r = a)) as [->|Hne].
    + rewrite lookup_insert_eq, decide_True by lia. by rewrite Z.sub_diag.
    + rewrite lookup_insert_ne by lia.
      rewrite (imap_ext _ (λ i line, (Z.of_nat i + (a + 1), line)))
        by (intros; simpl; f_equal; lia).
      rewrite IH. destruct (decide (a + 1 ≤ r)), (decide (a ≤ r)); try lia; [|done].
      replace (Z.to_nat (r - a)) with (S (Z.to_nat (r - (a + 1)))) by lia. done.
Qed.

Lemma numbered_lookup (lines : list string) (r : Z) :
  numbered lines !! r = if decide (1 ≤ r) then lines !! Z.to_nat (r - 1) else None.
Proof. apply numbered_from_lookup. Qed.

Lemma numbered_size (lines : list string) : base.size (numbered lines) = length lines.
Proof.
  unfold numbered.
  assert (∀ a, base.size (list_to_map (imap (λ i line, (Z.of_nat i + a, line)) lines)
                            : gmap Z string) = length lines) as H; [|apply H].
  induction lines as [|x lines IH]; intros a; simpl; [done|].
  rewrite map_size_insert_None.
  - f_equal. rewrite (imap_ext _ (λ i line, (Z.of_nat i + (a + 1), line)))
      by (intros; simpl; f_equal; lia). apply IH.
  - rewrite (imap_ext _ (λ i line, (Z.of_nat i + (a + 1), line)))
      by (intros; simpl; f_equal; lia).
    rewrite numbered_from_lookup. rewrite decide_False by lia. done.
Qed.

Lemma getitem_numbered (lines : list string) (i : nat) (x : string) :
  lines !! i = Some x → getitem (numbered lines) (Z.of_nat i + 1) = Ok x.
Proof.
  intros Hx. unfold getitem. rewrite numbered_lookup, decide_True by lia.
  replace (Z.to_nat (Z.of_nat i + 1 - 1)) with i by lia. by rewrite Hx.
Qed.

Lemma mapR_getitem_numbered (lines : list string) (k : nat) :
  (k ≤ length lines)%nat →
  mapR (getitem (numbered lines)) (seqZ (Z.of_nat (length lines - k) + 1) (Z.of_nat k))
  = Ok (drop (length lines - k) lines).
Proof.
  induction k as [|k IH]; intros Hk.
  - simpl. rewrite drop_ge by lia. done.
  - rewrite seqZ_cons by lia. simpl.
    destruct (lines !! (length lines - S k)%nat) as [x|] eqn:Hx.
    + rewrite (getitem_numbered _ _ _ Hx). simpl.
      replace (Z.succ (Z.of_nat (length lines - S k) + 1))
        with (Z.of_nat (length lines - k) + 1) by lia.
      replace (Z.pred (Z.of_nat (S k))) with (Z.of_nat k) by lia.
      rewrite IH by lia. simpl.
      rewrite (drop_S _ x (length lines - S k)) by done.
      replace (S (length lines - S k)) with (length lines - k)%nat by lia. done.
    + apply lookup_ge_None in Hx. lia.
Qed.

(** The lines of a numbered dictionary are read back in order. *)
Lemma lines_of_numbered (lines : list string) : lines_of (numbered lines) = Ok lines.
Proof.
  unfold lines_of, range_incl. rewrite numbered_size.
  pose proof (mapR_getitem_numbered lines (length lines) ltac:(lia)) as H.
  rewrite Nat.sub_diag in H. simpl in H.
  replace (Z.of_nat (length lines) + 1 - 1) with (Z.of_nat (length lines)) by lia.
  done.
Qed.

End LayoutProps.

Section ParserProps.

Import Trace.

(** What one round of the parser does to the numbering of the real lines:
    an instrumentation line is counted, any other line gets the next real
    number. *)
Lemma parse_line_numbering (L : list string) (k : nat) (x : string) tc stack order st' :
  line2code tc = numbered L →
  L !! k = Some x →
  parse_line (tc, stack, order) (Z.of_nat k + 1) = Ok st' →
  line2code st'.1.1 = line2code tc
  ∧ size st'.1.1 = size tc
  ∧ if is_instrumentation x
    then instrumentation_cnt st'.1.1 = instrumentation_cnt tc + 1
         ∧ real_line2line st'.1.1 = real_line2line tc
    else instrumentation_cnt st'.1.1 = instrumentation_cnt tc
         ∧ real_line2line st'.1.1
           = <[Z.of_nat k + 1 - instrumentation_cnt tc := Z.of_nat k + 1]>
               (real_line2line tc).
Proof.
  intros Hcode Hx H. unfold parse_line in H.
  rewrite Hcode, (getitem_numbered _ _ _ Hx) in H. simpl in H.
  unfold is_instrumentation.
  destruct (match_trace_pattern (Py.strip x)) as [[[action func_name] bb_id]|].
  - destruct (String.eqb action "enter").
    + inversion H; subst. done.
    + destruct (last_item stack); simpl in H; [|discriminate].
      destruct (getitem (block2lines tc) _) as [[start_line ?]|]; simpl in H;
        [|discriminate].
      destruct (getitem (block2real_lines tc) _) as [[real_start_line ?]|]; simpl in H;
        [|discriminate].
      destruct (skip_start _ _ _ _) as [new_start|]; simpl in H; [|discriminate].
      destruct (skip_end _ _ _ _) as [new_end|]; simpl in H; [|discriminate].
      inversion H; subst. done.
  - inversion H; subst. done.
Qed.


Abbreviation real_lines L := (List.filter (λ line, negb (is_instrumentation line)) L).

(** The numbering kept by the loop of the parser: after [k] lines the real
    lines are numbered from 1 in the order of the file, and the
    instrumentation lines are counted. *)
Lemma parse_lines_numbering (L : list string) (n k : nat) st st' :
  (k + n = length L)%nat →
  line2code st.1.1 = numbered L →
  instrumentation_cnt st.1.1 = Z.of_nat k - Z.of_nat (length (real_lines (take k L))) →
  base.size (real_line2line st.1.1) = length (real_lines (take k L)) →
  (∀ r l, real_line2line st.1.1 !! r = Some l →
          1 ≤ r ≤ Z.of_nat (length (real_lines (take k L))) ∧ 1 ≤ l
          ∧ L !! Z.to_nat (l - 1) = real_lines (take k L) !! Z.to_nat (r - 1)) →
  (∀ r, 1 ≤ r ≤ Z.of_nat (length (real_lines (take k L))) →
        is_Some (real_line2line st.1.1 !! r)) →
  foldR parse_line st (seqZ (Z.of_nat k + 1) (Z.of_nat n)) = Ok st' →
  line2code st'.1.1 = numbered L
  ∧ size st'.1.1 = size st.1.1
  ∧ instrumentation_cnt st'.1.1 = Z.of_nat (length L) - Z.of_nat (length (real_lines L))
  ∧ base.size (real_line2line st'.1.1) = length (real_lines L)
  ∧ (∀ r l, real_line2line st'.1.1 !! r = Some l →
            1 ≤ r ≤ Z.of_nat (length (real_lines L)) ∧ 1 ≤ l
            ∧ L !! Z.to_nat (l - 1) = real_lines L !! Z.to_nat (r - 1))
  ∧ (∀ r, 1 ≤ r ≤ Z.of_nat (length (real_lines L)) →
          is_Some (real_line2line st'.1.1 !! r)).
Proof.
  revert k st. induction n as [|n IH]; intros k st Hlen Hcode Hcnt Hsize Hval Hdom H.
  - simpl in H. inversion H; subst st'.
    assert (take k L = L) as HL by (apply take_ge; lia).
    rewrite HL in *. replace (Z.of_nat (length L)) with (Z.of_nat k) by lia. done.
  - rewrite seqZ_cons in H by lia. simpl in H.
    destruct (parse_line st (Z.of_nat k + 1)) as [st1|] eqn:Hstep; simpl in H; [|discriminate].
    destruct (L !! k) as [x|] eqn:Hx; [|apply lookup_ge_None in Hx; lia].
    destruct st as [[tc stack] order]. simpl in *.
    destruct (parse_line_numbering L k x tc stack order st1 Hcode Hx Hstep)
      as (Hcode1 & Hsize1 & Hnum).
    assert (real_lines (take (S k) L)
            = (real_lines (take k L) ++ (if is_instrumentation x then [] else [x]))%list)
      as Hreal.
    { rewrite (take_S_r _ _ x) by done. rewrite List.filter_app. simpl.
      by destruct (is_instrumentation x). }
    replace (Z.succ (Z.of_nat k + 1)) with (Z.of_nat (S k) + 1) in H by lia.
    replace (Z.pred (Z.of_nat (S n))) with (Z.of_nat n) in H by lia.
    rewrite <- Hsize1.
    apply (IH (S k) st1); try done; try lia.
    + congruence.
    + rewrite Hreal, length_app. destruct (is_instrumentation x); simpl.
      * destruct Hnum as [-> _]. lia.
      * destruct Hnum as [-> _]. lia.
    + rewrite Hreal, length_app. destruct (is_instrumentation x); simpl.
      * destruct Hnum as [_ ->]. lia.
      * destruct Hnum as [_ ->]. rewrite map_size_insert_None; [lia|].
        destruct (real_line2line tc !! _) as [l|] eqn:Hl; [|done].
        apply Hval in Hl. lia.
    + intros r l Hl. rewrite Hreal, length_app.
      destruct (is_instrumentation x); simpl.
      * destruct Hnum as [_ Hmap]. rewrite Hmap in Hl.
        apply Hval in Hl as (Hr & Hl1 & Heq).
        rewrite app_nil_r. split; [lia|]. done.
      * destruct Hnum as [_ Hmap]. rewrite Hmap in Hl.
        destruct (decide (r = Z.of_nat k + 1 - instrumentation_cnt tc)) as [->|Hne].
        -- rewrite lookup_insert_eq in Hl. inversion Hl; subst l.
           split; [lia|]. split; [lia|].
           replace (Z.to_nat (Z.of_nat k + 1 - 1)) with k by lia.
           rewrite Hx. rewrite lookup_app_r by lia.
           replace (Z.to_nat (Z.of_nat k + 1 - instrumentation_cnt tc - 1)
                    - length (real_lines (take k L)))%nat with 0%nat by lia.
           done.
        -- rewrite lookup_insert_ne in Hl by done. apply Hval in Hl as (Hr & Hl1 & Heq).
           split; [lia|]. split; [done|].
           rewrite Heq. rewrite lookup_app_l by lia. done.
    + intros r Hr. rewrite Hreal, length_app in Hr.
      destruct (is_instrumentation x); simpl in Hr.
      * destruct Hnum as [_ ->]. apply Hdom. lia.
      * destruct Hnum as [_ ->].
        destruct (decide (r = Z.of_nat k + 1 - instrumentation_cnt tc)) as [->|Hne].
        -- rewrite lookup_insert_eq. eauto.
        -- rewrite lookup_insert_ne by done. apply Hdom. lia.
Qed.

End ParserProps.

(** X1.  The real lines of a collector are the lines of the code without
    its instrumentation: for a collector that [TraceCollector(file_path)]
    builds, [get_real_line_content] reads (and fails) as a lookup in
    [delete_instrumentation_from_code] of the same source, and the number
    of real lines is the size of the file less its instrumentation lines. *)
Theorem real_lines_of_new_collector file_path language comment_token multiline
    source_code tc original :
  Trace.new file_path language comment_token multiline source_code = Ok tc →
  Trace.delete_instrumentation_from_code source_code comment_token = Ok original →
  (∀ r, Trace.get_real_line_content tc r = getitem original r)
  ∧ Trace.get_real_line_size tc = Z.of_nat (base.size original)
  ∧ Trace.get_real_line_size tc = Trace.size tc - Trace.instrumentation_cnt tc.
Proof.
  unfold Trace.new, Trace.delete_instrumentation_from_code. intros Hnew Horig.
  destruct (Trace.delete_instrumentation_comments source_code comment_token)
    as [code|] eqn:Hclean; simpl in *; [|discriminate].
  assert (∃ L, code = Trace.numbered L) as [L ->].
  { unfold Trace.delete_instrumentation_comments in Hclean.
    destruct (Trace.lines_of source_code); simpl in Hclean; [|discriminate].
    inversion Hclean. eauto. }
  rewrite lines_of_numbered in Horig. simpl in Horig. inversion Horig; subst original.
  destruct (Trace._count_copyright_comments _ _ _) as [begin|]; simpl in Hnew;
    [|discriminate].
  unfold Trace._parse_source_code_to_blocks in Hnew.
  destruct (foldR Trace.parse_line _ _) as [[[tc1 stack] order]|] eqn:Hfold;
    simpl in Hnew; [|discriminate].
  destruct (foldR (Trace.check_block tc1) _ _); simpl in Hnew; [|discriminate].
  inversion Hnew; subst tc1. clear Hnew Horig Hclean.
  unfold range_incl in Hfold. simpl in Hfold. rewrite numbered_size in Hfold.
  replace (Z.of_nat (length L) + 1 - 1) with (Z.of_nat (length L)) in Hfold by lia.
  apply (parse_lines_numbering L (length L) 0) in Hfold
    as (Hcode & Hsize & Hcnt & Hmap & Hval & Hdom); simpl; try done.
  - simpl in Hcode, Hsize, Hcnt, Hmap, Hval, Hdom.
    split; [|split].
    + intros r. unfold Trace.get_real_line_content, getitem.
      rewrite Hcode, !numbered_lookup.
      destruct (Trace.real_line2line tc !! r) as [l|] eqn:Hl; simpl.
      * apply Hval in Hl as (Hr & Hl1 & Heq).
        rewrite numbered_lookup, !decide_True by lia. by rewrite Heq.
      * destruct (decide (1 ≤ r)) as [Hr|]; [|done].
        destruct (List.filter _ L !! Z.to_nat (r - 1)) as [y|] eqn:Hy; [|done].
        apply lookup_lt_Some in Hy.
        destruct (Hdom r) as [l Hl']; [lia|]. congruence.
    + unfold Trace.get_real_line_size. by rewrite Hmap, numbered_size.
    + unfold Trace.get_real_line_size. rewrite Hmap, Hsize, Hcnt. lia.
  - intros r Hr. simpl in Hr. lia.
Qed.

Lemma real_lines_of_new_collector_witness :
  (∀ r, Trace.get_real_line_content Sample.collector r
        = getitem (Trace.numbered ["import sys"; EmptyString; "def test_function():";
                                   "    print('Hello, World!')"]) r)
  ∧ Trace.get_real_line_size Sample.collector = Z.of_nat 4
  ∧ Trace.get_real_line_size Sample.collector
    = Trace.size Sample.collector - Trace.instrumentation_cnt Sample.collector.
Proof.
  pose proof (real_lines_of_new_collector "test_file.py" "python" "#" None
                Sample.source_code Sample.collector
                (Trace.numbered ["import sys"; EmptyString; "def test_function():";
                                 "    print('Hello, World!')"])) as H.
  rewrite numbered_size in H. apply H; vm_compute; reflexivity.
Defined.

Section IngestionProps.

Import Trace.

Variable iteration_order : gset block → list block.
Variable percent_1 percent_0 : Z → Z → string.
Variable percent_0_of_text : string → result string.
Variable format_code : gmap Z string → string → result string.

Hypothesis iteration_NoDup : ∀ s, NoDup (iteration_order s).
Hypothesis iteration_elements : ∀ s b, b ∈ iteration_order s ↔ b ∈ s.

Abbreviation collect_trace :=
  (Trace.collect_trace iteration_order percent_1 percent_0 percent_0_of_text format_code).

(** The loop over the executed blocks stops with an exception at the
    latest when it meets a block without coverage that has no line range. *)
Lemma cover_blocks_unknown tc bs cov acc gf b :
  b ∈ bs → NoDup bs → b ≠ GLOBAL_BLOCK →
  default 0 (cov !! b) = 0 →
  block2real_lines tc !! b = None →
  ∃ cov' e, cover_blocks tc bs cov acc gf = (cov', Raise e).
Proof.
  revert cov acc gf. induction bs as [|b0 bs IH]; intros cov acc gf Hin Hnd Hng Hcov Hreal.
  - by apply not_elem_of_nil in Hin.
  - apply NoDup_cons in Hnd as [Hnotin Hnd]. simpl.
    destruct (decide (b0 = b)) as [->|Hne].
    + rewrite decide_False by done. rewrite decide_True by done.
      unfold getitem. rewrite Hreal. eauto.
    + apply elem_of_cons in Hin as [?|Hin]; [done|].
      assert (default 0 (<[b0 := default 0 (cov !! b0) + 1]> cov !! b) = 0) as Hcov'
        by (by rewrite lookup_insert_ne).
      destruct (decide (b0 = GLOBAL_BLOCK)); [by apply IH|].
      destruct (decide (default 0 (cov !! b0) = 0)); [|by apply IH].
      destruct (getitem (block2real_lines tc) b0) as [[sr er]|]; [|eauto].
      destruct (foldR _ _ _); [|eauto].
      by apply IH.
Qed.

(** X2.  A trace that names a block for which the collector has no line
    range, and which it has not counted before, makes [collect_trace]
    raise: an unknown block is not skipped. *)
Theorem collect_trace_unknown_block tc trace target b :
  b ∈ get_executed_blocks trace →
  b ≠ GLOBAL_BLOCK →
  default 0 (block2cov tc !! b) = 0 →
  block2real_lines tc !! b = None →
  ∃ e, (collect_trace tc trace target true).2 = Raise e.
Proof.
  intros Hin Hng Hcov Hreal. unfold Trace.collect_trace.
  destruct (target_lines_cov tc target); [|eauto].
  destruct (cover_blocks_unknown tc (iteration_order (get_executed_blocks trace))
              (block2cov tc) (0, ∅) false b) as (cov' & e & ->); try done.
  - by apply iteration_elements.
  - simpl. eauto.
Qed.

(** X3.  An ingestion that returns adds one hit to every block observed in
    the trace and none to any other block, and changes nothing else of the
    collector but its summary; so the hit count of a line grows by one when
    its innermost block was observed and stays as it was otherwise. *)
Theorem collect_trace_hit_counts tc trace target tc' r :
  collect_trace tc trace target true = (tc', Ok r) →
  (∀ b, block2cov tc' !! b
        = if decide (b ∈ get_executed_blocks trace)
          then Some (default 0 (block2cov tc !! b) + 1)
          else block2cov tc !! b)
  ∧ set_summary (set_block2cov tc' (block2cov tc)) (summary tc) = tc
  ∧ ∀ line blocks leaf,
      line2blocks tc !! line = Some blocks → last blocks = Some leaf →
      get_line_covered_times tc' line
      = Ok (default 0 (block2cov tc !! leaf)
            + if decide (leaf ∈ get_executed_blocks trace) then 1 else 0).
Proof.
  intros H. destruct r as [[n covered] code].
  apply (collect_trace_ok_inv iteration_order) in H
    as (prev & cov & gf & sl & _ & Hrun & _ & -> & _).
  pose proof (cover_blocks_counts _ _ _ _ _ _ _ _
                (iteration_NoDup (get_executed_blocks trace)) Hrun) as Hcov.
  assert (∀ b, cov !! b
               = if decide (b ∈ get_executed_blocks trace)
                 then Some (default 0 (block2cov tc !! b) + 1)
                 else block2cov tc !! b) as Hcov'.
  { intros b. rewrite Hcov.
    destruct (decide (b ∈ iteration_order _)) as [Hb|Hb];
      apply iteration_elements in Hb || rewrite iteration_elements in Hb.
    - by rewrite decide_True.
    - by rewrite decide_False. }
  split; [exact Hcov'|]. split; [by destruct tc|].
  intros line blocks leaf Hblocks Hleaf.
  unfold get_line_covered_times, getitem, last_item. simpl.
  rewrite Hblocks. simpl. rewrite Hleaf. simpl. rewrite Hcov'.
  destruct (decide (leaf ∈ get_executed_blocks trace)); simpl; f_equal; lia.
Qed.

End IngestionProps.

Lemma collect_trace_unknown_block_witness :
  ∃ e, (Sample.collect_trace Sample.collector "enter ghost 7" None true).2 = Raise e.
Proof.
  apply (collect_trace_unknown_block elements Sample.percent_1 Sample.percent_0
           Sample.percent_0_of_text Sample.format_code
           NoDup_elements (λ s b, elem_of_elements s b)
           Sample.collector "enter ghost 7" None ("ghost", 7)).
  - vm_compute. reflexivity.
  - discriminate.
  - reflexivity.
  - reflexivity.
Defined.

Lemma collect_trace_hit_counts_witness :
  (∀ b, Trace.block2cov
          (Sample.collect_trace Sample.collector Sample.trace None true).1 !! b
        = if decide (b ∈ Trace.get_executed_blocks Sample.trace)
          then Some (default 0 (Trace.block2cov Sample.collector !! b) + 1)
          else Trace.block2cov Sample.collector !! b)
  ∧ Trace.get_line_covered_times
      (Sample.collect_trace Sample.collector Sample.trace None true).1 5
    = Ok (0 + 1).
Proof.
  destruct (collect_trace_hit_counts elements Sample.percent_1 Sample.percent_0
              Sample.percent_0_of_text Sample.format_code
              NoDup_elements (λ s b, elem_of_elements s b)
              Sample.collector Sample.trace None
              (Sample.collect_trace Sample.collector Sample.trace None true).1
              (1, true, Sample.summary_code)) as (H1 & _ & H3).
  - vm_compute. reflexivity.
  - split; [exact H1|].
    exact (H3 5 [Trace.GLOBAL_BLOCK; Sample.test_function_1] Sample.test_function_1
             eq_refl eq_refl).
Defined.

Section QueryLemmas.

Import Trace.

(** The real lines of a function are the lines of its blocks. *)
Lemma elem_of_function_real_lines tc func_name (x : Z) :
  x ∈ get_function_real_lines tc func_name ↔
  ∃ block_id lines,
    block2real_lines tc !! (func_name, block_id) = Some lines
    ∧ lines.1 ≤ x ≤ lines.2.
Proof.
  unfold get_function_real_lines. rewrite elem_of_union_list. split.
  - intros (X & HX & Hx). apply list_elem_of_fmap in HX as ([[f id_] lines] & -> & Hentry).
    apply elem_of_map_to_list in Hentry. simpl in Hx.
    destruct (String.eqb_spec f func_name) as [->|]; [|by apply elem_of_empty in Hx].
    apply elem_of_list_to_set, elem_of_range_incl in Hx. eauto.
  - intros (block_id & lines & Hlines & Hx).
    exists (list_to_set (range_incl lines.1 lines.2)). split.
    + apply list_elem_of_fmap. exists ((func_name, block_id), lines).
      simpl. rewrite String.eqb_refl. split; [done|]. by apply elem_of_map_to_list.
    + by apply elem_of_list_to_set, elem_of_range_incl.
Qed.

Lemma count_covered_bounds (real_line2cov : gmap Z Z) (l : list Z) (n n' : Z) :
  foldR (λ n real_line,
           cov ← getitem real_line2cov real_line;
           Ok (if 0 <? cov then n + 1 else n)) n l = Ok n' →
  n ≤ n' ≤ n + Z.of_nat (length l).
Proof.
  revert n. induction l as [|x l IH]; intros n H; simpl in H.
  - inversion H. simpl. lia.
  - destruct (getitem real_line2cov x) as [cov|]; simpl in H; [|discriminate].
    apply IH in H. simpl length. destruct (0 <? cov); lia.
Qed.

Lemma exec_block_line_subset tc func_name ids (exec_lines : gset Z) x exec_lines' :
  exec_block_line tc func_name ids exec_lines x = Ok exec_lines' →
  exec_lines ⊆ exec_lines' ∧ exec_lines' ⊆ exec_lines ∪ {[ x ]}.
Proof.
  unfold exec_block_line.
  destruct (getitem (real_line2line tc) x) as [line|]; simpl; [|discriminate].
  destruct (getitem (line2blocks tc) line) as [blocks|]; simpl;
    [destruct (last_item blocks) as [leaf|]; simpl|].
  - revert exec_lines. induction ids as [|i ids IH]; intros exec_lines H; simpl in H.
    + inversion H. split; [done|apply union_subseteq_l].
    + apply IH in H as [H1 H2]. destruct (decide _).
      * split; [by etrans; [apply union_subseteq_l|]|].
        etrans; [exact H2|]. apply union_least; [done|apply union_subseteq_r].
      * done.
  - destruct ids; simpl; [|discriminate]. intros [= <-].
    split; [done|apply union_subseteq_l].
  - destruct ids; simpl; [|discriminate]. intros [= <-].
    split; [done|apply union_subseteq_l].
Qed.

Lemma exec_block_line_error tc func_name ids (exec_lines : gset Z) x e :
  exec_block_line tc func_name ids exec_lines x = Raise e →
  e = KeyError ∨ e = IndexError.
Proof.
  unfold exec_block_line, getitem, last_item.
  destruct (real_line2line tc !! x) as [line|]; simpl; [|intros [= <-]; by left].
  destruct (line2blocks tc !! line) as [blocks|]; simpl;
    [destruct (last blocks) as [leaf|]; simpl|].
  - revert exec_lines. induction ids as [|i ids IH]; intros exec_lines H; simpl in H.
    + discriminate.
    + by apply IH in H.
  - destruct ids; simpl; [discriminate|]. intros [= <-]. by right.
  - destruct ids; simpl; [discriminate|]. intros [= <-]. by left.
Qed.

Lemma exec_lines_fold tc func_name ids (l : list Z) (exec_lines : gset Z) :
  match foldR (exec_block_line tc func_name ids) exec_lines l with
  | Ok exec_lines' => exec_lines' ⊆ exec_lines ∪ list_to_set l
  | Raise e => e = KeyError ∨ e = IndexError
  end.
Proof.
  revert exec_lines. induction l as [|x l IH]; intros exec_lines; simpl.
  - apply union_subseteq_l.
  - destruct (exec_block_line tc func_name ids exec_lines x) as [s|e] eqn:Hstep; simpl.
    + apply exec_block_line_subset in Hstep as [_ Hs]. specialize (IH s).
      destruct (foldR _ s l) as [s'|]; [|done].
      intros y Hy. apply IH, elem_of_union in Hy as [Hy|Hy].
      * apply Hs, elem_of_union in Hy as [Hy|Hy]; apply elem_of_union; [by left|].
        right. apply elem_of_union. by left.
      * apply elem_of_union. right. apply elem_of_union. by right.
    + by apply exec_block_line_error in Hstep.
Qed.

End QueryLemmas.

Section QueryProps.

Import Trace.

Variable int_order : gset Z → list Z.

(** Whatever the order, a set is visited element by element, each once. *)
Hypothesis int_order_NoDup : ∀ s, NoDup (int_order s).
Hypothesis int_order_elements : ∀ s x, x ∈ int_order s ↔ x ∈ s.

Lemma int_order_length (s : gset Z) : length (int_order s) = base.size s.
Proof.
  unfold base.size, set_size. simpl. apply Permutation_length.
  apply NoDup_Permutation; [apply int_order_NoDup|apply NoDup_elements|].
  intros x. by rewrite int_order_elements, elem_of_elements.
Qed.

(** X4.  The line coverage of a function, when it is returned, is a pair
    [(covered, total)] with [0 ≤ covered ≤ total] and [total] the positive
    number of real lines of the function; for a function without real
    lines no pair is returned. *)
Theorem function_line_cov_bounds tc func_name covered total :
  get_function_line_cov int_order tc func_name = Ok (covered, total) →
  0 ≤ covered ≤ total
  ∧ 0 < total
  ∧ total = Z.of_nat (base.size (get_function_real_lines tc func_name)).
Proof.
  unfold get_function_line_cov. intros H.
  destruct (get_real_line_coverage tc) as [real_line2cov|]; simpl in H; [|discriminate].
  destruct (foldR _ 0 _) as [n|] eqn:Hcount; simpl in H; [|discriminate].
  destruct (0 <? _) eqn:Hpos; simpl in H; [|discriminate].
  inversion H; subst. apply Z.ltb_lt in Hpos.
  apply count_covered_bounds in Hcount. rewrite int_order_length in Hcount.
  split; [lia|]. done.
Qed.

(** X5.  [get_exec_block_cov] fails an assertion exactly for a function
    without real lines: its second assertion, that the lines of the given
    blocks are no more than the lines of the function, never fails. *)
Theorem exec_block_cov_assertion tc func_name exec_block_ids :
  get_exec_block_cov int_order tc func_name exec_block_ids = Raise AssertionError
  ↔ get_function_real_lines tc func_name = ∅.
Proof.
  unfold get_exec_block_cov.
  pose proof (exec_lines_fold tc func_name exec_block_ids
                (int_order (get_function_real_lines tc func_name)) ∅) as Hfold.
  split.
  - intros H. destruct (foldR _ _ _) as [exec_lines|e]; simpl in H.
    + destruct (0 <? _) eqn:Hpos; simpl in H.
      * exfalso. destruct (Z.leb_spec (Z.of_nat (base.size exec_lines))
          (Z.of_nat (base.size (get_function_real_lines tc func_name)))) as [|Hgt];
          simpl in H; [discriminate|].
        assert (exec_lines ⊆ get_function_real_lines tc func_name) as Hsub.
        { intros x Hx. apply Hfold in Hx. rewrite elem_of_union in Hx.
          destruct Hx as [Hx|Hx]; [by apply elem_of_empty in Hx|].
          by apply elem_of_list_to_set, int_order_elements in Hx. }
        apply subseteq_size in Hsub. lia.
      * apply Z.ltb_ge in Hpos.
        apply leibniz_equiv, size_empty_iff. lia.
    + inversion H; subst. by destruct Hfold.
  - intros Hempty. rewrite Hempty.
    assert (int_order ∅ = []) as ->.
    { destruct (int_order ∅) as [|x l] eqn:Hl; [done|].
      assert (x ∈ int_order ∅) as Hx by (rewrite Hl; left).
      apply int_order_elements in Hx. by apply elem_of_empty in Hx. }
    done.
Qed.

End QueryProps.

Lemma function_line_cov_bounds_witness :
  0 ≤ 0 ≤ 1 ∧ 0 < 1
  ∧ 1 = Z.of_nat (base.size (Trace.get_function_real_lines Sample.collector "test_function")).
Proof.
  apply (function_line_cov_bounds elements NoDup_elements (λ s x, elem_of_elements s x)
           Sample.collector "test_function" 0 1).
  vm_compute. reflexivity.
Defined.

Lemma exec_block_cov_assertion_witness :
  Trace.get_exec_block_cov elements Sample.collector "no_such_function" [1]
  = Raise AssertionError
  ↔ Trace.get_function_real_lines Sample.collector "no_such_function" = ∅.
Proof.
  apply (exec_block_cov_assertion elements (λ s x, elem_of_elements s x)).
Defined.

Section CompressProps.

Import Trace.

(** The function of an entry of the chain *)
Abbreviation chain_key := (λ entry : string * string * gset Z, (entry.1.1, entry.1.2)).

Lemma compressed_chain_snoc (chain : list (string * string * gset Z)) z :
  (∀ i x y, chain !! i = Some x → chain !! S i = Some y → chain_key x ≠ chain_key y) →
  (∀ x, last chain = Some x → chain_key x ≠ chain_key z) →
  ∀ i x y, (chain ++ [z])%list !! i = Some x → (chain ++ [z])%list !! S i = Some y →
           chain_key x ≠ chain_key y.
Proof.
  intros Hadj Hlast i x y Hx Hy.
  destruct (decide (S i < length chain)%nat) as [Hlt|Hge].
  - rewrite lookup_app_l in Hx by lia. rewrite lookup_app_l in Hy by lia. eauto.
  - assert (S i = length chain) as Hi.
    { apply lookup_lt_Some in Hy. rewrite length_app in Hy. simpl in Hy. lia. }
    rewrite lookup_app_l in Hx by lia.
    rewrite lookup_app_r in Hy by lia.
    replace (S i - length chain)%nat with 0%nat in Hy by lia.
    inversion Hy; subst y. apply Hlast.
    rewrite last_lookup. replace (Nat.pred (length chain)) with i by lia. done.
Qed.

(** What the loop of [trace_compress] keeps: neighbours in the chain are
    different functions, and the last entry is not the current function. *)
Lemma compress_match_chain st m :
  (∀ i x y, st.2 !! i = Some x → st.2 !! S i = Some y → chain_key x ≠ chain_key y) →
  (∀ x, last st.2 = Some x → ∃ cur, st.1.1 = Some cur ∧ chain_key x ≠ cur) →
  (∀ i x y, (compress_match st m).2 !! i = Some x →
            (compress_match st m).2 !! S i = Some y → chain_key x ≠ chain_key y)
  ∧ (∀ x, last (compress_match st m).2 = Some x →
          ∃ cur, (compress_match st m).1.1 = Some cur ∧ chain_key x ≠ cur).
Proof.
  destruct st as [[last_ cur] chain]. destruct m as [[[file_name action] func_name] block_id].
  simpl. intros Hadj Hlast.
  destruct (decide ((file_name, func_name) ≠ default (file_name, func_name) last_))
    as [Hne|Heq]; simpl.
  - split.
    + apply compressed_chain_snoc; [exact Hadj|].
      intros x Hx. destruct (Hlast x Hx) as ([c1 c2] & -> & Hc). simpl. exact Hc.
    + intros x Hx. rewrite last_snoc in Hx. inversion Hx; subst x. simpl.
      eexists. split; [done|]. destruct (default _ last_). simpl. congruence.
  - split; [exact Hadj|].
    intros x Hx. destruct (Hlast x Hx) as (c & -> & Hc). simpl. eauto.
Qed.

Lemma compress_matches_chain ms st :
  (∀ i x y, st.2 !! i = Some x → st.2 !! S i = Some y → chain_key x ≠ chain_key y) →
  (∀ x, last st.2 = Some x → ∃ cur, st.1.1 = Some cur ∧ chain_key x ≠ cur) →
  (∀ i x y, (fold_left compress_match ms st).2 !! i = Some x →
            (fold_left compress_match ms st).2 !! S i = Some y →
            chain_key x ≠ chain_key y)
  ∧ (∀ x, last (fold_left compress_match ms st).2 = Some x →
          ∃ cur, (fold_left compress_match ms st).1.1 = Some cur ∧ chain_key x ≠ cur).
Proof.
  revert st. induction ms as [|m ms IH]; intros st Hadj Hlast; simpl; [done|].
  destruct (compress_match_chain st m Hadj Hlast). by apply IH.
Qed.

Lemma compressed_chain_adjacent trace i x y :
  compressed_chain trace !! i = Some x →
  compressed_chain trace !! S i = Some y →
  chain_key x ≠ chain_key y.
Proof.
  unfold compressed_chain.
  generalize (Py.split "010" (Py.strip trace)). intros lines.
  assert (∀ st,
    (∀ i x y, st.2 !! i = Some x → st.2 !! S i = Some y → chain_key x ≠ chain_key y) →
    (∀ x, last st.2 = Some x → ∃ cur, st.1.1 = Some cur ∧ chain_key x ≠ cur) →
    let st' := fold_left
      (λ st line, fold_left compress_match (findall_file_markers 0 (Py.strip line)) st)
      lines st in
    (∀ i x y, st'.2 !! i = Some x → st'.2 !! S i = Some y → chain_key x ≠ chain_key y)
    ∧ (∀ x, last st'.2 = Some x → ∃ cur, st'.1.1 = Some cur ∧ chain_key x ≠ cur)) as H.
  { induction lines as [|line lines IH]; intros st Hadj Hlast; simpl; [done|].
    destruct (compress_matches_chain (findall_file_markers 0 (Py.strip line)) st Hadj Hlast).
    by apply IH. }
  destruct (H (None, ∅, [])) as [Hadj Hlast]; simpl.
  { intros ? ? ? Hi. by rewrite lookup_nil in Hi. }
  { intros ? Hl. discriminate. }
  destruct (fold_left _ lines _) as [[last_ cur] chain]. simpl in *.
  destruct last_ as [[file_name func_name]|]; [|by apply Hadj].
  destruct (0 <? _); [|by apply Hadj].
  apply compressed_chain_snoc; [exact Hadj|].
  intros z Hz. destruct (Hlast z Hz) as (c & Hc & Hne). inversion Hc; subst c. done.
Qed.

(** X6.  Neighbouring entries of the call chain that [trace_compress]
    returns are different functions: consecutive markers of one function
    are merged into one entry. *)
Theorem trace_compress_adjacent int_order trace i file1 func1 blocks1 file2 func2 blocks2 :
  trace_compress int_order trace !! i = Some (file1, func1, blocks1) →
  trace_compress int_order trace !! S i = Some (file2, func2, blocks2) →
  (file1, func1) ≠ (file2, func2).
Proof.
  unfold trace_compress. rewrite !list_lookup_fmap. intros H1 H2.
  destruct (compressed_chain trace !! i) as [x|] eqn:Hx; [|discriminate].
  destruct (compressed_chain trace !! S i) as [y|] eqn:Hy; [|discriminate].
  pose proof (compressed_chain_adjacent trace i x y Hx Hy) as Hne.
  simpl in H1, H2. inversion H1; inversion H2; subst. exact Hne.
Qed.

End CompressProps.

(** The chains that the tests of the repository expect *)
Example trace_compress_samples :
  Trace.trace_compress Sample.int_order Sample.cycle_trace
  = [("file1.cpp", "main", [1; 2]); ("file1.cpp", "function1", [1]);
     ("file2.cpp", "function2", [1]); ("file2.cpp", "function3", [1]);
     ("file1.cpp", "main", [1]); ("file1.cpp", "function5", [1])]
  ∧ Trace.trace_compress Sample.int_order Sample.noisy_trace
    = [("oggenc/encode.c", "update_statistics_notime", [1; 2]);
       ("oggenc/encode.c", "update", [1]);
       ("bbb", "update_statistics_notime", [2])]
  ∧ Trace.trace_compress Sample.int_order EmptyString = []
  ∧ Trace.trace_compress Sample.int_order
      "[file.cpp] something else
[another_file.cpp] enter func" = []
  ∧ Trace.findall_file_markers 0
      "Encoding [ 0m00s so far] | [oggenc/encode.c] exit update_statistics_notime 1[aaa][] enter update_statistics_notime 1"
    = [("oggenc/encode.c", "exit", "update_statistics_notime", 1)].
Proof. vm_compute. done. Qed.

Lemma trace_compress_adjacent_witness :
  ("file1.cpp", "main") ≠ ("file1.cpp", "function1").
Proof.
  apply (trace_compress_adjacent Sample.int_order Sample.cycle_trace 0
           "file1.cpp" "main" [1; 2] "file1.cpp" "function1" [1]);
    vm_compute; reflexivity.
Defined.

(** ** Tagged text *)

Section TagProps.

Import Common.

Lemma prefix_app_same (p r : string) : String.prefix p (p ++ r) = true.
Proof.
  induction p as [|c p IH]; simpl; [by destruct r|].
  destruct (ascii_dec c c); [exact IH|done].
Qed.

Lemma prefix_same (p : string) : String.prefix p p = true.
Proof.
  induction p as [|c p IH]; simpl; [done|].
  destruct (ascii_dec c c); [exact IH|done].
Qed.

Lemma drop_app_length (p r : string) : Py.drop (String.length p) (p ++ r) = r.
Proof. induction p as [|c p IH]; simpl; [by destruct r|exact IH]. Qed.

Lemma length_app_string (a b : string) :
  String.length (a ++ b) = (String.length a + String.length b)%nat.
Proof. induction a as [|c a IH]; simpl; [done|by rewrite IH]. Qed.

Lemma before_first_here (sub s : string) :
  String.prefix sub s = true → before_first sub s = Some EmptyString.
Proof. intros H. destruct s; cbn [before_first]; by rewrite H. Qed.

Lemma before_first_later (sub : string) (a : ascii) (s : string) :
  String.prefix sub (String a s) = false →
  before_first sub (String a s) = String a <$> before_first sub s.
Proof. intros H. cbn [before_first]. by rewrite H. Qed.

(** A text without the character [c0] that starts [s ++ String c0 t]
    lies within [s]. *)
Lemma prefix_before_char (c0 : ascii) (q s t : string) :
  Py.has_char c0 q = false →
  String.prefix q (s ++ String c0 t) = true →
  String.prefix q s = true.
Proof.
  revert q. induction s as [|a s IH]; intros q Hq H.
  - destruct q as [|c q]; [done|]. simpl in H, Hq.
    destruct (ascii_dec c c0) as [->|]; [|done].
    by rewrite Ascii.eqb_refl in Hq.
  - destruct q as [|c q]; [done|]. simpl in *.
    destruct (ascii_dec c a); [|done].
    apply orb_false_iff in Hq as [_ Hq]. by apply IH.
Qed.

(** A closing text whose first character does not occur again in it is
    first met, in [s ++ closing], where [s] ends, when [s] does not hold
    it. *)
Lemma before_first_closing (c0 : ascii) (t s : string) :
  Py.has_char c0 t = false →
  Py.contains (String c0 t) s = false →
  before_first (String c0 t) (s ++ String c0 t) = Some s.
Proof.
  intros Ht. induction s as [|a s IH]; intros Hs.
  - apply before_first_here, prefix_same.
  - assert (String.prefix (String c0 t) (String a s) = false
            ∧ Py.contains (String c0 t) s = false) as [Hhere Hlater].
    { cbn [Py.contains] in Hs. by apply orb_false_iff in Hs. }
    change (String a s ++ String c0 t) with (String a (s ++ String c0 t)).
    rewrite before_first_later.
    + by rewrite IH.
    + destruct (String.prefix (String c0 t) (String a (s ++ String c0 t))) eqn:Hp; [|done].
      exfalso. simpl in Hp, Hhere.
      destruct (ascii_dec c0 a); [|done].
      apply (prefix_before_char c0 t s t Ht) in Hp. congruence.
Qed.

Lemma findall_between_skipped (opening closing s : string) (skip : nat) :
  (String.length s ≤ skip)%nat → findall_between skip opening closing s = [].
Proof.
  revert skip. induction s as [|c s IH]; intros skip H; simpl; [done|].
  destruct skip as [|skip]; simpl in H; [lia|]. apply IH. lia.
Qed.

Variable html_unescape : string → string.
Variable re_findall : string → string → result (list string).

(** X7.  Extracting a tag from a text wrapped in it gives that text back,
    for a text that is not empty and does not hold the closing tag, when
    the tag has no [<] and no character that a regular expression reads as
    an operator, and the text is read as it is (unescaping leaves it
    alone). *)
Theorem extract_wrapped_text (tag s : string) (use_unescape : bool) :
  s ≠ EmptyString →
  regex_literal tag = true →
  Py.has_char "<" tag = false →
  Py.contains ("</" ++ tag ++ ">") s = false →
  (use_unescape = true →
   html_unescape (Corpus.wrap_between_tags tag s) = Corpus.wrap_between_tags tag s) →
  extract_between_tags html_unescape re_findall tag (Corpus.wrap_between_tags tag s)
    false use_unescape
  = Ok [s].
Proof.
  intros Hs Hlit Htag Hclose Hraw. unfold extract_between_tags. rewrite Hlit.
  cbn [mbind result_bind].
  assert ((if use_unescape then html_unescape (Corpus.wrap_between_tags tag s)
           else Corpus.wrap_between_tags tag s) = Corpus.wrap_between_tags tag s) as ->.
  { destruct use_unescape; [by apply Hraw|done]. }
  set (opening := "<" ++ tag ++ ">"). set (closing := "</" ++ tag ++ ">").
  assert (Corpus.wrap_between_tags tag s = opening ++ s ++ closing) as ->.
  { unfold Corpus.wrap_between_tags, opening, closing.
    by rewrite !str_app_assoc. }
  destruct s as [|c0 s']; [done|].
  assert (before_first closing (s' ++ closing) = Some s') as Hfirst.
  { apply (before_first_closing "<" ("/" ++ tag ++ ">")).
    - rewrite !has_char_app, Htag. done.
    - cbn [Py.contains] in Hclose. by apply orb_false_iff in Hclose as [_ ?]. }
  assert (findall_between 0 opening closing (opening ++ String c0 s' ++ closing)
          = [String c0 s']) as ->; [|done].
  change (opening ++ String c0 s' ++ closing)
    with (String "<" ((tag ++ ">") ++ String c0 s' ++ closing)).
  cbn [findall_between].
  change (String "<" ((tag ++ ">") ++ String c0 s' ++ closing))
    with (opening ++ String c0 (s' ++ closing)).
  rewrite prefix_app_same, drop_app_length, Hfirst. f_equal.
  apply findall_between_skipped.
  unfold opening, closing. rewrite !length_app_string. simpl.
  rewrite ?length_app_string. simpl. lia.
Qed.

End TagProps.

Lemma extract_wrapped_text_witness :
  Common.extract_between_tags (λ s, s) (λ _ _, Ok []) "path_constraint"
    (Corpus.wrap_between_tags "path_constraint" "x > 0 && y < 2") false true
  = Ok ["x > 0 && y < 2"].
Proof.
  apply (extract_wrapped_text (λ s, s) (λ _ _, Ok []) "path_constraint"
           "x > 0 && y < 2" true);
    done.
Defined.

(** ** The life of the corpus *)

Section DictProps.

Context {V : Type}.
Implicit Types d : list (Z * V).

Lemma dict_get_set_eq d k v : Corpus.dict_get (Corpus.dict_set k v d) k = Some v.
Proof.
  unfold Corpus.dict_get. induction d as [|[k' v'] d IH]; simpl.
  - by rewrite Z.eqb_refl.
  - destruct (Z.eqb_spec k' k) as [->|Hne]; simpl.
    + by rewrite Z.eqb_refl.
    + destruct (Z.eqb_spec k' k); [done|]. exact IH.
Qed.

Lemma dict_get_set_ne d k k' v :
  k' ≠ k → Corpus.dict_get (Corpus.dict_set k v d) k' = Corpus.dict_get d k'.
Proof.
  intros Hne. unfold Corpus.dict_get. induction d as [|[k0 v0] d IH]; simpl.
  - destruct (Z.eqb_spec k k'); [congruence|done].
  - destruct (Z.eqb_spec k0 k) as [->|Hne0]; simpl.
    + destruct (Z.eqb_spec k k'); [congruence|]. done.
    + destruct (Z.eqb_spec k0 k'); [done|]. exact IH.
Qed.

Lemma elem_of_dict_set d k v k' v' :
  (k', v') ∈ Corpus.dict_set k v d → (k' = k ∧ v' = v) ∨ (k', v') ∈ d.
Proof.
  induction d as [|[k0 v0] d IH]; simpl; intros H.
  - apply list_elem_of_singleton in H. inversion H. by left.
  - destruct (Z.eqb_spec k0 k) as [->|Hne].
    + apply elem_of_cons in H as [H|H]; [inversion H; by left|].
      right. by right.
    + apply elem_of_cons in H as [H|H]; [right; rewrite H; by left|].
      destruct (IH H) as [?|?]; [by left|right; by right].
Qed.

Lemma dict_set_keys d k v :
  (Corpus.dict_set k v d).*1 = if decide (k ∈ d.*1) then d.*1 else (d.*1 ++ [k])%list.
Proof.
  induction d as [|[k0 v0] d IH]; [done|].
  cbn [Corpus.dict_set]. rewrite (fmap_cons fst (k0, v0) d). cbn [fst].
  destruct (Z.eqb_spec k0 k) as [->|Hne].
  - rewrite fmap_cons. cbn [fst]. rewrite decide_True; [done|]. left.
  - rewrite fmap_cons, IH. cbn [fst]. destruct (decide (k ∈ d.*1)) as [Hin|Hnin].
    + rewrite decide_True; [done|]. by right.
    + rewrite decide_False; [done|]. intros Hc.
      apply elem_of_cons in Hc as [?|?]; congruence.
Qed.

Lemma dict_set_NoDup d k v : NoDup d.*1 → NoDup (Corpus.dict_set k v d).*1.
Proof.
  intros Hnd. rewrite dict_set_keys. destruct (decide (k ∈ d.*1)); [done|].
  apply NoDup_app. split; [done|]. split; [|apply NoDup_singleton].
  intros x Hx Hk. apply list_elem_of_singleton in Hk. by subst.
Qed.

Lemma dict_get_elem_of d k v : Corpus.dict_get d k = Some v → (k, v) ∈ d.
Proof.
  unfold Corpus.dict_get. induction d as [|[k0 v0] d IH]; simpl; [done|].
  destruct (Z.eqb_spec k0 k) as [->|Hne]; simpl.
  - intros [= ->]. left.
  - intros H. right. by apply IH.
Qed.

Lemma elem_of_dict_get d k v : NoDup d.*1 → (k, v) ∈ d → Corpus.dict_get d k = Some v.
Proof.
  unfold Corpus.dict_get. induction d as [|[k0 v0] d IH]; simpl; intros Hnd H.
  - by apply elem_of_nil in H.
  - apply NoDup_cons in Hnd as [Hnotin Hnd].
    apply elem_of_cons in H as [H|H].
    + inversion H; subst. by rewrite Z.eqb_refl.
    + destruct (Z.eqb_spec k0 k) as [->|Hne]; simpl; [|by apply IH].
      exfalso. apply Hnotin. apply list_elem_of_fmap. by exists (k, v).
Qed.

End DictProps.

Section LifeProps.

Import Corpus.

Context {UsageDict : Type}.
Variable usage_nonempty : UsageDict → bool.
Variable default_usage : UsageDict.
Variable format_usage_dict : UsageDict → string.

Abbreviation add_initial_testcase :=
  (Corpus.add_initial_testcase usage_nonempty default_usage format_usage_dict).
Abbreviation create_new_testcase :=
  (Corpus.create_new_testcase usage_nonempty default_usage format_usage_dict).
Abbreviation from_src := (Corpus.from_src usage_nonempty default_usage format_usage_dict).
Abbreviation save_to_disk := (Corpus.save_to_disk usage_nonempty format_usage_dict).
Abbreviation to_dict := (Corpus.to_dict usage_nonempty format_usage_dict).

Lemma touch_fields clock (tc : @TestCase UsageDict) :
  id (touch clock tc) = id tc ∧ src_id (touch clock tc) = src_id tc
  ∧ states (touch clock tc) = states tc
  ∧ selected_cnt (touch clock tc) = selected_cnt tc
  ∧ is_valuable (touch clock tc) = is_valuable tc
  ∧ src_exec_code (touch clock tc) = src_exec_code tc
  ∧ src_execution_trace (touch clock tc) = src_execution_trace tc
  ∧ _out_dir (touch clock tc) = _out_dir tc.
Proof. unfold touch. by destruct (unfinished _). Qed.

(** What [from_src] returns. *)
Lemma from_src_ok now clock clock_src (src_tc : @TestCase UsageDict) id_ disk tc src' disk' :
  from_src now clock clock_src src_tc id_ disk = Ok (tc, src', disk') →
  id tc = id_ ∧ src_id tc = Some (id src_tc) ∧ states tc = [SELECT; SUMMARIZE]
  ∧ is_valuable tc = false
  ∧ src_exec_code tc = exec_code src_tc
  ∧ src_execution_trace tc = execution_trace src_tc
  ∧ _out_dir tc = _out_dir src_tc
  ∧ id src' = id src_tc ∧ selected_cnt src' = selected_cnt src_tc + 1
  ∧ states src' = states src_tc
  ∧ save_to_disk tc disk = Ok disk'.
Proof.
  unfold Corpus.from_src. intros H.
  destruct (_out_dir src_tc) as [d|] eqn:Hd; [|discriminate].
  destruct (Py.is_empty d); [discriminate|].
  destruct (Corpus.save_to_disk _ _ _ _) as [disk1|] eqn:Hsave; simpl in H; [|discriminate].
  inversion H; subst. clear H.
  destruct (touch_fields clock_src (with_selected_cnt src_tc (selected_cnt src_tc + 1)))
    as (-> & _ & -> & -> & _).
  repeat split; try done.
Qed.

(** X8.  A new manager holds a corpus in which every case is stored once,
    under its own id, with all ids in use below [next_testcase_id], and
    both ways of adding a case keep it so, whether they return or raise: a
    new case never takes the place of another. *)
Theorem manager_stays_consistent (m : @TestCaseManager UsageDict) :
  (∀ out disk, consistent (@new_manager UsageDict out disk).1)
  ∧ (consistent m →
     (∀ now disk code trace summary_ newly save,
        consistent (add_initial_testcase now m disk code trace summary_ newly save).1.1)
     ∧ (∀ now clock clock_src clock_set disk src summary_ branch justification_
          lines content constraint save,
          consistent (create_new_testcase now clock clock_src clock_set m disk src
                        summary_ branch justification_ lines content constraint save).1.1)).
Proof.
  split.
  { intros out disk. split; [constructor|]. split; [done|].
    intros k tc Hk. by apply elem_of_nil in Hk. }
  intros (Hnd & Hnext & Hcases).
  assert (∀ (cases : list (Z * @TestCase UsageDict)) next tc,
    NoDup cases.*1 → 0 ≤ next →
    (∀ k c, (k, c) ∈ cases → id c = k ∧ 0 ≤ k < next) →
    id tc = next →
    consistent (mkManager (out_dir m) (dict_set next tc cases) (next + 1))) as Hadd.
  { intros cases next tc Hnd' Hnext' Hcases' Hid. split; [|split]; simpl.
    - by apply dict_set_NoDup.
    - lia.
    - intros k c Hk. apply elem_of_dict_set in Hk as [[-> ->]|Hk]; [lia|].
      apply Hcases' in Hk. lia. }
  split.
  - intros now disk code trace summary_ newly save.
    unfold Corpus.add_initial_testcase.
    destruct (Corpus.create_initial _ _ _ _ _ _ _ _ _ _ _) as [[tc disk1]|] eqn:Hc;
      [|done].
    apply create_initial_seed in Hc as (_ & _ & Hid & _).
    assert (consistent (mkManager (out_dir m)
              (dict_set (next_testcase_id m) tc (test_cases m))
              (next_testcase_id m + 1))) as H by (by apply Hadd).
    destruct save; [|exact H].
    by destruct (Corpus.save_to_disk _ _ _ _).
  - intros now clock clock_src clock_set disk src summary_ branch justification_
      lines content constraint save.
    unfold Corpus.create_new_testcase.
    destruct (get_testcase m src) as [parent|] eqn:Hparent; [|done].
    destruct (Corpus.from_src _ _ _ _ _ _ _ _ _) as [[[tc parent'] disk1]|] eqn:Hsrc;
      [|done].
    apply from_src_ok in Hsrc as (Hid & _ & _ & _ & _ & _ & _ & Hpid & _).
    apply dict_get_elem_of in Hparent. apply Hcases in Hparent as [Hparent Hrange].
    assert (consistent (mkManager (out_dir m)
              (dict_set (next_testcase_id m)
                 (touch clock_set (with_target tc summary_ branch justification_ lines
                                     content constraint))
                 (dict_set src parent' (test_cases m)))
              (next_testcase_id m + 1))) as H.
    { apply Hadd; try done.
      - by apply dict_set_NoDup.
      - intros k c Hk. apply elem_of_dict_set in Hk as [[-> ->]|Hk]; [|by apply Hcases].
        split; [congruence|done].
      - destruct (touch_fields clock_set (with_target tc summary_ branch justification_
                    lines content constraint)) as (-> & _). exact Hid. }
    destruct save; [|exact H].
    by destruct (Corpus.save_to_disk _ _ _ _).
Qed.

(** X9.  A derived case is registered under the next id with its parent's
    id, code and trace and the states SELECT, SUMMARIZE; it is not valuable
    yet; the parent's selection count grows by one and no other case
    changes; with [save_immediately] the queue file holds the case. *)
Theorem create_new_testcase_registered (m : @TestCaseManager UsageDict)
    now clock clock_src clock_set disk src summary_ branch justification_
    lines content constraint save st tc :
  consistent m →
  create_new_testcase now clock clock_src clock_set m disk src summary_ branch
    justification_ lines content constraint save = (st, Ok tc) →
  ∃ parent parent',
    get_testcase m src = Some parent
    ∧ id tc = next_testcase_id m ∧ src_id tc = Some src
    ∧ states tc = [SELECT; SUMMARIZE]
    ∧ is_valuable tc = false
    ∧ src_exec_code tc = exec_code parent
    ∧ src_execution_trace tc = execution_trace parent
    ∧ target_file_lines tc = lines
    ∧ next_testcase_id st.1 = next_testcase_id m + 1
    ∧ get_testcase st.1 (next_testcase_id m) = Some tc
    ∧ get_testcase st.1 src = Some parent'
    ∧ selected_cnt parent' = selected_cnt parent + 1
    ∧ (∀ k, k ≠ src → k ≠ next_testcase_id m →
            get_testcase st.1 k = get_testcase m k)
    ∧ (save = true →
       ∃ d, _out_dir tc = Some d
            ∧ files st.2 !! path_join (path_join d "queue") (yaml_filename tc)
              = Some (to_dict tc)).
Proof.
  intros (Hnd & Hnext & Hcases) H. unfold Corpus.create_new_testcase in H.
  destruct (get_testcase m src) as [parent|] eqn:Hparent; [|by inversion H].
  destruct (Corpus.from_src _ _ _ _ _ _ _ _ _) as [[[tc0 parent'] disk1]|] eqn:Hsrc;
    [|by inversion H].
  apply from_src_ok in Hsrc
    as (Hid & Hsrcid & Hstates & Hval & Hcode & Htrace & Hdir & Hpid & Hsel & _ & _).
  pose proof (dict_get_elem_of _ _ _ Hparent) as Hin.
  apply Hcases in Hin as [Hparent_id Hrange].
  set (tc1 := touch clock_set (with_target tc0 summary_ branch justification_ lines
                                 content constraint)) in H.
  destruct (touch_fields clock_set (with_target tc0 summary_ branch justification_ lines
                                      content constraint))
    as (Hid1 & Hsrc1 & Hst1 & _ & Hval1 & Hcode1 & Htrace1 & Hdir1).
  unfold is_valuable in Hval, Hval1.
  simpl in Hid1, Hsrc1, Hst1, Hval1, Hcode1, Htrace1, Hdir1.
  fold tc1 in Hid1, Hsrc1, Hst1, Hval1, Hcode1, Htrace1, Hdir1.
  assert (target_file_lines tc1 = lines) as Hlines.
  { unfold tc1, touch. by destruct (unfinished _). }
  set (m1 := mkManager (out_dir m)
               (dict_set (next_testcase_id m) tc1 (dict_set src parent' (test_cases m)))
               (next_testcase_id m + 1)) in H.
  assert (st.1 = m1 ∧ tc = tc1
          ∧ (save = true → save_to_disk tc1 disk1 = Ok st.2)) as (Hst & Htc & Hsaved).
  { destruct save.
    - destruct (Corpus.save_to_disk _ _ _ _) as [disk2|] eqn:Hsave;
        injection H as Hst Htc; [|done]. rewrite <- Hst. done.
    - injection H as Hst Htc. rewrite <- Hst. done. }
  clear H. subst tc. exists parent, parent'. rewrite Hst. unfold get_testcase. simpl.
  split; [done|]. split; [congruence|]. split; [congruence|].
  split; [congruence|]. split; [unfold is_valuable; by rewrite Hval1|].
  split; [congruence|]. split; [congruence|]. split; [done|]. split; [done|].
  split; [apply dict_get_set_eq|].
  split; [rewrite dict_get_set_ne by lia; apply dict_get_set_eq|].
  split; [done|]. split.
  - intros k Hk1 Hk2. by rewrite !dict_get_set_ne.
  - intros Hsave. specialize (Hsaved Hsave).
    apply (save_to_disk_file usage_nonempty format_usage_dict) in Hsaved
      as (d & Hd & _ & Hfile). eauto.
Qed.

End LifeProps.

Lemma sample_manager_consistent : Corpus.consistent SampleCorpus.manager.
Proof.
  split; [|split]; simpl.
  - apply NoDup_cons. split; [|apply NoDup_singleton].
    intros H. apply list_elem_of_singleton in H. done.
  - done.
  - intros k tc Hk.
    apply elem_of_cons in Hk as [Hk|Hk]; [injection Hk as -> ->; simpl; lia|].
    apply list_elem_of_singleton in Hk. injection Hk as -> ->. simpl. lia.
Defined.

Lemma manager_stays_consistent_witness :
  Corpus.consistent SampleCorpus.manager
  ∧ Corpus.consistent
      (Corpus.create_new_testcase SampleCorpus.usage_nonempty tt
         SampleCorpus.format_usage_dict "2025-04-16 14:55:40.002" 60 61 62
         SampleCorpus.manager SampleCorpus.disk 0 "summary" "if (x > 5) taken"
         "uncovered branch" (Some ("example.c", (10, 12))) None "x > 5" true).1.1.
Proof.
  split; [exact sample_manager_consistent|].
  destruct (manager_stays_consistent SampleCorpus.usage_nonempty tt
              SampleCorpus.format_usage_dict SampleCorpus.manager) as [_ H].
  destruct (H sample_manager_consistent) as [_ Hnew]. apply Hnew.
Defined.

Lemma create_new_testcase_registered_witness :
  Corpus.consistent SampleCorpus.manager
  ∧ ∃ st tc,
      Corpus.create_new_testcase SampleCorpus.usage_nonempty tt
        SampleCorpus.format_usage_dict "2025-04-16 14:55:40.002" 60 61 62
        SampleCorpus.manager SampleCorpus.disk 0 "summary" "if (x > 5) taken"
        "uncovered branch" (Some ("example.c", (10, 12))) None "x > 5" true = (st, Ok tc)
      ∧ Corpus.id tc = 2 ∧ Corpus.src_id tc = Some 0
      ∧ Corpus.next_testcase_id st.1 = 3.
Proof.
  split; [exact sample_manager_consistent|].
  remember (Corpus.create_new_testcase SampleCorpus.usage_nonempty tt
        SampleCorpus.format_usage_dict "2025-04-16 14:55:40.002" 60 61 62
        SampleCorpus.manager SampleCorpus.disk 0 "summary" "if (x > 5) taken"
        "uncovered branch" (Some ("example.c", (10, 12))) None "x > 5" true) as r eqn:Hr.
  destruct r as [st [tc|e]]; [|vm_compute in Hr; discriminate].
  exists st, tc. split; [done|]. symmetry in Hr.
  destruct (create_new_testcase_registered SampleCorpus.usage_nonempty tt
              SampleCorpus.format_usage_dict SampleCorpus.manager _ _ _ _ _ _ _ _ _ _ _ _ _
              st tc sample_manager_consistent Hr)
    as (parent & parent' & _ & Hid & Hsrc & _ & _ & _ & _ & _ & Hnext & _).
  done.
Defined.

Section StatProps.

Import Corpus.

Context {UsageDict : Type}.
Variable percent_2 : Z → Z → string.

Implicit Types (tc : @TestCase UsageDict) (m : @TestCaseManager UsageDict).

Lemma filter_snoc {A} (f : A → bool) l x :
  List.filter f (l ++ [x]) = (List.filter f l ++ if f x then [x] else [])%list.
Proof. rewrite List.filter_app. simpl. by destruct (f x). Qed.

Lemma collected_snoc_list {A} (f : A → bool) (g : A → stat_entry) l x field :
  field = g <$> List.filter f l →
  (if f x then (field ++ [g x])%list else field) = g <$> List.filter f (l ++ [x]).
Proof.
  intros ->. rewrite filter_snoc, fmap_app. destruct (f x); simpl; [done|].
  by rewrite app_nil_r.
Qed.

Lemma count_case_collected m l acc k acc' :
  collected l acc → count_case m acc k = Ok acc' →
  collected (l ++ List.filter counted (option_list (get_testcase m k)))%list acc'.
Proof.
  intros (Hs & Hf & Hu & Hn & Hc & Hh & Hcnt) H. destruct acc as [st n].
  unfold count_case in H. simpl in *.
  destruct (get_testcase m k) as [tc|]; simpl;
    [|injection H as <-; rewrite app_nil_r; by repeat split].
  destruct (counted tc) eqn:Hcounted; simpl in H;
    [|injection H as <-; rewrite app_nil_r; by repeat split].
  pose proof (collected_snoc_list new_coverage (StatId ∘ id) l tc _ Hn) as Hn'.
  pose proof (collected_snoc_list is_crash (StatId ∘ id) l tc _ Hc) as Hc'.
  pose proof (collected_snoc_list is_hang (StatId ∘ id) l tc _ Hh) as Hh'.
  simpl in Hn', Hc', Hh'.
  assert (n + 1 = Z.of_nat (length (l ++ [tc]))) as Hcnt'
    by (rewrite length_app; simpl; lia).
  assert (∀ f : @TestCase UsageDict → bool, f tc = false →
            List.filter f (l ++ [tc]) = List.filter f l) as Hskip.
  { intros f Hf0. by rewrite filter_snoc, Hf0, app_nil_r. }
  assert (∀ f : @TestCase UsageDict → bool, f tc = true →
            List.filter f (l ++ [tc]) = (List.filter f l ++ [tc])%list) as Htake.
  { intros f Hf1. by rewrite filter_snoc, Hf1. }
  unfold collected.
  destruct (is_target_covered tc) eqn:Hcov; simpl in H.
  - destruct (is_satisfiable tc) eqn:Hsat; simpl in H; [|discriminate].
    injection H as <-. simpl.
    rewrite (Htake reached), (Hskip missed), (Hskip unsolved)
      by (unfold reached, missed, unsolved; by rewrite Hcov).
    repeat split; try done.
    rewrite !fmap_app, Hs. simpl. f_equal. by repeat destruct (bool_decide _).
  - destruct (is_satisfiable tc) eqn:Hsat; simpl in H; injection H as <-; simpl.
    + rewrite (Hskip reached), (Htake missed), (Hskip unsolved)
        by (unfold reached, missed, unsolved; by rewrite Hcov, ?Hsat).
      repeat split; try done.
      rewrite !fmap_app, Hf. simpl. f_equal. by destruct (new_coverage tc).
    + rewrite (Hskip reached), (Hskip missed), (Htake unsolved)
        by (unfold reached, missed, unsolved; by rewrite Hcov, ?Hsat).
      repeat split; try done.
      by rewrite !fmap_app, Hu.
Qed.

Lemma count_cases_collected m ids l acc acc' :
  collected l acc → foldR (count_case m) acc ids = Ok acc' →
  collected (l ++ List.filter counted (omap (get_testcase m) ids))%list acc'.
Proof.
  revert l acc. induction ids as [|k ids IH]; intros l acc Hl H; simpl in H.
  - injection H as <-. simpl. by rewrite app_nil_r.
  - destruct (count_case m acc k) as [acc1|] eqn:Hk; simpl in H; [|discriminate].
    pose proof (count_case_collected _ _ _ _ _ Hl Hk) as Hl1.
    apply (IH _ _ Hl1) in H. simpl.
    destruct (get_testcase m k) as [tc|]; simpl in *.
    + destruct (counted tc); simpl in *; [by rewrite <- app_assoc in H|].
      by rewrite app_nil_r in H.
    + by rewrite app_nil_r in H.
Qed.

(** What makes the loop raise: a counted case that covers its target and
    is not satisfiable *)
Lemma count_cases_raise m ids acc e :
  foldR (count_case m) acc ids = Raise e →
  e = AssertionError
  ∧ ∃ tc, tc ∈ List.filter counted (omap (get_testcase m) ids)
          ∧ is_target_covered tc = true ∧ is_satisfiable tc = false.
Proof.
  revert acc. induction ids as [|k ids IH]; intros acc H; simpl in H; [discriminate|].
  destruct (count_case m acc k) as [acc1|e1] eqn:Hk; simpl in H.
  - apply IH in H as (-> & tc & Hin & Htc). split; [done|]. exists tc. split; [|done].
    simpl. destruct (get_testcase m k) as [tc'|]; simpl; [|done].
    destruct (counted tc'); [by right|done].
  - injection H as <-. unfold count_case in Hk. destruct acc as [st n].
    destruct (get_testcase m k) as [tc|] eqn:Hget; [|discriminate].
    destruct (counted tc) eqn:Hcounted; simpl in Hk; [|discriminate].
    destruct (is_target_covered tc) eqn:Hcov; simpl in Hk.
    + destruct (is_satisfiable tc) eqn:Hsat; simpl in Hk; [discriminate|].
      injection Hk as <-. split; [done|]. exists tc. split; [|done].
      simpl. rewrite Hget. simpl. rewrite Hcounted. by left.
    + destruct (is_satisfiable tc); discriminate.
Qed.

Lemma count_cases_no_raise m ids acc tc :
  tc ∈ List.filter counted (omap (get_testcase m) ids) →
  is_target_covered tc = true → is_satisfiable tc = false →
  ∃ e, foldR (count_case m) acc ids = Raise e.
Proof.
  revert acc. induction ids as [|k ids IH]; intros acc Hin Hcov Hsat; simpl in Hin.
  { by apply elem_of_nil in Hin. }
  simpl. destruct (count_case m acc k) as [acc1|e1] eqn:Hk; simpl; [|by eexists].
  apply IH; [|done|done].
  destruct (get_testcase m k) as [tc'|] eqn:Hget; simpl in Hin; [|done].
  destruct (counted tc') eqn:Hcounted; [|done].
  apply elem_of_cons in Hin as [->|Hin]; [|done].
  unfold count_case in Hk. destruct acc as [st n]. rewrite Hget in Hk.
  rewrite Hcounted, Hcov, Hsat in Hk. simpl in Hk. discriminate.
Qed.

(** X10.  [get_statistics] sorts every finished generated case into
    exactly one of [reach_success], [reach_failure] and
    [unsatisfiable_constraints], in the order of the ids: the targets
    reached, the targets missed by a satisfiable case, and the others; the
    lists [new_coverage], [crashes] and [hangs] hold the ids of the cases
    with that flag.  It reports that no generated case was found exactly when
    there is none, and it raises, by its assertion, exactly when a finished
    generated case covers its target and is not satisfiable. *)
Theorem get_statistics_partition m :
  (∀ st text,
     get_statistics percent_2 m = Ok (st, text) →
     stat_id <$> reach_success st = id <$> List.filter reached (finished_generated m)
     ∧ stat_id <$> reach_failure st = id <$> List.filter missed (finished_generated m)
     ∧ unsatisfiable_constraints st
       = StatId ∘ id <$> List.filter unsolved (finished_generated m)
     ∧ stat_new_coverage st
       = StatId ∘ id <$> List.filter new_coverage (finished_generated m)
     ∧ crashes st = StatId ∘ id <$> List.filter is_crash (finished_generated m)
     ∧ hangs st = StatId ∘ id <$> List.filter is_hang (finished_generated m)
     ∧ (length (reach_success st) + length (reach_failure st)
        + length (unsatisfiable_constraints st) = length (finished_generated m))%nat
     ∧ (text = "No newly generated test cases found" ↔ finished_generated m = []))
  ∧ ((∃ e, get_statistics percent_2 m = Raise e)
     ↔ ∃ tc, tc ∈ finished_generated m
             ∧ is_target_covered tc = true ∧ is_satisfiable tc = false)
  ∧ (∀ e, get_statistics percent_2 m = Raise e → e = AssertionError).
Proof.
  assert (@collected UsageDict [] (mkStatistics [] [] [] [] [] [], 0)) as H0
    by (by repeat split).
  unfold get_statistics. split; [|split].
  - intros st text H.
    destruct (foldR _ _ _) as [[st1 n]|] eqn:Hfold; simpl in H; [|discriminate].
    apply (count_cases_collected _ _ _ _ _ H0) in Hfold. simpl in Hfold.
    fold (finished_generated m) in Hfold.
    destruct Hfold as (Hs & Hf & Hu & Hn & Hc & Hh & Hcnt). simpl in *.
    assert (st = st1 ∧ (text = "No newly generated test cases found" ↔ n = 0))
      as [-> Htext].
    { destruct (n =? 0) eqn:Hn0; injection H as <- <-.
      - split; [done|]. split; [lia|done].
      - split; [done|]. split; [discriminate|lia]. }
    repeat split; try done.
    + apply (f_equal length) in Hs, Hf, Hu. rewrite !length_fmap in Hs. rewrite !length_fmap in Hf.
      rewrite !length_fmap in Hu.
      rewrite Hs, Hf, Hu. clear.
      induction (finished_generated m) as [|tc l IH]; [done|]. simpl.
      unfold reached, missed, unsolved in *.
      destruct (is_target_covered tc), (is_satisfiable tc); simpl; lia.
    + intros Ht. apply Htext in Ht. destruct (finished_generated m); [done|].
      simpl in Hcnt. lia.
    + intros Hnil. apply Htext. rewrite Hnil in Hcnt. simpl in Hcnt. lia.
  - split.
    + intros [e H].
      destruct (foldR _ _ _) as [[st1 n]|e1] eqn:Hfold; simpl in H.
      { destruct (n =? 0); discriminate. }
      by apply count_cases_raise in Hfold as [_ Hfold].
    + intros (tc & Hin & Hcov & Hsat).
      destruct (count_cases_no_raise m (seqZ 0 (next_testcase_id m))
                  (mkStatistics [] [] [] [] [] [], 0) tc Hin Hcov Hsat) as [e He].
      exists e. by rewrite He.
  - intros e H.
    destruct (foldR _ _ _) as [[st1 n]|e1] eqn:Hfold; simpl in H.
    { destruct (n =? 0); discriminate. }
    injection H as <-. by apply count_cases_raise in Hfold as [-> _].
Qed.

End StatProps.

Lemma get_statistics_partition_witness :
  ∃ st text,
    Corpus.get_statistics (λ _ _, "100.00%") SampleCorpus.manager = Ok (st, text)
    ∧ Corpus.stat_id <$> Corpus.reach_success st = [1]
    ∧ Corpus.reach_failure st = [].
Proof.
  destruct (Corpus.get_statistics (λ _ _, "100.00%") SampleCorpus.manager)
    as [[st text]|e] eqn:H; [|vm_compute in H; discriminate].
  exists st, text. split; [done|].
  destruct (get_statistics_partition (λ _ _, "100.00%") SampleCorpus.manager)
    as [Hok _].
  destruct (Hok st text H) as (Hs & Hf & _). split; [exact Hs|].
  destruct (Corpus.reach_failure st); [done|]. vm_compute in Hf. discriminate.
Defined.

(** ** File names of the queue *)

Lemma zeros_S (k : nat) :
  Py.join EmptyString (replicate (S k) "0")
  = String "0" (Py.join EmptyString (replicate k "0")).
Proof. by destruct k. Qed.

Lemma int_digits_zeros (k : nat) (s : string) (prev : bool) :
  Py.int_digits prev 0 (Py.join EmptyString (replicate k "0") ++ s)
  = Py.int_digits (if k is O then prev else true) 0 s.
Proof.
  revert prev. induction k as [|k IH]; intros prev; [done|].
  rewrite zeros_S.
  change (Py.int_digits true 0 (Py.join EmptyString (replicate k "0") ++ s)
          = Py.int_digits true 0 s).
  rewrite IH. by destruct k.
Qed.

Lemma zeros_digits (k : nat) (c : ascii) :
  Py.has_char c (Py.join EmptyString (replicate k "0")) = true → c = "0"%char.
Proof.
  induction k as [|k IH]; [done|]. rewrite zeros_S. cbn [Py.has_char].
  intros H. apply orb_true_iff in H as [H|H]; [|by apply IH].
  by apply Ascii.eqb_eq in H.
Qed.

(** The decimal digits of a number that is not negative *)
Lemma str_of_Z_digits (z : Z) :
  0 ≤ z →
  (∀ c, Py.has_char c (Py.str_of_Z z) = true → Py.isdigit c = true)
  ∧ ∀ prev, Py.int_digits prev 0 (Py.str_of_Z z) = Some z.
Proof.
  intros Hz. unfold Py.str_of_Z. destruct z as [|p|p]; [|clear Hz|lia].
  - split; [|done]. intros c H. change (Ascii.eqb "0" c || false = true) in H.
    apply orb_true_iff in H as [H|H]; [|done].
    by apply Ascii.eqb_eq in H as <-.
  - simpl.
    pose proof (DecimalPos.Unsigned.to_uint_nonnil p) as Hnn.
    assert (NilZero.string_of_uint (Pos.to_uint p)
            = NilEmpty.string_of_uint (Pos.to_uint p)) as ->
      by (by destruct (Pos.to_uint p)).
    split; [intros c; apply digits_only|].
    intros prev. rewrite int_digits_uint by (by left). rewrite uint_val_of_uint.
    unfold Z.of_uint. by rewrite DecimalPos.Unsigned.of_to.
Qed.

Lemma fmt_06d_chars (z : Z) (c : ascii) :
  Py.has_char c (Corpus.fmt_06d z) = true → c = "-"%char ∨ Py.isdigit c = true.
Proof.
  unfold Corpus.fmt_06d. rewrite !has_char_app. intros H.
  apply orb_true_iff in H as [H|H].
  - destruct (z <? 0); [|done]. cbn [Py.has_char] in H.
    apply orb_true_iff in H as [H|H]; [|done].
    left. by apply Ascii.eqb_eq in H.
  - right. apply orb_true_iff in H as [H|H].
    + by apply zeros_digits in H as ->.
    + by apply (str_of_Z_digits (Z.abs z)); [lia|].
Qed.

(** [int()] reads the number back from its zero-padded form. *)
Lemma int_fmt_06d (z : Z) : Py.int (Corpus.fmt_06d z) = Ok z.
Proof.
  unfold Py.int. rewrite strip_no_space.
  2:{ intros c Hc. apply fmt_06d_chars in Hc as [->|Hc]; [done|].
      by apply digit_not_space. }
  unfold Corpus.fmt_06d.
  destruct (str_of_Z_digits (Z.abs z)) as [Hdig Hval]; [lia|].
  destruct (Z.ltb_spec z 0) as [Hneg|Hpos].
  - change ("-" ++ ?s) with (String "-" s). cbn [Ascii.eqb Bool.eqb andb].
    rewrite int_digits_zeros, Hval. f_equal. lia.
  - change (EmptyString ++ ?s) with s.
    set (zs := Py.join EmptyString (replicate _ "0")).
    assert (∀ c r, zs ++ Py.str_of_Z (Z.abs z) = String c r →
                   Ascii.eqb c "-" = false ∧ Ascii.eqb c "+" = false) as Hfirst.
    { intros c r Heq.
      assert (Py.isdigit c = true) as Hc.
      { assert (Py.has_char c (zs ++ Py.str_of_Z (Z.abs z)) = true) as Hin
          by (rewrite Heq; simpl; by rewrite Ascii.eqb_refl).
        rewrite has_char_app in Hin. apply orb_true_iff in Hin as [Hin|Hin].
        - by apply zeros_digits in Hin as ->.
        - by apply Hdig. }
      split; apply Ascii.eqb_neq; intros ->; done. }
    destruct (zs ++ Py.str_of_Z (Z.abs z)) as [|c r] eqn:Heq.
    + assert (Py.int_digits false 0 (zs ++ Py.str_of_Z (Z.abs z)) = Some (Z.abs z))
        as Hd by (unfold zs; by rewrite int_digits_zeros, Hval).
      rewrite Heq in Hd. done.
    + destruct (Hfirst c r eq_refl) as [-> ->]. rewrite <- Heq.
      unfold zs. rewrite int_digits_zeros, Hval. f_equal. lia.
Qed.

Lemma split_first (c : ascii) (a b : string) :
  Py.has_char c a = false → hd EmptyString (Py.split c (a ++ String c b)) = a.
Proof.
  induction a as [|d a IH]; intros H.
  - simpl. by rewrite Ascii.eqb_refl.
  - simpl in H. apply orb_false_iff in H as [Hd Ha].
    change (hd EmptyString (Py.split c (String d (a ++ String c b))) = String d a).
    cbn [Py.split]. rewrite Hd. specialize (IH Ha).
    destruct (Py.split c (a ++ String c b)); simpl in *; by subst.
Qed.

Lemma substring_app (a p : string) :
  String.substring (String.length a) (String.length p) (a ++ p) = p.
Proof.
  induction a as [|c a IH].
  - change (String.substring 0 (String.length p) p = p).
    induction p as [|c p IHp]; [done|]. cbn [String.substring String.length].
    by rewrite IHp.
  - change (String.substring (S (String.length a)) (String.length p)
              (String c (a ++ p)) = p).
    cbn [String.substring]. exact IH.
Qed.

Lemma endswith_app (a p : string) : Py.endswith (a ++ p) p = true.
Proof.
  unfold Py.endswith. rewrite length_app_string.
  replace (String.length a + String.length p - String.length p)%nat
    with (String.length a) by lia.
  apply andb_true_iff. split; [apply Nat.leb_le; lia|].
  apply String.eqb_eq, substring_app.
Qed.

Section FileNameProps.

Import Corpus.

Context {UsageDict : Type}.
Implicit Types tc : @TestCase UsageDict.

Lemma id_fmt_no_sep tc (c : ascii) :
  c ≠ ":"%char → c ≠ "i"%char → c ≠ "d"%char → c ≠ "-"%char → Py.isdigit c = false →
  Py.has_char c ("id:" ++ fmt_06d (id tc)) = false.
Proof.
  intros H1 H2 H3 H4 H5. rewrite has_char_app. apply orb_false_iff. split.
  - cbn [Py.has_char].
    rewrite (proj2 (Ascii.eqb_neq "i" c)), (proj2 (Ascii.eqb_neq "d" c)),
      (proj2 (Ascii.eqb_neq ":" c)); done.
  - destruct (Py.has_char c (fmt_06d (id tc))) eqn:H; [|done].
    apply fmt_06d_chars in H as [->|H]; [done|congruence].
Qed.

(** The file name of a case passes the filter of the loader, and the loader
    reads the id of the case from it. *)
Lemma yaml_filename_read tc :
  Py.endswith (yaml_filename tc) ".yaml" = true
  ∧ Py.startswith (yaml_filename tc) "id:" = true
  ∧ Py.int (Py.drop 3 (id_part (yaml_filename tc))) = Ok (id tc).
Proof.
  assert (∀ s, Py.drop 3 ("id:" ++ s) = s) as Hdrop by reflexivity.
  unfold yaml_filename, id_part. destruct (src_id tc) as [src|].
  - split; [|split].
    + rewrite <- !str_app_assoc. apply endswith_app.
    + apply prefix_app_same.
    + rewrite <- str_app_assoc.
      change (",src:" ++ ?s) with (String "," ("src:" ++ s)).
      assert (Py.has_char "," ("id:" ++ fmt_06d (id tc)) = false) as Hno
        by (by apply id_fmt_no_sep).
      change "," with (String "," EmptyString) at 1. rewrite contains_char.
      rewrite has_char_app. cbn [Py.has_char]. rewrite Ascii.eqb_refl.
      rewrite orb_true_r. rewrite split_first by done.
      rewrite Hdrop. apply int_fmt_06d.
  - split; [|split].
    + rewrite <- !str_app_assoc. apply endswith_app.
    + apply prefix_app_same.
    + rewrite <- str_app_assoc.
      change (".yaml") with (String "." "yaml").
      assert (Py.has_char "." ("id:" ++ fmt_06d (id tc)) = false) as Hdot
        by (by apply id_fmt_no_sep).
      assert (Py.has_char "," ("id:" ++ fmt_06d (id tc)) = false) as Hcomma
        by (by apply id_fmt_no_sep).
      change "," with (String "," EmptyString) at 1. rewrite contains_char.
      rewrite has_char_app, Hcomma. cbn [Py.has_char orb Ascii.eqb Bool.eqb andb].
      rewrite split_first by done.
      rewrite Hdrop. apply int_fmt_06d.
Qed.

End FileNameProps.

(** ** Loading a corpus *)

Section LoadProps.

Import Corpus.

Context {UsageDict : Type}.
Variable usage_nonempty : UsageDict → bool.
Variable format_usage_dict : UsageDict → string.
Variable parse_usage_dict : string → result UsageDict.
Variable listdir : @Disk UsageDict → string → list string.

Abbreviation load_file := (Corpus.load_file parse_usage_dict).
Abbreviation reads := (Corpus.reads parse_usage_dict).
Abbreviation load_testcases := (Corpus.load_testcases parse_usage_dict listdir).
Abbreviation load_from_file := (Corpus.load_from_file parse_usage_dict).
Abbreviation save_to_disk := (Corpus.save_to_disk usage_nonempty format_usage_dict).
Abbreviation save_all := (Corpus.save_all usage_nonempty format_usage_dict).
Abbreviation to_dict := (Corpus.to_dict usage_nonempty format_usage_dict).
Abbreviation usage_reloads :=
  (Corpus.usage_reloads usage_nonempty format_usage_dict parse_usage_dict).

Implicit Types (tc : @TestCase UsageDict) (m : @TestCaseManager UsageDict).

(** One round of the loop stores the case that the file holds, or skips
    the file. *)
Lemma load_file_cases clock out dir disk acc f :
  (∃ k tc, reads clock out dir disk f k tc
           ∧ load_file clock out dir disk acc f = (dict_set k tc acc.1, Z.max acc.2 k))
  ∨ ((∀ k tc, ¬ reads clock out dir disk f k tc)
     ∧ load_file clock out dir disk acc f = acc).
Proof.
  unfold Corpus.load_file, Corpus.reads.
  destruct (Py.endswith f ".yaml" && Py.startswith f "id:") eqn:Hfilter.
  - destruct (Py.int _) as [k|e] eqn:Hint; simpl.
    + destruct (Corpus.load_from_file _ _ _ _ _) as [tc|e] eqn:Hload; simpl.
      * left. by exists k, tc.
      * right. split; [|done]. intros k' tc' (_ & _ & H). discriminate.
    + right. split; [|done]. intros k' tc' (_ & H & _). discriminate.
  - right. split; [|done]. intros k' tc' (H & _). discriminate.
Qed.

Lemma reads_functional clock out dir disk f k1 tc1 k2 tc2 :
  reads clock out dir disk f k1 tc1 → reads clock out dir disk f k2 tc2 →
  k1 = k2 ∧ tc1 = tc2.
Proof. intros (_ & H1 & H1') (_ & H2 & H2'). split; congruence. Qed.

(** What the loop of [_load_testcases_from_dir] holds after the files [l] *)
Lemma load_files_spec clock out dir disk (l : list string) :
  let acc := fold_left (load_file clock out dir disk) l ([], 0) in
  NoDup acc.1.*1
  ∧ 0 ≤ acc.2
  ∧ (∀ k tc, (k, tc) ∈ acc.1 →
             k ≤ acc.2 ∧ ∃ f, f ∈ l ∧ reads clock out dir disk f k tc)
  ∧ (acc.2 = 0 ∨ acc.2 ∈ acc.1.*1)
  ∧ (∀ f k tc, f ∈ l → reads clock out dir disk f k tc → k ∈ acc.1.*1).
Proof.
  induction l as [|f l IH] using rev_ind; simpl.
  { split; [constructor|]. split; [done|]. split.
    - intros k tc H. by apply elem_of_nil in H.
    - split; [by left|]. intros f k tc H. by apply elem_of_nil in H. }
  rewrite fold_left_app. simpl.
  set (acc := fold_left (load_file clock out dir disk) l ([], 0)) in *.
  simpl in IH. destruct IH as (Hnd & Hmax & Hfrom & Hlast & Hall).
  destruct (load_file_cases clock out dir disk acc f)
    as [(k & tc & Hreads & ->)|[Hnone ->]]; simpl.
  - split; [by apply dict_set_NoDup|]. split; [lia|]. split; [|split].
    + intros k' tc' Hin. apply elem_of_dict_set in Hin as [[-> ->]|Hin].
      * split; [lia|]. exists f. split; [|done]. apply elem_of_app. right. left.
      * apply Hfrom in Hin as (Hle & f' & Hf' & Hr). split; [lia|].
        exists f'. split; [|done]. apply elem_of_app. by left.
    + rewrite dict_set_keys.
      destruct (Z.max_spec acc.2 k) as [[Hlt ->]|[Hge ->]].
      * right. destruct (decide (k ∈ acc.1.*1)); [done|].
        apply elem_of_app. right. left.
      * destruct Hlast as [H0|Hin]; [left; lia|]. right.
        destruct (decide (k ∈ acc.1.*1)); [done|]. apply elem_of_app. by left.
    + intros f' k' tc' Hf' Hr. rewrite dict_set_keys.
      apply elem_of_app in Hf' as [Hf'|Hf'].
      * specialize (Hall f' k' tc' Hf' Hr).
        destruct (decide (k ∈ acc.1.*1)); [done|]. apply elem_of_app. by left.
      * apply list_elem_of_singleton in Hf' as ->.
        destruct (reads_functional _ _ _ _ _ _ _ _ _ Hr Hreads) as [-> _].
        destruct (decide (k ∈ acc.1.*1)); [done|]. apply elem_of_app. right. left.
  - split; [done|]. split; [done|]. split; [|split; [done|]].
    + intros k' tc' Hin. apply Hfrom in Hin as (Hle & f' & Hf' & Hr). split; [done|].
      exists f'. split; [|done]. apply elem_of_app. by left.
    + intros f' k' tc' Hf' Hr. apply elem_of_app in Hf' as [Hf'|Hf'].
      * by apply (Hall f' k' tc').
      * apply list_elem_of_singleton in Hf' as ->. by apply Hnone in Hr.
Qed.


(** *** Saving every case and loading the directory *)

Lemma str_app_inv (a x y : string) : a ++ x = a ++ y → x = y.
Proof.
  induction a as [|c a IH]; [done|].
  change (String c (a ++ x) = String c (a ++ y) → x = y). intros [= H]. by apply IH.
Qed.

Lemma path_join_sep (a : string) : ∃ t, ∀ b, path_join a b = a ++ t ++ b.
Proof.
  unfold path_join. destruct (Py.is_empty a) eqn:Ha.
  - exists EmptyString. intros b. by destruct a.
  - destruct (String.eqb _ _).
    + by exists EmptyString.
    + by exists "/".
Qed.

Lemma path_join_inj (a f f' : string) : path_join a f = path_join a f' → f = f'.
Proof.
  destruct (path_join_sep a) as [t Ht]. rewrite !Ht. intros H.
  by apply str_app_inv, str_app_inv in H.
Qed.

Lemma queue_not_crashes (d f f' : string) :
  path_join (path_join d "queue") f ≠ path_join (path_join d "crashes_or_hangs") f'.
Proof.
  destruct (path_join_sep d) as [t Ht]. rewrite !Ht.
  destruct (path_join_sep (d ++ t ++ "queue")) as [t1 Ht1].
  destruct (path_join_sep (d ++ t ++ "crashes_or_hangs")) as [t2 Ht2].
  rewrite Ht1, Ht2, !str_app_assoc. intros H.
  apply str_app_inv, str_app_inv in H. discriminate.
Qed.

(** A save succeeds when the queue directory exists; it writes the queue
    file and, for a crash or a hang, a second file, and nothing else. *)
Lemma save_to_disk_frame tc d disk :
  _out_dir tc = Some d → Py.is_empty d = false →
  path_join d "queue" ∈ dirs disk →
  ∃ disk1,
    save_to_disk tc disk = Ok disk1
    ∧ path_join d "queue" ∈ dirs disk1
    ∧ files disk1 !! path_join (path_join d "queue") (yaml_filename tc) = Some (to_dict tc)
    ∧ ∀ p, p ≠ path_join (path_join d "queue") (yaml_filename tc) →
           p ≠ path_join (path_join d "crashes_or_hangs") (yaml_filename tc) →
           files disk1 !! p = files disk !! p.
Proof.
  intros Hd Hne Hdir. unfold Corpus.save_to_disk, write_to_yaml_file.
  rewrite Hd, Hne, bool_decide_true by done. cbn [mbind result_bind].
  destruct (is_crash tc || is_hang tc); eexists; (split; [done|]); simpl.
  - split; [by apply elem_of_union_r|]. split.
    + rewrite lookup_insert_ne by (intros H; symmetry in H; by apply queue_not_crashes in H).
      by rewrite lookup_insert_eq.
    + intros p Hq Hc. by rewrite !lookup_insert_ne.
  - split; [done|]. split; [by rewrite lookup_insert_eq|].
    intros p Hq Hc. by rewrite lookup_insert_ne.
Qed.

Lemma save_all_files d (cases : list (Z * @TestCase UsageDict)) :
  Py.is_empty d = false →
  (∀ k tc, (k, tc) ∈ cases → _out_dir tc = Some d) →
  ∀ disk, path_join d "queue" ∈ dirs disk →
  ∃ disk1,
    save_all cases disk = (disk1, Ok ())
    ∧ path_join d "queue" ∈ dirs disk1
    ∧ (∀ p, (∀ k tc, (k, tc) ∈ cases →
               p ≠ path_join (path_join d "queue") (yaml_filename tc)
               ∧ p ≠ path_join (path_join d "crashes_or_hangs") (yaml_filename tc)) →
            files disk1 !! p = files disk !! p)
    ∧ (∀ k tc, (k, tc) ∈ cases →
         (∀ k2 tc2, (k2, tc2) ∈ cases → yaml_filename tc2 = yaml_filename tc → tc2 = tc) →
         files disk1 !! path_join (path_join d "queue") (yaml_filename tc)
         = Some (to_dict tc)).
Proof.
  intros Hne. induction cases as [|[k tc] rest IH]; intros Hout disk Hdir.
  { exists disk. split; [done|]. split; [done|]. split; [done|].
    intros k tc H. by apply elem_of_nil in H. }
  destruct (save_to_disk_frame tc d disk) as (disk' & Hsave & Hdir' & Hfile & Hframe);
    [apply (Hout k tc); left|done|done|].
  destruct (IH (λ k2 tc2 H, Hout k2 tc2 (list_elem_of_further _ _ _ H)) disk' Hdir')
    as (disk1 & Hall & Hdir1 & Hframe1 & Hfiles1).
  exists disk1. cbn [Corpus.save_all]. rewrite Hsave. split; [done|]. split; [done|].
  split.
  - intros p Hp. rewrite Hframe1.
    + destruct (Hp k tc) as [Hq Hc]; [left|]. by apply Hframe.
    + intros k2 tc2 H2. apply (Hp k2). by right.
  - intros k0 tc0 Hin Huniq.
    destruct (decide (yaml_filename tc0 ∈ (yaml_filename ∘ snd) <$> rest)) as [Hlater|Hlast].
    + apply list_elem_of_fmap in Hlater as ([k2 tc2] & Heq & H2). simpl in Heq.
      assert (tc2 = tc0) as -> by (apply (Huniq k2); [by right|done]).
      apply (Hfiles1 k2); [done|]. intros k3 tc3 H3. apply (Huniq k3). by right.
    + apply elem_of_cons in Hin as [[= -> ->]|Hin].
      * rewrite Hframe1; [done|]. intros k2 tc2 H2. split.
        -- intros Heq. apply path_join_inj in Heq. apply Hlast.
           apply list_elem_of_fmap. exists (k2, tc2). by split.
        -- apply queue_not_crashes.
      * exfalso. apply Hlast. apply list_elem_of_fmap. by exists (k0, tc0).
Qed.

(** Loading a queue file into a manager with another output directory gives
    the saved case with that directory. *)
Lemma load_saved_file clock tc d0 p disk :
  files disk !! p = Some (to_dict tc) →
  plain_doc (to_dict tc) →
  target_reloads (target_file_lines tc) → usage_reloads (usage tc) →
  Py.is_empty d0 = false →
  load_from_file clock p (Some d0) disk = Ok (with_out_dir tc (Some d0)).
Proof.
  intros Hfile Hplain Htarget Husage Hne.
  unfold Corpus.load_from_file. rewrite Hfile. cbv zeta.
  rewrite (read_doc_plain _ Hplain).
  rewrite (from_dict_to_dict usage_nonempty format_usage_dict) by done.
  cbn [mbind result_bind]. rewrite Hne. f_equal.
  unfold init, touch. destruct (unfinished _); destruct tc; simpl in *; by subst.
Qed.

Lemma dict_get_None {V} (d : list (Z * V)) k : dict_get d k = None → k ∉ d.*1.
Proof.
  unfold dict_get. induction d as [|[k0 v0] d IH]; simpl; intros H Hin.
  - by apply elem_of_nil in Hin.
  - destruct (Z.eqb_spec k0 k); [done|].
    apply elem_of_cons in Hin as [Hin|Hin]; [simpl in Hin; congruence|by apply IH].
Qed.

(** X12.  Saving every case of a corpus and loading the directory gives the
    corpus back: the loaded manager holds, under each id, the saved case
    (with the output directory of the loading manager), and nothing else,
    provided the queue directory exists and lists the saved files, and each
    case can be written in the file format (texts of printable ASCII
    characters and line feeds, a target path without colon, a first target
    line that is not negative, a usage text that is read back).  The next
    id is the same when the last id in use holds a case. *)
Theorem load_after_save_all clock m m0 disk :
  consistent m →
  Py.is_empty (out_dir m) = false → Py.is_empty (out_dir m0) = false →
  path_join (out_dir m) "queue" ∈ dirs disk →
  (∀ k tc, (k, tc) ∈ test_cases m →
     _out_dir tc = Some (out_dir m)
     ∧ plain_doc (to_dict tc)
     ∧ target_reloads (target_file_lines tc) ∧ usage_reloads (usage tc)) →
  let saved := Corpus.save_all_testcases usage_nonempty format_usage_dict m disk in
  listdir saved.1 (path_join (out_dir m) "queue") ≡ₚ yaml_filename <$> (test_cases m).*2 →
  saved.2 = Ok ()
  ∧ ∃ m',
      load_testcases clock m0 (out_dir m) saved.1 = Ok m'
      ∧ (∀ k, get_testcase m' k
              = (λ tc, with_out_dir tc (Some (out_dir m0))) <$> get_testcase m k)
      ∧ (out_dir m0 = out_dir m → ∀ k, get_testcase m' k = get_testcase m k)
      ∧ next_testcase_id m' ≤ Z.max 1 (next_testcase_id m)
      ∧ (is_Some (get_testcase m (next_testcase_id m - 1)) →
         next_testcase_id m' = next_testcase_id m).
Proof.
  intros (Hnd & Hnext & Hcases) Hne Hne0 Hdir Hgood. cbv zeta.
  unfold Corpus.save_all_testcases.
  set (d := out_dir m) in *. set (queue := path_join d "queue") in *.
  destruct (save_all_files d (test_cases m) Hne (λ k tc H, proj1 (Hgood k tc H)) disk Hdir)
    as (disk1 & Hsave & Hdir1 & _ & Hfiles).
  rewrite Hsave. simpl. intros Hlist. split; [done|].
  (* the file of a case holds that case only *)
  assert (∀ k tc k2 tc2, (k, tc) ∈ test_cases m → (k2, tc2) ∈ test_cases m →
            yaml_filename tc2 = yaml_filename tc → k2 = k ∧ tc2 = tc) as Huniq.
  { intros k tc k2 tc2 H H2 Heq.
    destruct (yaml_filename_read tc) as (_ & _ & Hid).
    destruct (yaml_filename_read tc2) as (_ & _ & Hid2).
    rewrite Heq, Hid in Hid2. injection Hid2 as Hid2.
    destruct (Hcases k tc H) as [Hk _]. destruct (Hcases k2 tc2 H2) as [Hk2 _].
    assert (k2 = k) as -> by congruence. split; [done|].
    apply (elem_of_dict_get _ _ _ Hnd) in H, H2. congruence. }
  assert (∀ k tc, (k, tc) ∈ test_cases m →
            reads clock (out_dir m0) queue disk1 (yaml_filename tc) k
              (with_out_dir tc (Some (out_dir m0)))) as Hreads.
  { intros k tc H. destruct (yaml_filename_read tc) as (He & Hs & Hid).
    destruct (Hgood k tc H) as (_ & Hplain & Htarget & Husage).
    destruct (Hcases k tc H) as [Hk _].
    split; [by rewrite He, Hs|]. split; [by rewrite Hid, Hk|].
    apply load_saved_file; try done.
    apply (Hfiles k); [done|]. intros k2 tc2 H2 Heq. by apply (Huniq k tc k2 tc2). }
  assert (∀ f, f ∈ listdir disk1 queue ↔ ∃ k tc, (k, tc) ∈ test_cases m ∧ f = yaml_filename tc)
    as Hlisted.
  { intros f. rewrite Hlist. rewrite list_elem_of_fmap. split.
    - intros (tc & -> & Htc). apply list_elem_of_fmap in Htc as ([k tc'] & -> & H).
      by exists k, tc'.
    - intros (k & tc & H & ->). exists tc. split; [done|].
      apply list_elem_of_fmap. by exists (k, tc). }
  unfold Corpus.load_testcases, Corpus._load_testcases_from_dir. fold queue.
  rewrite bool_decide_true by done.
  pose proof (load_files_spec clock (out_dir m0) queue disk1 (listdir disk1 queue))
    as (Hnd' & Hmax & Hfrom & Hlast & Hall).
  destruct (fold_left _ _ _) as [cases max_id]. simpl in Hnd', Hmax, Hfrom, Hlast, Hall.
  cbn [mbind result_bind]. eexists. split; [done|]. unfold get_testcase. simpl.
  (* every loaded pair is a saved pair *)
  assert (∀ k tc', (k, tc') ∈ cases →
            ∃ tc, (k, tc) ∈ test_cases m ∧ tc' = with_out_dir tc (Some (out_dir m0)))
    as Hback.
  { intros k tc' H. apply Hfrom in H as (_ & f & Hf & Hr).
    apply Hlisted in Hf as (k2 & tc2 & H2 & ->).
    destruct (reads_functional _ _ _ _ _ _ _ _ _ Hr (Hreads k2 tc2 H2)) as [-> ->].
    by exists tc2. }
  assert (∀ k, dict_get cases k
               = (λ tc, with_out_dir tc (Some (out_dir m0))) <$> dict_get (test_cases m) k)
    as Hget.
  { intros k.
    destruct (dict_get (test_cases m) k) as [tc|] eqn:Hk; simpl.
    - apply dict_get_elem_of in Hk.
      assert (k ∈ cases.*1) as Hin.
      { apply (Hall (yaml_filename tc) k (with_out_dir tc (Some (out_dir m0)))).
        - apply Hlisted. by exists k, tc.
        - by apply Hreads. }
      apply list_elem_of_fmap in Hin as ([k' tc'] & Hk' & Hin). simpl in Hk'. subst k'.
      rewrite (elem_of_dict_get _ _ _ Hnd' Hin). f_equal.
      apply Hback in Hin as (tc2 & H2 & ->).
      apply (elem_of_dict_get _ _ _ Hnd) in Hk, H2. congruence.
    - destruct (dict_get cases k) as [tc'|] eqn:Hk'; [|done].
      apply dict_get_elem_of, Hback in Hk' as (tc2 & H2 & _).
      apply (elem_of_dict_get _ _ _ Hnd) in H2. congruence. }
  assert (max_id = 0 ∨ ∃ tc, (max_id, tc) ∈ test_cases m) as Hlast'.
  { destruct Hlast as [?|Hin]; [by left|]. right.
    apply list_elem_of_fmap in Hin as ([k' tc'] & Hk' & Hin). simpl in Hk'. subst k'.
    apply Hback in Hin as (tc & H & _). by exists tc. }
  split; [exact Hget|]. split; [|split].
  - intros Hsame k. rewrite Hget.
    destruct (dict_get (test_cases m) k) as [tc|] eqn:Hk; [|done].
    simpl. f_equal. apply dict_get_elem_of, Hgood in Hk as (Hout & _).
    rewrite Hsame. fold d. rewrite <- Hout. by destruct tc.
  - destruct Hlast' as [->|[tc H]]; [lia|]. apply Hcases in H. lia.
  - intros [tc Hk]. apply dict_get_elem_of in Hk.
    pose proof (proj2 (Hcases _ _ Hk)) as Hrange.
    assert (next_testcase_id m - 1 ≤ max_id) as Hle.
    { assert (is_Some (dict_get cases (next_testcase_id m - 1))) as [tc' Hk'].
      { rewrite Hget. by rewrite (elem_of_dict_get _ _ _ Hnd Hk). }
      by apply dict_get_elem_of, Hfrom in Hk' as [Hle _]. }
    destruct Hlast' as [->|[tc2 H2]]; [lia|]. apply Hcases in H2. lia.
Qed.

End LoadProps.

Lemma sample_queue_exists :
  Corpus.path_join (Corpus.out_dir SampleCorpus.manager) "queue"
  ∈ Corpus.dirs SampleCorpus.disk.
Proof. apply (bool_decide_unpack _). vm_compute. exact I. Defined.


Lemma load_after_save_all_witness :
  ∃ m',
    Corpus.load_testcases SampleCorpus.parse_usage_dict SampleCorpus.listdir 70
      SampleCorpus.empty_manager "out"
      (Corpus.save_all_testcases SampleCorpus.usage_nonempty
         SampleCorpus.format_usage_dict SampleCorpus.manager SampleCorpus.disk).1
    = Ok m'
    ∧ Corpus.get_testcase m' 1 = Some SampleCorpus.child
    ∧ Corpus.next_testcase_id m' = 2.
Proof.
  destruct (load_after_save_all SampleCorpus.usage_nonempty SampleCorpus.format_usage_dict
              SampleCorpus.parse_usage_dict SampleCorpus.listdir 70
              SampleCorpus.manager SampleCorpus.empty_manager SampleCorpus.disk)
    as (_ & m' & Hload & _ & Hget & _ & Hnext).
  - exact sample_manager_consistent.
  - reflexivity.
  - reflexivity.
  - exact sample_queue_exists.
  - intros k tc Hin.
    apply elem_of_cons in Hin as [Hin|Hin];
      [|apply list_elem_of_singleton in Hin]; injection Hin as -> ->.
    + split; [reflexivity|]. split; [repeat constructor|].
      split; [exact I|]. intros _. split; reflexivity.
    + split; [reflexivity|]. split; [repeat constructor|].
      split; [split; [reflexivity|lia]|].
      intros _. split; reflexivity.
  - vm_compute. apply perm_swap.
  - exists m'. split; [exact Hload|]. split.
    + by rewrite Hget.
    + apply Hnext. by eexists.
Defined.

(** ** The [select_target_branch] tool *)

Lemma all_digits_chars (s : string) (c : ascii) :
  Py.all_digits s = true → Py.has_char c s = true → Py.isdigit c = true.
Proof.
  induction s as [|d s IH]; [done|]. simpl. intros Hd Hc.
  apply andb_true_iff in Hd as [Hd Hs]. apply orb_true_iff in Hc as [Hc|Hc].
  - by apply Ascii.eqb_eq in Hc as <-.
  - by apply IH.
Qed.

Lemma int_digits_all_digits (s : string) :
  Py.all_digits s = true →
  ∀ prev acc, 0 ≤ acc → s ≠ EmptyString ∨ prev = true →
    ∃ z, Py.int_digits prev acc s = Some z ∧ 0 ≤ z.
Proof.
  induction s as [|c s IH]; intros Hd prev acc Hacc Hne.
  - destruct Hne as [?| ->]; [done|]. by exists acc.
  - simpl in Hd. apply andb_true_iff in Hd as [Hc Hs]. simpl. rewrite Hc.
    apply IH; [done| |by right].
    unfold Py.isdigit in Hc. apply andb_true_iff in Hc as [H1 _]. apply N.leb_le in H1.
    unfold Py.digit_val. lia.
Qed.

(** [int()] reads a text of decimal digits as a number that is not negative. *)
Lemma int_of_digits (s : string) :
  Py.str_isdigit s = true → ∃ z, Py.int s = Ok z ∧ 0 ≤ z.
Proof.
  unfold Py.str_isdigit. intros H. apply andb_true_iff in H as [Hne Hd].
  unfold Py.int. rewrite strip_no_space
    by (intros c Hc; by apply digit_not_space, (all_digits_chars s)).
  destruct s as [|c s]; [done|].
  assert (Py.isdigit c = true) as Hc by (simpl in Hd; by apply andb_true_iff in Hd as [? _]).
  assert (Ascii.eqb c "-" = false ∧ Ascii.eqb c "+" = false) as [-> ->]
    by (split; apply Ascii.eqb_neq; intros ->; done).
  destruct (int_digits_all_digits (String c s) Hd false 0) as (z & -> & Hz);
    [done|by left|]. by exists z.
Qed.

Section TargetBranchProps.

Import TargetBranch.

Variable normpath : string → string.
Variable join : string → string → string.
Variable relpath : string → string → string.
Variable path_exists isdir : string → bool.
Variable project_dir : string.
Variable detect_language : string → string.
Variable get_comment_token : string → string.
Variable get_multiline_comment_tokens : string → option (string * string).
Variable load_code_from_file : string → result (gmap Z string).

Abbreviation process_target_branch_selection :=
  (TargetBranch.process_target_branch_selection normpath join relpath path_exists isdir
     project_dir detect_language get_comment_token get_multiline_comment_tokens
     load_code_from_file).
Abbreviation get_file_coverage :=
  (Coverage.get_file_coverage normpath detect_language get_comment_token
     get_multiline_comment_tokens load_code_from_file).

(** X13.  A target that [process_target_branch_selection] accepts names a
    file that exists and is no directory, with a line range
    [0 ≤ start ≤ end] that ends within the real lines of the file: the
    range comes from [start-end], in either order, or from one number, and
    the branch and its justification are not blank.  A rejection records
    no target. *)
Theorem target_branch_selection_accepted file2cov target_branch justification
    expected_covered_lines file2cov' msg ok sel :
  process_target_branch_selection file2cov target_branch justification
    expected_covered_lines = (file2cov', Ok (msg, ok, sel)) →
  if ok then
    ∃ file_path line_range to_check rel start end_ tc,
      expected_covered_lines = Some (file_path, line_range)
      ∧ sel = Some (rel, (start, end_))
      ∧ 0 ≤ start ≤ end_ ≤ Trace.get_real_line_size tc
      ∧ get_file_coverage file2cov rel = (file2cov', Ok tc)
      ∧ path_exists to_check = true ∧ isdir to_check = false
      ∧ (to_check, rel)
        = (if negb (Py.contains project_dir (normpath file_path))
           then (normpath (join project_dir (normpath file_path)), normpath file_path)
           else (normpath file_path,
                 normpath (relpath (normpath file_path) project_dir)))
      ∧ ((Py.contains "-" line_range = false ∧ Py.int line_range = Ok start
          ∧ start = end_)
         ∨ ∃ a b x y, Py.split "-" line_range = [a; b]
                      ∧ Py.int a = Ok x ∧ Py.int b = Ok y
                      ∧ start = Z.min x y ∧ end_ = Z.max x y)
      ∧ missing target_branch = false ∧ missing justification = false
  else sel = None.
Proof.
  unfold TargetBranch.process_target_branch_selection, rejected. intros H.
  destruct (missing target_branch) eqn:Htb; [by injection H as <- <- <- <-|].
  destruct (missing justification) eqn:Hj; [by injection H as <- <- <- <-|].
  destruct expected_covered_lines as [[file_path line_range]|];
    [|by injection H as <- <- <- <-].
  destruct (if negb (Py.contains project_dir (normpath file_path))
            then (normpath (join project_dir (normpath file_path)), normpath file_path)
            else (normpath file_path,
                  normpath (relpath (normpath file_path) project_dir)))
    as [to_check rel] eqn:Hpaths.
  destruct (path_exists to_check) eqn:He; simpl in H; [|by injection H as <- <- <- <-].
  destruct (isdir to_check) eqn:Hdir; [by injection H as <- <- <- <-|].
  (* the line range *)
  assert (∀ r : result (option (Z * Z)),
    r = (if Py.contains "-" line_range then
           let parts := Py.split "-" line_range in
           if negb (length parts =? 2)%nat
              || negb (Py.str_isdigit (nth 0 parts EmptyString))
              || negb (Py.str_isdigit (nth 1 parts EmptyString))
           then Ok None
           else a ← Py.int (nth 0 parts EmptyString);
                b ← Py.int (nth 1 parts EmptyString);
                Ok (Some (Z.min a b, Z.max a b))
         else if negb (Py.str_isdigit line_range) then Ok None
         else n ← Py.int line_range; Ok (Some (n, n))) →
    ∀ start end_, r = Ok (Some (start, end_)) →
      0 ≤ start ≤ end_
      ∧ ((Py.contains "-" line_range = false ∧ Py.int line_range = Ok start
          ∧ start = end_)
         ∨ ∃ a b x y, Py.split "-" line_range = [a; b]
                      ∧ Py.int a = Ok x ∧ Py.int b = Ok y
                      ∧ start = Z.min x y ∧ end_ = Z.max x y)) as Hrange.
  { intros r -> start end_. destruct (Py.contains "-" line_range) eqn:Hdash; cbv zeta.
    - destruct (Py.split "-" line_range) as [|a [|b [|c parts]]] eqn:Hsplit;
        simpl; try done.
      destruct (Py.str_isdigit a) eqn:Ha; simpl; [|done].
      destruct (Py.str_isdigit b) eqn:Hb; simpl; [|done].
      destruct (int_of_digits a Ha) as (x & Hxa & Hx).
      destruct (int_of_digits b Hb) as (y & Hyb & Hy). rewrite Hxa, Hyb. simpl.
      intros [= <- <-]. split; [lia|]. right. by exists a, b, x, y.
    - destruct (Py.str_isdigit line_range) eqn:Hd; simpl; [|done].
      destruct (int_of_digits line_range Hd) as (x & Hint & Hx). rewrite Hint. simpl.
      intros [= <- <-]. split; [lia|]. by left. }
  match type of H with
  | (match ?r with _ => _ end) = _ => specialize (Hrange r eq_refl); destruct r as [[[start end_]|]|e]
  end; [|by injection H as <- <- <- <-|done].
  destruct (Hrange start end_ eq_refl) as [Hbounds Hfrom].
  destruct (get_file_coverage file2cov rel) as [file2cov1 [tc|e]] eqn:Hcov; [|done].
  destruct (Z.ltb_spec (Trace.get_real_line_size tc) end_) as [Hout|Hin];
    injection H as <- <- <- <-; [done|].
  exists file_path, line_range, to_check, rel, start, end_, tc.
  repeat split; try done; lia.
Qed.

End TargetBranchProps.

Lemma target_branch_selection_accepted_witness :
  match
    (TargetBranch.process_target_branch_selection (λ p, p) Corpus.path_join (λ p _, p)
       (λ _, true) (λ _, false) "/project" (λ _, "python") (λ _, "#") (λ _, None)
       (λ _, Ok Sample.source_code)
       ∅ (Some "if x > 5") (Some "never taken") (Some ("test_file.py", "4-2"))).2
  with
  | Ok (_, true, Some (_, (start, end_))) => 0 ≤ start ≤ end_
  | _ => False
  end.
Proof.
  destruct (TargetBranch.process_target_branch_selection (λ p, p) Corpus.path_join
              (λ p _, p) (λ _, true) (λ _, false) "/project" (λ _, "python") (λ _, "#")
              (λ _, None) (λ _, Ok Sample.source_code)
              ∅ (Some "if x > 5") (Some "never taken") (Some ("test_file.py", "4-2")))
    as [file2cov' [[[msg ok] sel]|e]] eqn:H; [|vm_compute in H; discriminate].
  pose proof (target_branch_selection_accepted _ _ _ _ _ _ _ _ _ _ _ _ _ _ _ _ _ _ H)
    as Hacc.
  destruct ok; [|vm_compute in H; discriminate].
  destruct Hacc as (file_path & line_range & to_check & rel & start & end_ & tc & _
                    & -> & Hbounds & _).
  simpl. lia.
Defined.
(** ** When the solver tool reports success *)

Section SmtSuccessProps.

Import SmtSolver.

Variable Constraint : Type.
Variable py_eval : string → outcome Constraint.
Variable py_exec : string → outcome (option (Constraint * bool)).
Variable z3_check : Constraint → string + check_result.

Lemma report_success (r : check_result) (obs : string) :
  report r = (obs, true) ↔
  ∃ model vars, r = Sat model ∧ model ≠ []
                ∧ variables_of model = inr vars
                ∧ obs = Py.join nl (solution_of vars).
Proof.
  split.
  - destruct r as [model| |reason].
    + destruct (variables_of model) as [msg|vars] eqn:Hvars.
      * by rewrite (proj1 (proj2 report_outcomes) model msg Hvars).
      * destruct model as [|decl model].
        -- by rewrite (proj2 (proj2 (proj2 (proj2 report_outcomes)))).
        -- rewrite (proj1 (proj1 report_outcomes (decl :: model) vars ltac:(done) Hvars)).
           intros [= <-]. by exists (decl :: model), vars.
    + by rewrite (proj1 (proj2 (proj2 report_outcomes))).
    + by rewrite (proj1 (proj2 (proj2 (proj2 report_outcomes)))).
  - intros (model & vars & -> & Hne & Hvars & ->). by apply report_outcomes.
Qed.

(** X14.  [process_smt_solver] returns with its success flag set exactly
    when the constraint text is not blank, evaluates to a constraint (in the
    expression dialect by [eval], in the code-block dialect as the Z3
    boolean bound to [final_constraint]), the solver answers SAT with a
    model that has at least one entry, and the handler reads every entry of
    the model; the observation is then the listing of the model.  The
    handler reads every entry unless one is an algebraic value whose
    conversion to a float raises; the call is then reported as a solving
    error, like an error of the evaluation or of the solver.  These, UNSAT,
    UNKNOWN and an empty model all leave the flag false. *)
Theorem smt_success_needs_model (smt_constraints : option string) (obs : string) :
  (process_smt_solver Constraint py_eval py_exec z3_check smt_constraints
   = Some (obs, true)
   ↔ ∃ s c model vars,
       smt_constraints = Some s
       ∧ Py.is_empty (Py.strip s) = false
       ∧ ((is_format1 (Py.split "010" (block_text s)) = true
           ∧ py_eval (block_text s) = Returns c)
          ∨ (is_format1 (Py.split "010" (block_text s)) = false
             ∧ py_exec (code_of_block (Py.split "010" (block_text s)))
               = Returns (Some (c, true))))
       ∧ z3_check c = inr (Sat model)
       ∧ model ≠ []
       ∧ variables_of model = inr vars
       ∧ obs = Py.join nl (solution_of vars))
  ∧ (∀ model,
       (∃ vars, variables_of model = inr vars)
       ↔ Forall (λ entry, ∀ msg, entry.2 ≠ AlgebraicValue (inl msg)) model)
  ∧ (∀ c model msg,
       z3_check c = inr (Sat model) → variables_of model = inl msg →
       solve Constraint z3_check c = ("Z3 solving error:" ++ nl ++ " " ++ msg, false)).
Proof.
  assert (∀ c, solve Constraint z3_check c = (obs, true)
               ↔ ∃ model vars, z3_check c = inr (Sat model) ∧ model ≠ []
                               ∧ variables_of model = inr vars
                               ∧ obs = Py.join nl (solution_of vars))
    as Hsolve.
  { intros c. unfold solve. destruct (z3_check c) as [msg|r].
    - split; [done|]. by intros (model & vars & ? & _).
    - rewrite report_success. split.
      + intros (model & vars & -> & ? & ? & ?). by exists model, vars.
      + intros (model & vars & [= ->] & ? & ? & ?). by exists model, vars. }
  split; [|split].
  - unfold process_smt_solver. split.
    + destruct smt_constraints as [s|]; [|done].
      destruct (Py.is_empty (Py.strip s)) eqn:Hs; [done|].
      destruct (is_format1 _) eqn:Hfmt.
      * destruct (py_eval _) as [c|msg|] eqn:Heval; [|done..].
        intros [= H]. apply Hsolve in H as (model & vars & ? & ? & ? & ?).
        exists s, c, model, vars. repeat split; try done. by left.
      * destruct (py_exec _) as [[[c [|]]|]|msg|] eqn:Hexec; try done.
        intros [= H]. apply Hsolve in H as (model & vars & ? & ? & ? & ?).
        exists s, c, model, vars. repeat split; try done. by right.
    + intros (s & c & model & vars & -> & -> & Hdialect & Hsat & Hne & Hvars & Hobs).
      destruct Hdialect as [[-> ->]|[-> ->]]; f_equal; apply Hsolve;
        by exists model, vars.
  - apply variables_of_reads.
  - intros c model msg Hsat Hvars. unfold solve. rewrite Hsat.
    by rewrite (proj1 (proj2 report_outcomes) model msg Hvars).
Qed.

End SmtSuccessProps.

Lemma smt_success_needs_model_witness :
  ∃ obs, SmtSolver.process_smt_solver unit SampleSolver.py_eval SampleSolver.py_exec
           SampleSolver.z3_check (Some SampleSolver.code_block) = Some (obs, true).
Proof.
  eexists.
  apply (smt_success_needs_model unit SampleSolver.py_eval SampleSolver.py_exec
           SampleSolver.z3_check).
  eexists _, tt, _, _. split; [reflexivity|]. split; [reflexivity|].
  split; [right; split; vm_compute; reflexivity|].
  split; [vm_compute; reflexivity|]. split; [discriminate|].
  split; [vm_compute; reflexivity|reflexivity].
Defined.

(** An algebraic value in the model, such as the root of [x * x == 2]: its
    conversion raises, and the satisfiable constraint is reported as a
    solving error. *)
Example algebraic_value_reported_as_error :
  SmtSolver.process_smt_solver unit SampleSolver.py_eval SampleSolver.py_exec
    (λ _, inr (SmtSolver.Sat
                 [("x", SmtSolver.AlgebraicValue
                          (inl "float() argument must be a string or a real number, not 'RatNumRef'"))]))
    (Some "z3.Real('x') * z3.Real('x') == 2")
  = Some ("Z3 solving error:
 float() argument must be a string or a real number, not 'RatNumRef'", false).
Proof. vm_compute. reflexivity. Qed.

(** ** The prompt cache of the scheduling agent *)

Section PromptCacheProps.

Import SchedulingAgent.

Variable unescape : string → string.
Variable system_prompt : string.

Abbreviation _build_user_prompt :=
  (SchedulingAgent._build_user_prompt unescape system_prompt).

Lemma cache_reused_iff (cached : gset Z) (provided : list (Z * string)) :
  (0 <? size cached)%nat
  && forallb (λ tc_id, bool_decide (tc_id ∈ provided.*1)) (elements cached) = true
  ↔ cached ≠ ∅ ∧ cached ⊆ list_to_set provided.*1.
Proof.
  rewrite andb_true_iff, Nat.ltb_lt, forallb_forall. split.
  - intros [Hsize Hall]. split.
    + intros ->. rewrite size_empty in Hsize. lia.
    + intros x Hx. apply elem_of_list_to_set.
      apply elem_of_elements, list_elem_of_In, Hall in Hx. by apply bool_decide_eq_true_1 in Hx.
  - intros [Hne Hsub]. split.
    + assert (size cached ≠ 0%nat) as Hsize; [|lia].
      intros H0. apply size_empty_inv in H0. by apply leibniz_equiv in H0.
    + intros x Hx. apply bool_decide_eq_true_2.
      apply list_elem_of_In, elem_of_elements, Hsub in Hx.
      by apply elem_of_list_to_set in Hx.
Qed.

Lemma new_entries_keys (cached : gset Z) (provided : list (Z * string)) (x : Z) :
  x ∈ (List.filter (λ entry : Z * string, bool_decide (entry.1 ∉ cached)) provided).*1
  ↔ x ∈ provided.*1 ∧ x ∉ cached.
Proof.
  rewrite !list_elem_of_fmap. split.
  - intros ([k v] & -> & Hin). apply list_elem_of_In, filter_In in Hin as [Hin Hnew].
    apply bool_decide_eq_true_1 in Hnew. split; [|done]. exists (k, v).
    split; [done|]. by apply list_elem_of_In.
  - intros [([k v] & -> & Hin) Hnew]. exists (k, v). split; [done|].
    apply list_elem_of_In, filter_In. split; [by apply list_elem_of_In|].
    by apply bool_decide_eq_true_2.
Qed.

(** X17.  After [_build_user_prompt] the ids that the agent holds as cached
    are the ids of the provided cases.  When every id cached before is
    still provided, the cached thread is kept and at most one user message,
    with the descriptions of the cases that are new, is appended to it;
    otherwise the thread is built anew from the system prompt and the whole
    view.  From its initial state on, the agent has a thread whenever it
    holds cached ids, and the method returns. *)
Theorem prompt_cache_tracks_provided (a : Agent) (provided : list (Z * string)) :
  (already_cached_tc_ids a ≠ ∅ → is_Some (cached_msg_thread a)) →
  ∃ a' thread',
    _build_user_prompt a provided = Ok a'
    ∧ already_cached_tc_ids a' = list_to_set provided.*1
    ∧ cached_msg_thread a' = Some thread'
    ∧ if decide (already_cached_tc_ids a ≠ ∅
                 ∧ already_cached_tc_ids a ⊆ list_to_set provided.*1)
      then
        ∃ thread,
          cached_msg_thread a = Some thread
          ∧ thread'
            = app thread
                (if decide (list_to_set provided.*1 ⊆ already_cached_tc_ids a) then []
                 else [(User,
                        fold_left
                          (λ text (entry : Z * string), text ++ entry.2 ++ nl ++ nl)
                          (List.filter
                             (λ entry : Z * string,
                                bool_decide (entry.1 ∉ already_cached_tc_ids a))
                             provided)
                          EmptyString)])
      else
        thread'
        = [(System, system_prompt);
           (User, unescape (Corpus.SCHEDULING_FORMAT_REMINDER ++ nl ++ nl
                              ++ Py.join (nl ++ nl) provided.*2))].
Proof.
  intros Hinv. unfold SchedulingAgent._build_user_prompt.
  destruct a as [cached thread]. simpl in *.
  destruct (decide (cached ≠ ∅ ∧ cached ⊆ list_to_set provided.*1)) as [Hreuse|Hfresh].
  - rewrite (proj2 (cache_reused_iff cached provided) Hreuse).
    destruct Hreuse as [Hne Hsub]. destruct (Hinv Hne) as [t ->].
    set (new := List.filter _ provided).
    destruct (decide (list_to_set provided.*1 ⊆ cached)) as [Hall|Hsome].
    + assert (new.*1 = []) as ->.
      { destruct (new.*1) as [|x l] eqn:Hnew; [done|]. exfalso.
        assert (x ∈ new.*1) as Hx by (rewrite Hnew; left).
        apply new_entries_keys in Hx as [Hx Hnot]. apply Hnot, Hall.
        by apply elem_of_list_to_set. }
      simpl. exists (mkAgent cached (Some t)), t. split; [done|]. split.
      * simpl. apply set_eq. intros x. split; [apply Hsub|apply Hall].
      * split; [done|]. exists t. by rewrite app_nil_r.
    + assert ((0 <? length new.*1)%nat = true) as ->.
      { apply Nat.ltb_lt. destruct (new.*1) as [|x l] eqn:Hnew; [|simpl; lia].
        exfalso. apply Hsome. intros x Hx. apply elem_of_list_to_set in Hx.
        destruct (decide (x ∈ cached)) as [|Hnot]; [done|].
        assert (x ∈ new.*1) as Hin by (by apply new_entries_keys).
        rewrite Hnew in Hin. by apply elem_of_nil in Hin. }
      eexists _, _. split; [done|]. simpl. split; [|split; [done|by exists t]].
      apply set_eq. intros x.
      rewrite elem_of_union, !elem_of_list_to_set. unfold new.
      rewrite new_entries_keys. split.
      * intros [Hx|[Hx _]]; [|done]. apply Hsub in Hx.
        by apply elem_of_list_to_set in Hx.
      * intros Hx. destruct (decide (x ∈ cached)); [by left|by right].
  - assert ((0 <? size cached)%nat
            && forallb (λ tc_id, bool_decide (tc_id ∈ provided.*1)) (elements cached)
            = false) as ->.
    { destruct (_ && _) eqn:H; [|done]. by apply cache_reused_iff in H. }
    eexists _, _. by repeat split.
Qed.

End PromptCacheProps.

Lemma prompt_cache_tracks_provided_witness :
  ∃ a',
    SchedulingAgent._build_user_prompt (λ s, s) "system"
      (SchedulingAgent.mkAgent {[ 0 ]} (Some [(SchedulingAgent.System, "system")]))
      [(0, "case 0"); (1, "case 1")] = Ok a'
    ∧ SchedulingAgent.already_cached_tc_ids a' = {[ 0; 1 ]}.
Proof.
  destruct (prompt_cache_tracks_provided (λ s, s) "system"
              (SchedulingAgent.mkAgent {[ 0 ]} (Some [(SchedulingAgent.System, "system")]))
              [(0, "case 0"); (1, "case 1")])
    as (a' & thread' & Hrun & Hids & _).
  - intros _. by eexists.
  - exists a'. split; [exact Hrun|]. rewrite Hids. simpl. apply set_eq. intros x.
    rewrite !elem_of_union, !elem_of_singleton. split.
    + intros [?|[?|H]]; [by left|by right|]. by apply elem_of_empty in H.
    + intros [?|?]; [by left|right; by left].
Defined.

Lemma load_after_save_roundtrip_witness :
  ∃ d, Corpus._out_dir SampleCorpus.child = Some d
       ∧ Corpus.load_from_file SampleCorpus.parse_usage_dict 45
           (Corpus.path_join (Corpus.path_join d "queue")
              (Corpus.yaml_filename SampleCorpus.child))
           (Some d)
           (Corpus.mkDisk {[ "out/queue" ]}
              {[ "out/queue/id:000001,src:000000.yaml" :=
                   Corpus.to_dict SampleCorpus.usage_nonempty
                     SampleCorpus.format_usage_dict SampleCorpus.child ]})
         = Ok SampleCorpus.child.
Proof.
  apply (load_after_save_roundtrip SampleCorpus.usage_nonempty
           SampleCorpus.format_usage_dict SampleCorpus.parse_usage_dict
           SampleCorpus.child SampleCorpus.disk _ 45).
  - vm_compute. reflexivity.
  - repeat constructor.
  - split; [reflexivity|lia].
  - intros _. split; reflexivity.
Defined.

Lemma scheduling_view_first_case_too_large_witness :
  Corpus.get_all_scheduling_information SampleCorpus.func_call_chain_str
    SampleCorpus.format_percent (λ s, 1000 * Z.of_nat (String.length s))
    SampleCorpus.manager
  = Raise AssertionError.
Proof.
  eapply (scheduling_view_first_case_too_large SampleCorpus.func_call_chain_str
            SampleCorpus.format_percent (λ s, 1000 * Z.of_nat (String.length s))
            SampleCorpus.manager).
  - discriminate.
  - vm_compute. reflexivity.
  - vm_compute. reflexivity.
  - vm_compute. reflexivity.
  - vm_compute. reflexivity.
Defined.

(** ** Merging the comments of unexecuted code *)

Section MergeProps.

Import Trace.

Variable percent_0 : Z → Z → string.
Variable percent_0_of_text : string → result string.

Abbreviation merge_from := (Trace.merge_from percent_0 percent_0_of_text).
Abbreviation merge_comments := (Trace.merge_comments percent_0).

(** The lines that the inner loop advances over are blank lines and
    comments, and the comments it collects are among them. *)
Lemma consecutive_advances token (rest : list string) :
  let '(more, advanced) := consecutive token rest in
  (advanced ≤ length rest)%nat
  ∧ (length more ≤ advanced)%nat
  ∧ Forall (λ line, Py.is_empty (Py.strip line) = true
                    ∨ is_Some (search_unexecuted token line))
      (take advanced rest).
Proof.
  induction rest as [|line rest IH]; simpl; [by repeat split|].
  destruct (consecutive token rest) as [more advanced].
  destruct IH as (Hlen & Hmore & Hall).
  destruct (Py.is_empty (Py.strip line)) eqn:Hblank.
  - split; [simpl; lia|]. split; [lia|]. simpl. constructor; [by left|done].
  - destruct (search_unexecuted token line) as [m|] eqn:Hm.
    + split; [simpl; lia|]. split; [simpl; lia|]. simpl.
      constructor; [right; by eexists|done].
    + split; [simpl; lia|]. split; [done|]. simpl. constructor.
Qed.

Lemma merge_comments_length token indent comments merged :
  merge_comments token indent comments = Ok merged →
  (length merged ≤ Nat.max 1 (length comments))%nat.
Proof.
  unfold Trace.merge_comments.
  destruct (hd_error comments ≫= search_unexecuted token) as [[[[[g1 ?] ?] ?] ?]|];
    [|intros [= <-]; lia].
  destruct (last comments ≫= search_unexecuted token) as [[[[[? g2] ?] ?] ?]|];
    [|intros [= <-]; lia].
  destruct (foldR _ _ _) as [[c t]|]; simpl; [|done]. intros [= <-]. simpl. lia.
Qed.

(** X18.  Merging the comments of unexecuted code keeps the code: when
    [_merge_unexecuted_comments] returns, the lines of the view that are
    neither blank nor such a comment are all in the result, in their
    order; the result has no more lines than the view; and a view without
    such a comment is returned as it is. *)
Theorem merge_keeps_code (tc : TraceCollector) (summary_list merged_list : list string) :
  Trace._merge_unexecuted_comments percent_0 percent_0_of_text tc summary_list
  = Ok merged_list →
  List.filter
    (λ line, negb (Py.is_empty (Py.strip line))
             && negb (bool_decide (is_Some (search_unexecuted (comment_token tc) line))))
    summary_list
  `sublist_of` merged_list
  ∧ (length merged_list ≤ length summary_list)%nat
  ∧ (Forall (λ line, search_unexecuted (comment_token tc) line = None) summary_list →
     merged_list = summary_list).
Proof.
  unfold Trace._merge_unexecuted_comments.
  set (token := comment_token tc).
  set (code := λ line, negb (Py.is_empty (Py.strip line))
                       && negb (bool_decide (is_Some (search_unexecuted token line)))).
  assert (∀ rounds lines out,
            (length lines ≤ rounds)%nat → merge_from rounds token lines = Ok out →
            List.filter code lines `sublist_of` out
            ∧ (length out ≤ length lines)%nat
            ∧ (Forall (λ line, search_unexecuted token line = None) lines → out = lines))
    as Hmerge; [|by apply Hmerge].
  induction rounds as [|rounds IH]; intros lines out Hlen H.
  { destruct lines; [|simpl in Hlen; lia]. injection H as <-. by repeat split. }
  destruct lines as [|line rest]; [injection H as <-; by repeat split|].
  simpl in Hlen. cbn [Trace.merge_from] in H.
  destruct (search_unexecuted token line) as [m|] eqn:Hm.
  - assert (code line = false) as Hcode
      by (unfold code; rewrite Hm, bool_decide_true by (by eexists); by rewrite andb_false_r).
    cbn [List.filter]. rewrite Hcode.
    pose proof (consecutive_advances token rest) as Hadv.
    destruct (consecutive token rest) as [more advanced].
    destruct Hadv as (Hk & Hmore & Hskipped).
    destruct more as [|c more].
    + destruct (reword_comment _ _ _ _) as [merged_comment|]; simpl in H; [|done].
      destruct (merge_from rounds token rest) as [out'|] eqn:Hrest; simpl in H; [|done].
      injection H as <-. destruct (IH rest out' ltac:(lia) Hrest) as (Hsub & Hle & _).
      split; [by apply sublist_cons|]. split; [simpl; lia|].
      intros Hall. apply Forall_cons in Hall as [Hnone _]. congruence.
    + destruct (merge_comments token _ _) as [merged|] eqn:Hmc; simpl in H; [|done].
      destruct (merge_from rounds token (drop advanced rest)) as [out'|] eqn:Hrest;
        simpl in H; [|done].
      injection H as <-.
      destruct (IH (drop advanced rest) out') as (Hsub & Hle & _);
        [rewrite length_drop; lia|done|].
      apply merge_comments_length in Hmc. simpl in Hmc, Hmore.
      rewrite length_drop in Hle. rewrite length_app. split; [|split; [simpl; lia|]].
      * apply sublist_inserts_l.
        rewrite <- (take_drop advanced rest) at 1. rewrite List.filter_app.
        assert (List.filter code (take advanced rest) = []) as ->; [|done].
        clear -Hskipped. induction Hskipped as [|x l Hx _ IHl]; [done|].
        cbn [List.filter]. rewrite IHl.
        assert (code x = false) as ->; [|done]. unfold code.
        destruct Hx as [->|Hx]; [done|]. rewrite bool_decide_true by done.
        by rewrite andb_false_r.
      * intros Hall. apply Forall_cons in Hall as [Hnone _]. congruence.
  - destruct (merge_from rounds token rest) as [out'|] eqn:Hrest; simpl in H; [|done].
    injection H as <-. destruct (IH rest out' ltac:(lia) Hrest) as (Hsub & Hle & Hid).
    split; [|split; [simpl; lia|]].
    + cbn [List.filter]. destruct (code line); [by apply sublist_skip|by apply sublist_cons].
    + intros Hall. apply Forall_cons in Hall as [_ Hall]. by rewrite Hid.
Qed.

End MergeProps.

Lemma merge_keeps_code_witness :
  ∃ merged_list,
    Trace._merge_unexecuted_comments Sample.percent_0 Sample.percent_0_of_text
      Sample.collector
      ["x = 1"; "    # unexecuted: (2-3), cov: 0/2 (0.0%)"; EmptyString;
       "    # unexecuted: (4-4), cov: 1/1 (100.0%)"; "y = 2"]
    = Ok merged_list
    ∧ ["x = 1"; "y = 2"] `sublist_of` merged_list
    ∧ (length merged_list ≤ 5)%nat.
Proof.
  destruct (Trace._merge_unexecuted_comments Sample.percent_0 Sample.percent_0_of_text
              Sample.collector
              ["x = 1"; "    # unexecuted: (2-3), cov: 0/2 (0.0%)"; EmptyString;
               "    # unexecuted: (4-4), cov: 1/1 (100.0%)"; "y = 2"])
    as [merged_list|e] eqn:H; [|vm_compute in H; discriminate].
  exists merged_list. split; [done|].
  destruct (merge_keeps_code Sample.percent_0 Sample.percent_0_of_text _ _ _ H)
    as (Hsub & Hlen & _).
  split; [exact Hsub|exact Hlen].
Defined.

Example merge_sample :
  Trace._merge_unexecuted_comments Sample.percent_0 Sample.percent_0_of_text
    Sample.collector
    ["x = 1"; "    # unexecuted: (2-3), cov: 0/2 (0.0%)"; EmptyString;
     "    # unexecuted: (4-4), cov: 1/1 (100.0%)"; "y = 2"]
  = Ok ["x = 1"; "    # Unexecuted code (lines 2-4) removed. Its line cov: 1/3 (33%)";
        "y = 2"].
Proof. vm_compute. reflexivity. Qed.
